(** * accelerate / utils / megatron_lm.py : a shallow embedding

    The adapter between the training-orchestration API and the external
    distributed engine.  Every function of the adapter that the properties
    below speak about is transcribed here from [megatron_lm.py]; what the
    adapter merely calls in the external engine or in torch (checkpoint
    I/O, the fused train step, the pipeline runner, the torch loss
    modules, the [DataLoader] constructor, the arithmetic of
    floating-point tensors) is a parameter of the section that uses it.
    Integer tensors are [int64]: their arithmetic wraps around. *)

From Stdlib Require Import ZArith QArith Qabs Qpower Lqa Lia List Bool.
From stdpp Require Import base option list strings gmap.

Local Open Scope string_scope.
Local Open Scope Z_scope.

(** ** Python values, exceptions and control flow *)

Module Py.

(** The exceptions the adapter raises itself or provokes in the interpreter. *)
Inductive exn : Type :=
| ValueError (msg : string)
| NotImplementedError (msg : string)
| TypeError
| AttributeError (attr : string)
| KeyError (key : string)
| IndexError
| ZeroDivisionError
| RuntimeError
| StopIteration.

(** A Python number: [int] (unbounded) or [float].  A float is represented
    by the rational it denotes; NaN and the infinities are not represented,
    and rounding of float arithmetic is not modelled (the adapter only
    compares such numbers with constants). *)
Inductive num : Type :=
| PyInt (z : Z)
| PyFloat (q : Q).

(** The dynamically typed values that reach the adapter's keyword
    arguments. *)
Inductive obj : Type :=
| PyNone
| PyBool (b : bool)
| PyNum (n : num)
| PyStr (s : string).

(** Outcome of running a block of statements of a function body: fall
    through to the next statement, [return v], or [raise e]. *)
Inductive flow (A : Type) : Type :=
| Continue (a : A)
| Return (v : obj)
| Raise (e : exn).
Arguments Continue {A} a.
Arguments Return {A} v.
Arguments Raise {A} e.

Definition bind {A B : Type} (m : flow A) (k : A -> flow B) : flow B :=
  match m with
  | Continue a => k a
  | Return v => Return v
  | Raise e => Raise e
  end.

(** Outcome of evaluating an expression or calling a function: a value or
    an exception. *)
Inductive result (A : Type) : Type :=
| Ok (a : A)
| Err (e : exn).
Arguments Ok {A} a.
Arguments Err {A} e.

Definition rbind {A B : Type} (m : result A) (k : A -> result B) : result B :=
  match m with
  | Ok a => k a
  | Err e => Err e
  end.

Definition lift {A : Type} (m : result A) : flow A :=
  match m with
  | Ok a => Continue a
  | Err e => Raise e
  end.

Definition num_val (n : num) : Q :=
  match n with
  | PyInt z => inject_Z z
  | PyFloat q => q
  end.

(** The numeric value an object takes in an ordering comparison with a
    number; [bool] is a subclass of [int]; [None] and [str] do not compare
    with numbers. *)
Definition as_num (o : obj) : result Q :=
  match o with
  | PyNum n => Ok (num_val n)
  | PyBool b => Ok (inject_Z (Z.b2z b))
  | PyNone | PyStr _ => Err TypeError
  end.

Definition Qlt_bool (x y : Q) : bool := negb (Qle_bool y x).

(** [isinstance(o, int)] and [isinstance(o, bool)]. *)
Definition isinstance_int (o : obj) : bool :=
  match o with
  | PyBool _ | PyNum (PyInt _) => true
  | _ => false
  end.

Definition isinstance_bool (o : obj) : bool :=
  match o with
  | PyBool _ => true
  | _ => false
  end.

Definition is_None (o : obj) : bool :=
  match o with
  | PyNone => true
  | _ => false
  end.

(** [kwargs.get(key, default)] *)
Definition dict_get (kwargs : gmap string obj) (key : string) (default : obj) : obj :=
  match kwargs !! key with
  | Some v => v
  | None => default
  end.

End Py.

Import Py.

(** Both are monads; stdpp's [x ← m; k] and [m;; k] sequence statements. *)
#[global] Instance flow_ret : MRet flow := fun _ a => Continue a.
#[global] Instance flow_bind : MBind flow := fun _ _ k m => bind m k.
#[global] Instance result_ret : MRet result := fun _ a => Ok a.
#[global] Instance result_bind : MBind result := fun _ _ k m => rbind m k.

(** ** Tensors and dictionaries of tensors *)

Module Tensor.

(** A loss value is a zero-dimensional tensor or a tensor with at least one
    dimension.  The latter is represented by its layout along dimension 0,
    the only dimension along which the adapter slices or concatenates.  An
    entry is the rational that a finite floating-point number denotes; the
    infinities and NaN are not represented. *)
Inductive tensor : Type :=
| Scalar (x : Q)
| Vec (xs : list Q).

(** The arithmetic of the tensor library on floating-point entries: what
    [a + b] and [a / b] return for finite results, rounding included.  It
    depends on the dtype of the tensors and on the kernels of the device,
    and is a parameter of everything that computes with tensors. *)
Class TensorArith : Type := {
  fadd : Q -> Q -> Q;
  fdiv : Q -> Q -> Q
}.

(** Arithmetic on [int64] entries wraps around. *)
Definition int64 (z : Z) : Prop := - 2 ^ 63 <= z < 2 ^ 63.

Definition wrap64 (z : Z) : Z := (z + 2 ^ 63) mod 2 ^ 64 - 2 ^ 63.

Definition mul64 (a b : Z) : Z := wrap64 (a * b).

Definition add64 (a b : Z) : Z := wrap64 (a + b).

(** [len(t.shape) == 0] *)
Definition is_scalar (t : tensor) : bool :=
  match t with
  | Scalar _ => true
  | Vec _ => false
  end.

Section Arith.
Context `{TensorArith}.

(** [a + b] with torch broadcasting. *)
Definition tadd (a b : tensor) : result tensor :=
  match a, b with
  | Scalar x, Scalar y => Ok (Scalar (fadd x y))
  | Scalar x, Vec ys => Ok (Vec (map (fadd x) ys))
  | Vec xs, Scalar y => Ok (Vec (map (fun x => fadd x y) xs))
  | Vec xs, Vec ys =>
      match xs, ys with
      | [x], _ => Ok (Vec (map (fadd x) ys))
      | _, [y] => Ok (Vec (map (fun x => fadd x y) xs))
      | _, _ =>
          if (length xs =? length ys)%nat then Ok (Vec (zip_with fadd xs ys))
          else Err RuntimeError
      end
  end.

(** [t / n] for a Python integer [n]; dividing a tensor by zero yields
    infinities or NaN, not an exception, and is outside the model. *)
Definition tdiv (t : tensor) (n : Z) : tensor :=
  match t with
  | Scalar x => Scalar (fdiv x (inject_Z n))
  | Vec xs => Vec (map (fun x => fdiv x (inject_Z n)) xs)
  end.

(** The builtin [sum(ts)]: starts from the integer 0 and adds from the
    left. *)
Fixpoint sum_from (acc : tensor) (ts : list tensor) : result tensor :=
  match ts with
  | [] => Ok acc
  | t :: ts' => acc' ← tadd acc t; sum_from acc' ts'
  end.

Definition py_sum (ts : list tensor) : result tensor := sum_from (Scalar 0) ts.

(** The running sum of numbers in the tensor arithmetic, from 0 and from
    the left: what [sum] and a loop of [+=] compute on zero-dimensional
    tensors. *)
Definition fsum (qs : list Q) : Q := fold_left fadd qs 0%Q.

(** The standard model of floating-point arithmetic with unit roundoff
    [u]: every operation returns its exact result with a relative error of
    at most [u]. *)
Definition accurate (u : Q) : Prop :=
  (0 <= u)%Q /\
  (forall x y, Qabs (fadd x y - (x + y)) <= u * Qabs (x + y))%Q /\
  (forall x y, Qabs (fdiv x y - x / y) <= u * Qabs (x / y))%Q.

End Arith.

(** [torch.concat(ts)] along dimension 0; zero-dimensional tensors cannot
    be concatenated. *)
Fixpoint concat (ts : list tensor) : result (list Q) :=
  match ts with
  | [] => Ok []
  | Scalar _ :: _ => Err RuntimeError
  | Vec xs :: ts' => rest ← concat ts'; Ok (xs ++ rest)%list
  end.

Definition torch_concat (ts : list tensor) : result tensor :=
  match ts with
  | [] => Err RuntimeError
  | _ => xs ← concat ts; Ok (Vec xs)
  end.

(** A Python [dict] with string keys, in insertion order. *)
Definition dict (V : Type) : Type := list (string * V).

Fixpoint dict_lookup {V : Type} (key : string) (d : dict V) : option V :=
  match d with
  | [] => None
  | (k, v) :: d' => if String.eqb k key then Some v else dict_lookup key d'
  end.

(** [d[key]] *)
Definition dict_getitem {V : Type} (d : dict V) (key : string) : result V :=
  match dict_lookup key d with
  | Some v => Ok v
  | None => Err (KeyError key)
  end.

(** [d[key] = v]: replaces the value of a key already present, appends a
    new key at the end. *)
Fixpoint dict_setitem {V : Type} (key : string) (v : V) (d : dict V) : dict V :=
  match d with
  | [] => [(key, v)]
  | (k, w) :: d' =>
      if String.eqb k key then (k, v) :: d' else (k, w) :: dict_setitem key v d'
  end.

Definition keys {V : Type} (d : dict V) : list string := map fst d.

(** [xs[a:b]] for arbitrary integers [a], [b]. *)
Definition clamp_index (len i : Z) : Z :=
  if i <? 0 then Z.max (i + len) 0 else Z.min i len.

Definition py_slice {A : Type} (a b : Z) (xs : list A) : list A :=
  let len := Z.of_nat (length xs) in
  let a' := clamp_index len a in
  let b' := clamp_index len b in
  take (Z.to_nat (b' - a')) (drop (Z.to_nat a') xs).

(** [[f(x) for x in xs]] where [f] may raise. *)
Fixpoint mapR {A B : Type} (f : A -> result B) (xs : list A) : result (list B) :=
  match xs with
  | [] => Ok []
  | x :: xs' => y ← f x; ys ← mapR f xs'; Ok (y :: ys)
  end.

(** A 2-D tensor is the list of its rows, a 3-D tensor the list of its 2-D
    slices. *)
Definition shape2 {A : Type} (B S : nat) (t : list (list A)) : Prop :=
  length t = B /\ Forall (fun r => length r = S) t.

Definition shape3 {A : Type} (B S T : nat) (t : list (list (list A))) : Prop :=
  length t = B /\ Forall (shape2 S T) t.

End Tensor.

(** ** 4.6 Text generation entry point: [MegatronEngine.megatron_generate] *)

Module Generate.

(** The fields of the global argument namespace the entry point reads. *)
Record Args : Type := {
  model_type_name : string;
  data_parallel_size : Z;
  sequence_parallel : bool;
  recompute_granularity : option string;
  vocab_file : option string
}.

(** The sampling parameters as they stand when control reaches
    [tokenizer = get_tokenizer()]. *)
Record Sampling : Type := {
  s_temperature : Q;
  s_top_k : Q;
  s_top_p : Q;
  s_top_p_decay : Q;
  s_top_p_bound : Q;
  s_add_BOS : obj;
  s_beam_width : obj
}.

Definition guard (violated : bool) (e : exn) : flow unit :=
  if violated then Raise e else Continue tt.

(** [a < x <= b] with Python's chained comparison. *)
Definition in_left_open (a : Q) (x : obj) (b : Q) : result bool :=
  v ← as_num x; Ok (Qlt_bool a v && Qle_bool v b).

(** [a <= x <= b] *)
Definition in_closed (a : Q) (x : obj) (b : Q) : result bool :=
  v ← as_num x; Ok (Qle_bool a v && Qle_bool v b).

Definition check_temperature (temperature : obj) : flow Q :=
  if is_None temperature then Continue 1%Q
  else
    inside ← lift (in_left_open 0 temperature 100);
    guard (negb inside)
      (ValueError "temperature must be a positive number less than or equal to 100.0");;
    lift (as_num temperature).

Definition check_top_k (top_k : obj) : flow Q :=
  if is_None top_k then Continue 0%Q
  else
    inside ← lift (in_closed 0 top_k 1000);
    guard (negb inside)
      (ValueError "top_k must be a positive number less than or equal to 1000");;
    lift (as_num top_k).

Definition check_top_p (top_p : obj) (top_k : Q) : flow Q :=
  if is_None top_p then Continue 0%Q
  else
    p ← lift (as_num top_p);
    if Qlt_bool 0 p && Qlt_bool 0 top_k
    then Raise (ValueError "top_p and top_k sampling cannot be set together")
    else
      guard (negb (Qle_bool 0 p && Qle_bool p 1))
        (ValueError "top_p must be less than or equal to 1.0");;
      Continue p.

Definition check_unit_interval (x : obj) (msg : string) : flow Q :=
  inside ← lift (in_closed 0 x 1);
  guard (negb inside) (ValueError msg);;
  lift (as_num x).

(** The block under [if beam_width is not None:]. *)
Definition check_beam (beam_width : obj) (batch_size : Z) : flow unit :=
  if is_None beam_width then Continue tt
  else if negb (isinstance_int beam_width)
  then Raise (ValueError "beam_width must be an integer")
  else
    w ← lift (as_num beam_width);
    guard (Qlt_bool w 1) (ValueError "beam_width must be greater than 0");;
    if 1 <? batch_size
    then Return (PyStr "When doing beam_search, batch size must be 1")
    else Continue tt.

(** Lines 1246-1303 of [megatron_generate]: everything before
    [tokenizer = get_tokenizer()].  [batch_size] is [inputs.shape[0]]. *)
Definition megatron_generate (args : Args) (batch_size : Z)
    (max_length max_new_tokens num_beams temperature top_k top_p : obj)
    (kwargs : gmap string obj) : flow Sampling :=
  guard (negb (String.eqb (model_type_name args) "gpt"))
    (NotImplementedError "Generate method is not implemented for this model");;
  guard (1 <? data_parallel_size args)
    (ValueError "Generate method requires data parallelism to be 1");;
  guard (sequence_parallel args)
    (ValueError "Generate method requires sequence parallelism to be False");;
  guard (bool_decide (recompute_granularity args <> None))
    (ValueError "Checkpoint activations cannot be set for inference");;
  guard (bool_decide (vocab_file args = None))
    (ValueError "Vocab file is required for inference");;
  guard (is_None max_length && is_None max_new_tokens)
    (ValueError "`max_length` or `max_new_tokens` are required for inference");;
  temperature' ← check_temperature temperature;
  top_k' ← check_top_k top_k;
  top_p' ← check_top_p top_p top_k';
  top_p_decay ← check_unit_interval (dict_get kwargs "top_p_decay" (PyNum (PyFloat 0)))
    "top_p_decay must be less than or equal to 1.0";
  top_p_bound ← check_unit_interval (dict_get kwargs "top_p_bound" (PyNum (PyFloat 0)))
    "top_p_bound must be less than or equal to 1.0";
  let add_BOS := dict_get kwargs "add_BOS" (PyBool false) in
  guard (negb (isinstance_bool add_BOS)) (ValueError "add_BOS must be a boolean");;
  let beam_width := num_beams in
  check_beam beam_width batch_size;;
  Continue {| s_temperature := temperature'; s_top_k := top_k'; s_top_p := top_p';
              s_top_p_decay := top_p_decay; s_top_p_bound := top_p_bound;
              s_add_BOS := add_BOS; s_beam_width := beam_width |}.

(** A configuration that passes the five checks on the argument namespace. *)
Definition admissible (args : Args) : Prop :=
  model_type_name args = "gpt" /\ data_parallel_size args <= 1 /\
  sequence_parallel args = false /\ recompute_granularity args = None /\
  vocab_file args <> None.

Definition gpt_args : Args :=
  {| model_type_name := "gpt"; data_parallel_size := 1; sequence_parallel := false;
     recompute_granularity := None; vocab_file := Some "vocab.json" |}.

End Generate.

(** ** 4.4 Attention-mask derivation: [T5TrainStep.attn_mask_postprocess] *)

Module T5Mask.
Import Tensor.

(** The entries of an attention mask are [int64]: the caller passes
    [attention_mask.long()], and the product of two such tensors wraps
    around. *)

(** [t.unsqueeze(1)]: [b, s] to [b, 1, s]. *)
Definition unsqueeze1 {A : Type} (t : list (list A)) : list (list (list A)) :=
  map (fun r => [r]) t.

(** [t.unsqueeze(2)]: [b, s] to [b, s, 1]. *)
Definition unsqueeze2 {A : Type} (t : list (list A)) : list (list (list A)) :=
  map (map (fun x => [x])) t.

(** Broadcasting of a binary operation along one dimension: an operand of
    size 1 is stretched to the size of the other.  Sizes that differ and are
    both not 1 are not broadcastable in torch; the mask derivation pairs
    [b,1,s] with [b,s,1] and never builds such operands. *)
Definition broadcast {A B C : Type} (f : A -> B -> C) (xs : list A) (ys : list B) : list C :=
  match xs, ys with
  | [x], _ => map (f x) ys
  | _, [y] => map (fun x => f x y) xs
  | _, _ => zip_with f xs ys
  end.

Definition broadcast3 {A B C : Type} (f : A -> B -> C)
    : list (list (list A)) -> list (list (list B)) -> list (list (list C)) :=
  broadcast (broadcast (broadcast f)).

Definition map3 {A B : Type} (f : A -> B) : list (list (list A)) -> list (list (list B)) :=
  map (map (map f)).

(** [x < 0.5] on an integer entry. *)
Definition lt_half (x : Z) : bool := Qlt_bool (inject_Z x) (1 # 2).

Definition attn_mask_postprocess (attention_mask : list (list Z)) : list (list (list bool)) :=
  let attention_mask_b1s := unsqueeze1 attention_mask in
  let attention_mask_bs1 := unsqueeze2 attention_mask in
  let attention_mask_bss := broadcast3 mul64 attention_mask_b1s attention_mask_bs1 in
  let extended_attention_mask := map3 lt_half attention_mask_bss in
  extended_attention_mask.

(** The mask the specification words describe: each broadcast thresholded
    at 0.5 (an entry counts when it exceeds 0.5), combined by elementwise
    AND. *)
Definition exceeds_half (x : Z) : bool := Qlt_bool (1 # 2) (inject_Z x).

Definition and_of_broadcasts (attention_mask : list (list Z)) : list (list (list bool)) :=
  broadcast3 andb (map3 exceeds_half (unsqueeze1 attention_mask))
                  (map3 exceeds_half (unsqueeze2 attention_mask)).

(** Entry [b, i, j] of a 3-D tensor. *)
Definition entry3 {A : Type} (t : list (list (list A))) (b i j : nat) : option A :=
  match t !! b with
  | Some slice =>
      match slice !! i with
      | Some row => row !! j
      | None => None
      end
  | None => None
  end.

(** A mask whose entries are all 0 or 1. *)
Definition binary (attention_mask : list (list Z)) : Prop :=
  Forall (Forall (fun v => v = 0 \/ v = 1)) attention_mask.

End T5Mask.

(** ** 4.5 Step-orchestrating wrapper: [MegatronEngine] *)

Module Engine.
Import Tensor.

(** The fields of the global argument namespace the wrapper reads or
    writes. *)
Record Args : Type := {
  save : option string;
  load : option string;
  consumed_train_samples : Z;
  consumed_valid_samples : Z;
  fp16 : bool;
  tensorboard_dir : option string;
  micro_batch_size : Z;
  num_micro_batches : Z;
  seq_length : Z;
  empty_unused_memory_level : Z
}.

Definition set_save (p : string) (a : Args) : Args :=
  {| save := Some p; load := load a;
     consumed_train_samples := consumed_train_samples a;
     consumed_valid_samples := consumed_valid_samples a;
     fp16 := fp16 a; tensorboard_dir := tensorboard_dir a;
     micro_batch_size := micro_batch_size a; num_micro_batches := num_micro_batches a;
     seq_length := seq_length a; empty_unused_memory_level := empty_unused_memory_level a |}.

Definition set_load (p : string) (a : Args) : Args :=
  {| save := save a; load := Some p;
     consumed_train_samples := consumed_train_samples a;
     consumed_valid_samples := consumed_valid_samples a;
     fp16 := fp16 a; tensorboard_dir := tensorboard_dir a;
     micro_batch_size := micro_batch_size a; num_micro_batches := num_micro_batches a;
     seq_length := seq_length a; empty_unused_memory_level := empty_unused_memory_level a |}.

Definition set_consumed (train valid : Z) (a : Args) : Args :=
  {| save := save a; load := load a;
     consumed_train_samples := train;
     consumed_valid_samples := valid;
     fp16 := fp16 a; tensorboard_dir := tensorboard_dir a;
     micro_batch_size := micro_batch_size a; num_micro_batches := num_micro_batches a;
     seq_length := seq_length a; empty_unused_memory_level := empty_unused_memory_level a |}.

(** Python objects that several owners refer to live in a heap of attribute
    dictionaries, addressed by location. *)
Definition loc : Type := nat.
Abbreviation Heap := (gmap loc (gmap string obj)).

(** [o.name] *)
Definition getattr (l : loc) (name : string) (h : Heap) : result obj :=
  match h !! l with
  | Some attrs =>
      match attrs !! name with
      | Some v => Ok v
      | None => Err (AttributeError name)
      end
  | None => Err (AttributeError name)
  end.

(** [o.name = v] *)
Definition setattr (l : loc) (name : string) (v : obj) (h : Heap) : Heap :=
  <[l := <[name := v]> (default ∅ (h !! l))]> h.

(** The attributes of the wrapper that its methods read or write after
    construction; [module_len] is [len(self.module)], [optimizer] the
    reference held in [self.optimizer]. *)
Record MegatronEngine : Type := {
  module_len : Z;
  optimizer : loc;
  iteration : Z;
  num_floating_point_operations_so_far : Q;
  eval_total_loss_dict : dict tensor
}.

Definition set_eval_total_loss_dict (d : dict tensor) (e : MegatronEngine) : MegatronEngine :=
  {| module_len := module_len e; optimizer := optimizer e; iteration := iteration e;
     num_floating_point_operations_so_far := num_floating_point_operations_so_far e;
     eval_total_loss_dict := d |}.

Definition set_counters (it : Z) (flops : Q) (e : MegatronEngine) : MegatronEngine :=
  {| module_len := module_len e; optimizer := optimizer e; iteration := it;
     num_floating_point_operations_so_far := flops;
     eval_total_loss_dict := eval_total_loss_dict e |}.

(** What [get_batch_data_iterator] hands to the external engine: one
    iterator over the microbatch chunks, or one per model chunk; [None] when
    the rank received no data. *)
Inductive batch_iterator : Type :=
| Single (it : option (list (dict tensor)))
| PerModelChunk (its : list (option (list (dict tensor)))).

(** The entry points of the external distributed engine the wrapper calls.
    [World] is the state the engine owns: the process group, the model
    chunks, the optimizer and scheduler internals, checkpoint storage. *)
Class ExternalEngine (World : Type) : Type := {
  barrier : World -> World;
  engine_save_checkpoint : Args -> Z -> Q -> World -> World;
  engine_load_checkpoint : Args -> World -> (Z * Q) * World;
  reload_model_params : World -> World;
  engine_train_step :
    Args -> batch_iterator -> loc -> Heap -> World ->
    (dict tensor * Z * obj * obj) * Heap * World;
  forward_backward_func : Args -> batch_iterator -> Z -> World -> list (dict tensor) * World;
  get_num_microbatches : World -> Z;
  get_data_parallel_world_size : World -> Z;
  is_pipeline_last_stage : World -> bool;
  empty_cache : World -> World
}.

Record State (World : Type) : Type := {
  args : Args;
  heap : Heap;
  self : MegatronEngine;
  world : World
}.
Arguments args {World} _.
Arguments heap {World} _.
Arguments self {World} _.
Arguments world {World} _.

(** The optimizer-shaped object handed to the calling framework.
    Modelled from the spec: the base class [AcceleratedOptimizer]
    (accelerate/optimizer.py) is not part of this file; it keeps the
    wrapped optimizer in [self.optimizer], a pass-through adapter. *)
Record MegatronLMOptimizerWrapper : Type := {
  wrapped_optimizer : loc
}.

(** The property [step_was_skipped]: [return self.optimizer.skipped_iter]. *)
Definition step_was_skipped (w : MegatronLMOptimizerWrapper) (h : Heap) : result obj :=
  getattr (wrapped_optimizer w) "skipped_iter" h.

Section Methods.
Context {World : Type} `{ExternalEngine World} `{TensorArith}.

(** [v[a:b]] on a batch field; a zero-dimensional tensor cannot be
    sliced. *)
Definition tslice (a b : Z) (t : tensor) : result tensor :=
  match t with
  | Scalar _ => Err IndexError
  | Vec xs => Ok (Vec (py_slice a b xs))
  end.

(** [{k: v[i * mbs : (i + 1) * mbs] for k, v in batch_data.items()}] *)
Definition chunk (a : Args) (batch_data : dict tensor) (i : Z) : result (dict tensor) :=
  mapR (fun kv : string * tensor =>
          v ← tslice (i * micro_batch_size a) ((i + 1) * micro_batch_size a) (snd kv);
          Ok (fst kv, v)) batch_data.

(** [range(0, n)] *)
Definition range (n : Z) : list Z := map Z.of_nat (seq 0 (Z.to_nat n)).

Definition get_batch_data_iterator (a : Args) (e : MegatronEngine) (batch_data : dict tensor)
    : result batch_iterator :=
  let nonempty := (0 <? length batch_data)%nat in
  data_chunks ←
    (if nonempty then
       if 1 <? num_micro_batches a
       then mapR (chunk a batch_data) (range (num_micro_batches a))
       else Ok [batch_data]
     else Ok []);
  if 1 <? module_len e
  then Ok (PerModelChunk
             (replicate (Z.to_nat (module_len e))
                (if nonempty then Some data_chunks else None)))
  else Ok (Single (if nonempty then Some data_chunks else None)).

Definition train_step (batch_data : dict tensor) (st : State World)
    : result ((dict tensor * Z * obj * obj) * State World) :=
  batch_data_iterator ← get_batch_data_iterator (args st) (self st) batch_data;
  let '(ret, heap1, world1) :=
    engine_train_step (args st) batch_data_iterator (optimizer (self st))
      (heap st) (world st) in
  let '(loss_reduced, skipped_iter, grad_norm, num_zeros_in_grad) := ret in
  let heap2 := setattr (optimizer (self st)) "skipped_iter" (PyBool (skipped_iter =? 1)) heap1 in
  Ok ((loss_reduced, skipped_iter, grad_norm, num_zeros_in_grad),
      {| args := args st; heap := heap2; self := self st; world := world1 |}).

(** [key.endswith(suffix)] *)
Definition endswith (key suffix : string) : bool :=
  let n := String.length key in
  let k := String.length suffix in
  (k <=? n)%nat && String.eqb (String.substring (n - k) k key) suffix.

(** [a / b] on tensors, with broadcasting; a zero divisor yields an
    infinity or NaN, not an exception, and is outside the model. *)
Definition tdiv2 (a b : tensor) : result tensor :=
  match a, b with
  | Scalar x, Scalar y => Ok (Scalar (fdiv x y))
  | Scalar x, Vec ys => Ok (Vec (map (fdiv x) ys))
  | Vec xs, Scalar y => Ok (Vec (map (fun x => fdiv x y) xs))
  | Vec xs, Vec ys =>
      match xs, ys with
      | [x], _ => Ok (Vec (map (fdiv x) ys))
      | _, [y] => Ok (Vec (map (fun x => fdiv x y) xs))
      | _, _ =>
          if (length xs =? length ys)%nat then Ok (Vec (zip_with fdiv xs ys))
          else Err RuntimeError
      end
  end.

(** [t.item()]: only a tensor with one element converts to a number. *)
Definition item (t : tensor) : result Q :=
  match t with
  | Scalar x => Ok x
  | Vec [x] => Ok x
  | Vec _ => Err RuntimeError
  end.

(** The loop of [log_eval_results] over the accumulated evaluation losses.
    Building the report string and writing to tensorboard leave the state
    alone; what the loop can do to the caller is raise. *)
Fixpoint log_eval_keys (d : dict tensor) (ks : list string) : result unit :=
  match ks with
  | [] => Ok tt
  | key :: ks' =>
      if endswith key "_num_iters" then log_eval_keys d ks'
      else
        total ← dict_getitem d key;
        count ← dict_getitem d (String.append key "_num_iters");
        value ← tdiv2 total count;
        _ ← item value;
        log_eval_keys d ks'
  end.

Definition log_eval_results (st : State World) : result (State World) :=
  if bool_decide (tensorboard_dir (args st) = None) || (iteration (self st) =? 0)
  then Ok st
  else
    _ ← log_eval_keys (eval_total_loss_dict (self st)) (keys (eval_total_loss_dict (self st)));
    Ok {| args := args st; heap := heap st;
          self := set_eval_total_loss_dict [] (self st); world := world st |}.

Definition save_checkpoint (output_dir : string) (st : State World) : result (State World) :=
  st1 ← log_eval_results st;
  let args1 := set_save output_dir (args st1) in
  let world1 := barrier (world st1) in
  let world2 :=
    engine_save_checkpoint args1 (iteration (self st1))
      (num_floating_point_operations_so_far (self st1)) world1 in
  let world3 := barrier world2 in
  Ok {| args := args1; heap := heap st1; self := self st1; world := world3 |}.

Definition load_checkpoint (input_dir : string) (st : State World) : State World :=
  let args1 := set_consumed 0 0 (set_load input_dir (args st)) in
  let world1 := barrier (world st) in
  let '((iteration', num_floating_point_operations_so_far'), world2) :=
    engine_load_checkpoint args1 world1 in
  let world3 := barrier world2 in
  let self1 := set_counters iteration' num_floating_point_operations_so_far' (self st) in
  let world4 :=
    if fp16 args1 && (iteration self1 =? 0) then reload_model_params world3 else world3 in
  {| args := args1; heap := heap st; self := self1; world := world4 |}.

(** The reduction of the per-microbatch loss dictionaries for one key. *)
Definition reduce_key (loss_dicts : list (dict tensor)) (key : string) : result tensor :=
  losses_reduced_for_key ← mapR (fun x => dict_getitem x key) loss_dicts;
  match losses_reduced_for_key with
  | [] => Err IndexError
  | first :: _ =>
      if is_scalar first
      then
        total ← py_sum losses_reduced_for_key;
        Ok (tdiv total (Z.of_nat (length losses_reduced_for_key)))
      else torch_concat losses_reduced_for_key
  end.

(** [for key in loss_dicts[0]: loss_reduced[key] = ...] *)
Fixpoint reduce_keys (loss_dicts : list (dict tensor)) (ks : list string)
    (loss_reduced : dict tensor) : result (dict tensor) :=
  match ks with
  | [] => Ok loss_reduced
  | key :: ks' =>
      v ← reduce_key loss_dicts key;
      reduce_keys loss_dicts ks' (dict_setitem key v loss_reduced)
  end.

Definition eval_step (batch_data : dict tensor) (st : State World)
    : result (dict tensor * State World) :=
  let a := args st in
  batch_data_iterator ← get_batch_data_iterator a (self st) batch_data;
  let '(loss_dicts, world1) :=
    forward_backward_func a batch_data_iterator (get_num_microbatches (world st))
      (world st) in
  let world2 := if 1 <=? empty_unused_memory_level a then empty_cache world1 else world1 in
  let args1 :=
    set_consumed (consumed_train_samples a)
      (consumed_valid_samples a +
       get_data_parallel_world_size world2 * micro_batch_size a * get_num_microbatches world2)
      a in
  let st1 := {| args := args1; heap := heap st; self := self st; world := world2 |} in
  if is_pipeline_last_stage world2
  then
    match loss_dicts with
    | [] => Err IndexError
    | first :: _ =>
        loss_reduced ← reduce_keys loss_dicts (keys first) [];
        Ok (loss_reduced, st1)
    end
  else Ok ([], st1).

End Methods.

(** Vocabulary of the reduction's specification: the per-microbatch values
    recorded under a key, and the arithmetic mean. *)
Fixpoint column (key : string) (loss_dicts : list (dict tensor)) : option (list tensor) :=
  match loss_dicts with
  | [] => Some []
  | d :: rest =>
      match dict_lookup key d, column key rest with
      | Some v, Some vs => Some (v :: vs)
      | _, _ => None
      end
  end.

Definition Qsum (xs : list Q) : Q := fold_right Qplus 0%Q xs.

Definition mean (xs : list Q) : Q := (Qsum xs / inject_Z (Z.of_nat (length xs)))%Q.

(** All values zero-dimensional, or all with at least one dimension. *)
Definition homogeneous (vals : list tensor) : Prop :=
  (exists qs, vals = map Scalar qs) \/ (exists vs, vals = map Vec vs).

(** The per-microbatch dictionaries a final pipeline stage receives from
    the forward-only runner: at least one, each key of the first present in
    all of them with values of one kind. *)
Definition well_formed_losses (loss_dicts : list (dict tensor)) : Prop :=
  exists first rest,
    loss_dicts = first :: rest /\ NoDup (keys first) /\
    forall key, In key (keys first) ->
      exists vals, column key loss_dicts = Some vals /\ homogeneous vals.

End Engine.

(** ** 4.2 Dataloader shim *)

Module DataLoader.
Import Tensor.

(** *** Iterators *)

(** A data iterator, as far as [next] can tell: the null stand-in defined
    inside [_handle_megatron_data_iterator], or an iterator the engine
    built, given by the batches it still has to yield. *)
Inductive data_iterator : Type :=
| DummyMegatronDataloader
| EngineIterator (batches : list (dict tensor)).

(** [next(it)]: the yielded mapping and the iterator afterwards. *)
Definition next (it : data_iterator) : result (dict tensor * data_iterator) :=
  match it with
  | DummyMegatronDataloader => Ok ([], DummyMegatronDataloader)
  | EngineIterator [] => Err StopIteration
  | EngineIterator (b :: rest) => Ok (b, EngineIterator rest)
  end.

(** [n] successive calls of [next]: the mappings yielded, in order. *)
Fixpoint next_n (n : nat) (it : data_iterator) : result (list (dict tensor) * data_iterator) :=
  match n with
  | O => Ok ([], it)
  | S n' =>
      r ← next it;
      rs ← next_n n' (snd r);
      Ok (fst r :: fst rs, snd rs)
  end.

(** What the builders return for one split: [None], one iterator, or with
    virtual pipelining a list with one entry per model chunk. *)
Inductive iterator_value : Type :=
| NoIterator
| OneIterator (it : data_iterator)
| IteratorList (its : list (option data_iterator)).

Definition of_option (o : option data_iterator) : iterator_value :=
  match o with
  | Some it => OneIterator it
  | None => NoIterator
  end.

Definition is_None_iterator (v : iterator_value) : bool :=
  match v with
  | NoIterator => true
  | _ => false
  end.

(** *** Arguments and the external engine *)

Record Args : Type := {
  megatron_dataset_flag : bool;
  micro_batch_size : Z;
  num_micro_batches : Z;
  consumed_samples : option (Z * Z * Z);
  consumed_train_samples : Z;
  consumed_valid_samples : Z;
  consumed_test_samples : Z;
  virtual_pipeline_model_parallel_size : option Z;
  model_len : option Z;
  model_type_name : string
}.

Definition set_micro_batch_size (m : Z) (a : Args) : Args :=
  {| megatron_dataset_flag := megatron_dataset_flag a; micro_batch_size := m;
     num_micro_batches := num_micro_batches a; consumed_samples := consumed_samples a;
     consumed_train_samples := consumed_train_samples a;
     consumed_valid_samples := consumed_valid_samples a;
     consumed_test_samples := consumed_test_samples a;
     virtual_pipeline_model_parallel_size := virtual_pipeline_model_parallel_size a;
     model_len := model_len a; model_type_name := model_type_name a |}.

Definition set_consumed (c : Z * Z * Z) (a : Args) : Args :=
  {| megatron_dataset_flag := megatron_dataset_flag a; micro_batch_size := micro_batch_size a;
     num_micro_batches := num_micro_batches a; consumed_samples := consumed_samples a;
     consumed_train_samples := fst (fst c);
     consumed_valid_samples := snd (fst c);
     consumed_test_samples := snd c;
     virtual_pipeline_model_parallel_size := virtual_pipeline_model_parallel_size a;
     model_len := model_len a; model_type_name := model_type_name a |}.

(** Which function builds the datasets: the plugin's, the one imported
    from the engine's [pretrain_*] script, or the local fallback. *)
Inductive datasets_provider : Type :=
| CustomProvider
| PretrainScriptProvider (model_type : string)
| LocalProvider.

(** An object found among a dataloader's attributes, as far as the shim
    looks at it: whether it is an instance of [BatchSampler], and its
    [batch_size] attribute if it has one. *)
Record PyObject : Type := {
  is_BatchSampler : bool;
  batch_size_attr : option Z;
  repr : string
}.

Inductive kwval : Type :=
| VNone
| VInt (z : Z)
| VBool (b : bool)
| VObj (o : PyObject).

(** The entry points of the engine and of torch the shim calls.  The
    engine's iterator builder reads the argument namespace and may write
    to it. *)
Class DataEngine (World : Type) : Type := {
  engine_build_train_valid_test_data_iterators :
    datasets_provider -> Args -> World ->
    (option data_iterator * option data_iterator * option data_iterator) * Args * World;
  set_virtual_pipeline_model_parallel_rank : Z -> World -> World;
  (** the flag every rank holds after the broadcast from the
      tensor-parallel source rank, given the local flag *)
  broadcast_from_src : bool -> World -> bool;
  get_data_parallel_world_size : World -> Z;
  get_data_parallel_rank : World -> Z;
  (** [torch.utils.data.DataLoader(dataset, **kwargs)]: the constructor
      checks its arguments and raises on a combination it refuses *)
  torch_DataLoader : kwval -> gmap string kwval -> result unit
}.

(** The state in which the loop of the virtual-pipeline branch makes its
    call for chunk [i]: the argument namespace and the engine's world after
    the calls for the chunks before it, each made with the
    virtual-pipeline rank set to its chunk. *)
Fixpoint chunk_state {World : Type} `{DataEngine World} (provider : datasets_provider)
    (i : nat) (a : Args) (w : World) : Args * World :=
  match i with
  | O => (a, w)
  | S j =>
      let '(aj, wj) := chunk_state provider j a w in
      let '(_, a', w') :=
        engine_build_train_valid_test_data_iterators provider aj
          (set_virtual_pipeline_model_parallel_rank (Z.of_nat j) wj) in
      (a', w')
  end.

(** The three iterators the engine's builder returns for chunk [i]. *)
Definition chunk_iterators {World : Type} `{DataEngine World} (provider : datasets_provider)
    (i : nat) (a : Args) (w : World)
    : option data_iterator * option data_iterator * option data_iterator :=
  let '(ai, wi) := chunk_state provider i a w in
  fst (fst (engine_build_train_valid_test_data_iterators provider ai
              (set_virtual_pipeline_model_parallel_rank (Z.of_nat i) wi))).

(** The plugin settings and import outcome the provider choice depends on. *)
Record Plugin : Type := {
  custom_megatron_datasets_provider_function : bool;
  pretrain_script_importable : bool
}.

Section Native.
Context {World : Type} `{DataEngine World}.

Definition get_train_valid_test_datasets_provider (pl : Plugin) (a : Args)
    : datasets_provider :=
  if custom_megatron_datasets_provider_function pl then CustomProvider
  else if pretrain_script_importable pl &&
          (String.eqb (model_type_name a) "bert" || String.eqb (model_type_name a) "gpt" ||
           String.eqb (model_type_name a) "t5")
  then PretrainScriptProvider (model_type_name a)
  else LocalProvider.

(** The loop [for i in range(getattr(args, "model_len", 0))] of the
    virtual-pipeline branch; the three accumulators are the lists built by
    [append]. *)
Fixpoint build_per_chunk (provider : datasets_provider) (chunks : list Z)
    (acc : list (option data_iterator) * list (option data_iterator) *
           list (option data_iterator))
    (a : Args) (w : World)
    : (list (option data_iterator) * list (option data_iterator) *
       list (option data_iterator)) * Args * World :=
  match chunks with
  | [] => (acc, a, w)
  | i :: rest =>
      let w1 := set_virtual_pipeline_model_parallel_rank i w in
      let '((tr, va, te), a1, w2) :=
        engine_build_train_valid_test_data_iterators provider a w1 in
      let '(trs, vas, tes) := acc in
      build_per_chunk provider rest
        ((trs ++ [tr])%list, (vas ++ [va])%list, (tes ++ [te])%list) a1 w2
  end.

(** [MegatronLMDummyDataLoader.build_train_valid_test_data_iterators] *)
Definition build_train_valid_test_data_iterators (pl : Plugin) (a : Args) (w : World)
    : (iterator_value * iterator_value * iterator_value) * Args * World :=
  let provider := get_train_valid_test_datasets_provider pl a in
  match virtual_pipeline_model_parallel_size a with
  | Some _ =>
      let n := default 0 (model_len a) in
      let '((trs, vas, tes), a1, w1) :=
        build_per_chunk provider (map Z.of_nat (seq 0 (Z.to_nat n))) ([], [], []) a w in
      ((IteratorList trs, IteratorList vas, IteratorList tes), a1, w1)
  | None =>
      let '((tr, va, te), a1, w1) :=
        engine_build_train_valid_test_data_iterators provider a w in
      ((of_option tr, of_option va, of_option te), a1, w1)
  end.

Definition _handle_megatron_data_iterator (w : World) (data_iterator : iterator_value)
    : iterator_value :=
  let is_data_iterator_empty := is_None_iterator data_iterator in
  let is_src_data_iterator_empty := broadcast_from_src is_data_iterator_empty w in
  if negb is_src_data_iterator_empty && is_data_iterator_empty
  then OneIterator DummyMegatronDataloader
  else data_iterator.

(** The [else] branch of [prepare_data_loader] (native datasets). *)
Definition prepare_data_loader_megatron (pl : Plugin) (a : Args) (w : World)
    : result ((iterator_value * iterator_value * iterator_value) * Args * World) :=
  let a1 :=
    match consumed_samples a with
    | Some c => set_consumed c a
    | None => set_consumed (0, 0, 0) a
    end in
  let a2 := set_micro_batch_size (micro_batch_size a1 * num_micro_batches a1) a1 in
  let '((train_data_iterator, valid_data_iterator, test_data_iterator), a3, w1) :=
    build_train_valid_test_data_iterators pl a2 w in
  if num_micro_batches a3 =? 0 then Err ZeroDivisionError
  else
    let a4 := set_micro_batch_size (micro_batch_size a3 / num_micro_batches a3) a3 in
    let train_data_iterator := _handle_megatron_data_iterator w1 train_data_iterator in
    let valid_data_iterator := _handle_megatron_data_iterator w1 valid_data_iterator in
    let test_data_iterator := _handle_megatron_data_iterator w1 test_data_iterator in
    Ok ((train_data_iterator, valid_data_iterator, test_data_iterator), a4, w1).

End Native.

(** *** Generic mode *)

Definition is_VNone (v : kwval) : bool :=
  match v with
  | VNone => true
  | _ => false
  end.

(** [isinstance(v, torch.utils.data.BatchSampler)] *)
Definition isinstance_BatchSampler (v : kwval) : bool :=
  match v with
  | VObj o => is_BatchSampler o
  | _ => false
  end.

(** [v.batch_size = n]; [None] and numbers take no attributes. *)
Definition set_batch_size (v : kwval) (n : Z) : result kwval :=
  match v with
  | VObj o =>
      Ok (VObj {| is_BatchSampler := is_BatchSampler o; batch_size_attr := Some n;
                  repr := repr o |})
  | _ => Err (AttributeError "batch_size")
  end.

(** [kwargs[key]] and [del kwargs[key]] *)
Definition getitem (kwargs : gmap string kwval) (key : string) : result kwval :=
  match kwargs !! key with
  | Some v => Ok v
  | None => Err (KeyError key)
  end.

Definition delitem (kwargs : gmap string kwval) (key : string) : result (gmap string kwval) :=
  match kwargs !! key with
  | Some _ => Ok (delete key kwargs)
  | None => Err (KeyError key)
  end.

(** The call [prepare_data_loader(dataloader, device, ...)] into
    accelerate/data_loader.py that ends the generic branch, by its
    arguments; [dataloader] is [DataLoader(dataset, **kwargs)]. *)
Record PreparedCall : Type := {
  dataset : kwval;
  dataloader_kwargs : gmap string kwval;
  num_processes : Z;
  process_index : Z;
  split_batches : bool;
  put_on_device : bool
}.

(** The number of samples in the batches a torch [DataLoader] constructed
    from these keyword arguments yields: that of its batch sampler if one
    is given; else its [batch_size] (1 when the argument is omitted); with
    [batch_size=None], what the sampler yields, a batch when the sampler is
    itself a [BatchSampler]. *)
Definition effective_batch_size (kwargs : gmap string kwval) : option Z :=
  match kwargs !! "batch_sampler" with
  | Some (VObj o) => batch_size_attr o
  | _ =>
      match kwargs !! "batch_size" with
      | Some (VInt b) => Some b
      | Some VNone =>
          match kwargs !! "sampler" with
          | Some (VObj o) => if is_BatchSampler o then batch_size_attr o else None
          | _ => None
          end
      | None => Some 1
      | _ => None
      end
  end.

(** The attribute combinations of a dataloader that batches: a batch size
    given directly; or no batch size and a [BatchSampler] passed as the
    sampler; or no batch size and a batch sampler object. *)
Definition batching (kwargs : gmap string kwval) : Prop :=
  (exists v, kwargs !! "batch_size" = Some v /\ is_VNone v = false) \/
  (kwargs !! "batch_size" = Some VNone /\
   exists o, kwargs !! "sampler" = Some (VObj o) /\ is_BatchSampler o = true /\
             kwargs !! "batch_sampler" = Some VNone) \/
  (kwargs !! "batch_size" = Some VNone /\
   (exists v, kwargs !! "sampler" = Some v /\ isinstance_BatchSampler v = false) /\
   exists o, kwargs !! "batch_sampler" = Some (VObj o)).

Section Generic.
Context {World : Type} `{DataEngine World}.

(** The table of [DataLoader] keyword arguments and their defaults, defined
    in accelerate/data_loader.py. *)
Variable _PYTORCH_DATALOADER_KWARGS : gmap string kwval.

(** [{k: getattr(dataloader, k, _PYTORCH_DATALOADER_KWARGS[k]) for k in ...}];
    the dataloader is given by its attributes. *)
Definition collect_kwargs (dataloader : gmap string kwval) : gmap string kwval :=
  map_imap (fun k d => Some (default d (dataloader !! k))) _PYTORCH_DATALOADER_KWARGS.

(** The [if not args.megatron_dataset_flag] branch of [prepare_data_loader]. *)
Definition prepare_data_loader_generic (a : Args) (w : World)
    (dataloader : gmap string kwval) : result PreparedCall :=
  let micro_batch_size := micro_batch_size a * num_micro_batches a in
  let kwargs := collect_kwargs dataloader in
  batch_size ← getitem kwargs "batch_size";
  kwargs' ←
    (if is_VNone batch_size then
       sampler ← getitem kwargs "sampler";
       if isinstance_BatchSampler sampler then
         sampler' ← set_batch_size sampler micro_batch_size;
         Ok (<["sampler" := sampler']> kwargs)
       else
         kwargs1 ← delitem kwargs "sampler";
         kwargs2 ← delitem kwargs1 "shuffle";
         kwargs3 ← delitem kwargs2 "batch_size";
         batch_sampler ← getitem kwargs3 "batch_sampler";
         batch_sampler' ← set_batch_size batch_sampler micro_batch_size;
         Ok (<["batch_sampler" := batch_sampler']> kwargs3)
     else
       kwargs1 ← delitem kwargs "batch_sampler";
       Ok (<["batch_size" := VInt micro_batch_size]> kwargs1));
  ds ← match dataloader !! "dataset" with
       | Some d => Ok d
       | None => Err (AttributeError "dataset")
       end;
  _ ← torch_DataLoader ds kwargs';
  Ok {| dataset := ds; dataloader_kwargs := kwargs';
        num_processes := get_data_parallel_world_size w;
        process_index := get_data_parallel_rank w;
        split_batches := false; put_on_device := true |}.

(** [prepare_data_loader]: the two modes. *)
Definition prepare_data_loader (pl : Plugin) (a : Args) (w : World)
    (dataloader : gmap string kwval)
    : result (PreparedCall +
              (iterator_value * iterator_value * iterator_value) * Args * World) :=
  if negb (megatron_dataset_flag a)
  then call ← prepare_data_loader_generic a w dataloader; Ok (inl call)
  else r ← prepare_data_loader_megatron pl a w; Ok (inr r).

End Generic.

End DataLoader.

(** ** 4.4 Decoder-only batch decoder: [GPTTrainStep.get_batch_func] *)

Module GPTBatch.
Import Tensor.

(** The attributes of a [GPTTrainStep] the batch decoders read. *)
Record GPTTrainStep : Type := {
  eod_token : Z;
  reset_position_ids : bool;
  reset_attention_mask : bool;
  eod_mask_loss : bool
}.

(** [row[1:]] and [row[:-1]] *)
Definition from_1 {A : Type} (row : list A) : list A :=
  py_slice 1 (Z.of_nat (length row)) row.

Definition to_minus_1 {A : Type} (row : list A) : list A :=
  py_slice 0 (-1) row.

(** [torch.concat([a, b], dim=1)] of two 2-D tensors with the same number
    of rows. *)
Definition concat_dim1 {A : Type} (a b : list (list A)) : list (list A) :=
  zip_with (fun x y => (x ++ y)%list) a b.

Section Decoder.

(** The engine's [get_ltor_masks_and_position_ids], which returns the
    attention mask, the loss mask and the position ids. *)
Variable Masks : Type.
Variable get_ltor_masks_and_position_ids : list (list Z) -> Z -> bool -> bool -> bool -> Masks.

(** An iterator over generic batches, by the batches left.  The padding
    column is [torch.zeros((B, 1), dtype=int64) + self.eod_token]: the sum
    is an [int64] entry. *)
Definition get_batch_transformer (self : GPTTrainStep)
    (data_iterator : list (dict (list (list Z))))
    : result ((list (list Z) * list (list Z) * Masks) * list (dict (list (list Z)))) :=
  match data_iterator with
  | [] => Err StopIteration
  | data :: data_iterator' =>
      input_ids ← dict_getitem data "input_ids";
      let data := [("input_ids", input_ids)] in
      tokens_ ← dict_getitem data "input_ids";
      let padding := replicate (length tokens_) [add64 0 (eod_token self)] in
      let tokens_ := concat_dim1 tokens_ padding in
      let labels := map from_1 tokens_ in
      let tokens := map to_minus_1 tokens_ in
      let masks :=
        get_ltor_masks_and_position_ids tokens (eod_token self)
          (reset_position_ids self) (reset_attention_mask self) true in
      Ok ((tokens, labels, masks), data_iterator')
  end.

(** The native-dataset decoder, for comparison: the dataset already holds
    sequences one token longer than the model input. *)
Definition get_batch_megatron (self : GPTTrainStep) (text : list (list Z))
    : list (list Z) * list (list Z) * Masks :=
  let tokens_ := text in
  let labels := map from_1 tokens_ in
  let tokens := map to_minus_1 tokens_ in
  (tokens, labels,
   get_ltor_masks_and_position_ids tokens (eod_token self)
     (reset_position_ids self) (reset_attention_mask self) (eod_mask_loss self)).

End Decoder.

End GPTBatch.

(** ** 4.4 Encoder-only fine-tuning loss: [BertTrainStep.get_loss_func] *)

Module BertLoss.

(** A value stored in an attribute. *)
Inductive attr : Type :=
| Data (o : obj)
| Closure (name : string)
| Class (name : string).

(** An instance, by its [__dict__]. *)
Abbreviation instance := (gmap string attr).

(** The names defined on the class [BertTrainStep] and its bases
    [AbstractTrainStep] and [ABC]; the double-underscore names inherited
    from [object] are left out, none of them is read here. *)
Definition class_attributes : list string :=
  ["__init__"; "get_batch_func"; "get_loss_func"; "get_forward_step_func";
   "__doc__"; "__module__"; "_abc_impl"].

(** [self.name]: the instance dictionary, then the class. *)
Definition getattr (self : instance) (name : string) : result attr :=
  match self !! name with
  | Some v => Ok v
  | None =>
      if bool_decide (name ∈ class_attributes) then Ok (Closure name)
      else Err (AttributeError name)
  end.

(** The argument namespace fields the constructor reads. *)
Record Args : Type := {
  megatron_dataset_flag : bool;
  pretraining_flag : bool;
  num_labels : Z;
  bert_binary_head : bool;
  model_return_dict : bool
}.

(** The plugin's override hooks, by whether they are set. *)
Record Plugin : Type := {
  custom_get_batch_function : bool;
  custom_loss_function : bool;
  pretrain_bert_importable : bool
}.

Definition get_batch_func (pl : Plugin) (megatron_dataset_flag : bool) : attr :=
  if custom_get_batch_function pl then Closure "custom_get_batch_function"
  else if megatron_dataset_flag then
    if pretrain_bert_importable pl then Closure "pretrain_bert.get_batch"
    else Closure "get_batch_megatron"
  else Closure "get_batch_transformer".

Definition get_loss_func (pl : Plugin) (pretraining_flag : bool) (num_labels : Z) : attr :=
  if custom_loss_function pl then Closure "custom_loss_function"
  else if pretraining_flag then Closure "loss_func_pretrain"
  else Closure "loss_func_finetune".

(** [BertTrainStep.__init__], with [AbstractTrainStep.__init__] inlined
    ([self.name = name]). *)
Definition BertTrainStep_init (pl : Plugin) (args : Args) : instance :=
  let self : instance := <["name" := Data (PyStr "BertTrainStep")]> ∅ in
  let self := <["get_batch" := get_batch_func pl (megatron_dataset_flag args)]> self in
  let self :=
    <["loss_func" := get_loss_func pl (pretraining_flag args) (num_labels args)]> self in
  let self := <["forward_step" := Closure "forward_step"]> self in
  if negb (model_return_dict args)
  then <["model_output_class" := Data PyNone]> self
  else <["model_output_class" := Class "SequenceClassifierOutput"]> self.

Inductive dtype : Type := torch_long | torch_int | torch_float | torch_other.

Section Loss.

(** Tensors and the torch loss modules are the engine's. *)
Variables Logits Labels Loss : Type.
Variable labels_dtype : Labels -> dtype.
Variable MSELoss : Logits -> Labels -> Loss.
Variable CrossEntropyLoss : Z -> Logits -> Labels -> Loss.
Variable BCEWithLogitsLoss : Logits -> Labels -> Loss.
Variable average_losses_across_data_parallel_group : list Loss -> list Loss.

(** [x > 1] for an attribute value. *)
Definition gt_1 (v : attr) : result bool :=
  match v with
  | Data o => q ← as_num o; Ok (Qlt_bool 1 q)
  | _ => Err TypeError
  end.

Definition dtype_in_long_int (d : dtype) : bool :=
  match d with
  | torch_long | torch_int => true
  | _ => false
  end.

(** The closure [loss_func_finetune(labels, logits)], which captures
    [self] and [num_labels] from [get_loss_func]. *)
Definition loss_func_finetune (self : instance) (num_labels : Z)
    (labels : Labels) (logits : Logits) : result (Loss * list (string * Loss)) :=
  loss ←
    (if num_labels =? 1 then Ok (MSELoss logits labels)
     else
       self_num_labels ← getattr self "num_labels";
       many ← gt_1 self_num_labels;
       if many && dtype_in_long_int (labels_dtype labels)
       then Ok (CrossEntropyLoss num_labels logits labels)
       else Ok (BCEWithLogitsLoss logits labels));
  match average_losses_across_data_parallel_group [loss] with
  | [] => Err IndexError
  | averaged :: _ => Ok (loss, [("loss", averaged)])
  end.

End Loss.

End BertLoss.

(** A small in-memory engine, used to exercise the wrapper on concrete
    runs: checkpoints are a map from path to the saved counters, every
    training step reports a skipped iteration, and evaluation yields two
    microbatches on the last pipeline stage. *)
Module MemoryEngine.
Import Tensor Engine.

Definition World : Type := gmap string (Z * Q).

Definition two_microbatches : list (dict tensor) :=
  [ [("lm loss", Scalar 1); ("logits", Vec [1; 2]%Q)];
    [("lm loss", Scalar 3); ("logits", Vec [3]%Q)] ].

#[global] Instance memory_engine : ExternalEngine World := {|
  barrier w := w;
  engine_save_checkpoint a it flops w :=
    match save a with
    | Some p => <[p := (it, flops)]> w
    | None => w
    end;
  engine_load_checkpoint a w :=
    (match load a with
     | Some p => default (0, 0%Q) (w !! p)
     | None => (0, 0%Q)
     end, w);
  reload_model_params w := w;
  engine_train_step a it o h w := (([("lm loss", Scalar 2)], 1, PyNone, PyNone), h, w);
  forward_backward_func a it n w := (two_microbatches, w);
  get_num_microbatches w := 2;
  get_data_parallel_world_size w := 1;
  is_pipeline_last_stage w := true;
  empty_cache w := w
|}.

Definition start_args : Args :=
  {| save := None; load := None; consumed_train_samples := 0; consumed_valid_samples := 0;
     fp16 := false; tensorboard_dir := None; micro_batch_size := 1; num_micro_batches := 2;
     seq_length := 4; empty_unused_memory_level := 0 |}.

(** An engine seven iterations into training; its optimizer is object 0, on
    which the constructor has set [skipped_iter = False]. *)
Definition start_state : State World :=
  {| args := start_args;
     heap := {[ 0%nat := {[ "skipped_iter" := PyBool false ]} ]};
     self := {| module_len := 1; optimizer := 0%nat; iteration := 7;
                num_floating_point_operations_so_far := 1000 # 1;
                eval_total_loss_dict := [] |};
     world := ∅ |}.

Definition one_batch : dict tensor := [("input_ids", Vec [1; 2]%Q)].

(** The same engine five training steps later: other counters, the same
    checkpoint storage. *)
Definition later_state (st : State World) : State World :=
  {| args := args st; heap := heap st;
     self := set_counters 12 (2500 # 1) (self st);
     world := world st |}.

End MemoryEngine.

(** A rank that holds no data while its tensor-parallel source rank does:
    the builders return no iterator, and the broadcast reports that the
    source's iterators are present. *)
Module DatalessRank.
Import DataLoader.

Definition World : Type := unit.

#[global] Instance dataless_rank : DataEngine World := {|
  engine_build_train_valid_test_data_iterators provider a w := ((None, None, None), a, w);
  set_virtual_pipeline_model_parallel_rank i w := w;
  broadcast_from_src local w := false;
  get_data_parallel_world_size w := 2;
  get_data_parallel_rank w := 0;
  torch_DataLoader ds kwargs :=
    match effective_batch_size kwargs with
    | Some b =>
        if b <=? 0 then Err (ValueError "batch_size should be a positive integer value")
        else Ok tt
    | None => Ok tt
    end
|}.

Definition plugin : Plugin :=
  {| custom_megatron_datasets_provider_function := false;
     pretrain_script_importable := false |}.

Definition native_args : Args :=
  {| megatron_dataset_flag := true; micro_batch_size := 8; num_micro_batches := 4;
     consumed_samples := None; consumed_train_samples := 0; consumed_valid_samples := 0;
     consumed_test_samples := 0; virtual_pipeline_model_parallel_size := None;
     model_len := Some 1; model_type_name := "gpt" |}.

Definition generic_args : Args :=
  {| megatron_dataset_flag := false; micro_batch_size := 8; num_micro_batches := 4;
     consumed_samples := None; consumed_train_samples := 0; consumed_valid_samples := 0;
     consumed_test_samples := 0; virtual_pipeline_model_parallel_size := None;
     model_len := Some 1; model_type_name := "gpt" |}.

(** The four entries of the keyword table the shim indexes, with torch's
    defaults. *)
Definition kwargs_table : gmap string kwval :=
  {[ "batch_size" := VInt 1; "shuffle" := VBool false; "sampler" := VNone;
     "batch_sampler" := VNone; "drop_last" := VBool false ]}.

Definition sequential_sampler : PyObject :=
  {| is_BatchSampler := false; batch_size_attr := None; repr := "SequentialSampler" |}.

Definition batch_sampler_16 : PyObject :=
  {| is_BatchSampler := true; batch_size_attr := Some 16; repr := "BatchSampler" |}.

(** [DataLoader(ds, batch_size=16)] by its attributes. *)
Definition loader_16 : gmap string kwval :=
  {[ "dataset" := VObj {| is_BatchSampler := false; batch_size_attr := None; repr := "ds" |};
     "batch_size" := VInt 16; "sampler" := VObj sequential_sampler;
     "batch_sampler" := VObj batch_sampler_16; "drop_last" := VBool false ]}.

(** [DataLoader(ds, batch_size=None)]: no batching at all. *)
Definition loader_unbatched : gmap string kwval :=
  {[ "dataset" := VObj {| is_BatchSampler := false; batch_size_attr := None; repr := "ds" |};
     "batch_size" := VNone; "sampler" := VObj sequential_sampler;
     "batch_sampler" := VNone; "drop_last" := VBool false ]}.

End DatalessRank.

(** ** 4.6 Prompt preparation on rank 0 (lines 1318-1351 of
    [megatron_generate]) *)

Module GeneratePrompt.
Import Tensor.

(** [math.ceil(n / 4)]; the float quotient is exact for [|n| < 2^53]. *)
Definition ceil_quarter (n : Z) : Z := - ((- n) / 4).

Record Prompts : Type := {
  prompts_tokens_tensor : list (list Z);
  prompts_length_tensor : list Z;
  sizes_list : Z * Z
}.

(** [[x] * n] for a Python integer [n]: empty when [n <= 0]. *)
Definition py_repeat {A : Type} (x : A) (n : Z) : list A := replicate (Z.to_nat n) x.

Definition sum_Z (row : list Z) : Z := fold_right Z.add 0 row.

(** [a - b] where [a] may be [None]. *)
Definition sub_opt (a : option Z) (b : Z) : result Z :=
  match a with
  | Some x => Ok (x - b)
  | None => Err TypeError
  end.

(** The body of [if torch.distributed.get_rank() == 0:].  [inputs] has
    shape [[B, L]], with [B] the number of rows and [L = inputs.shape[1]];
    [eod] is [tokenizer.eod].  For an empty batch the padding literal is a
    one-dimensional empty tensor: it has no column 0, and concatenation
    skips it. *)
Definition prepare_prompts (inputs : list (list Z)) (L : Z)
    (attention_mask : option (list (list Z)))
    (max_length max_new_tokens : option Z) (add_BOS : bool) (eod : Z)
    : result Prompts :=
  let B := Z.of_nat (length inputs) in
  let prompts_length_tensor :=
    match attention_mask with
    | None => py_repeat L B
    | Some mask => map sum_Z mask
    end in
  max_new_tokens ←
    match max_new_tokens with
    | Some n => Ok n
    | None => sub_opt max_length L
    end;
  if max_new_tokens <=? 0
  then Err (ValueError "max_new_tokens must be greater than 0")
  else
    let bos := if add_BOS then 1 else 0 in
    let max_length := max_new_tokens + L + bos in
    let max_length := 4 * ceil_quarter max_length in
    let max_new_tokens := max_length - (L + bos) in
    let padding := py_repeat (py_repeat eod max_new_tokens) B in
    match inputs with
    | [] =>
        if add_BOS then Err IndexError
        else Ok {| prompts_tokens_tensor := inputs;
                   prompts_length_tensor := prompts_length_tensor;
                   sizes_list := (0, L) |}
    | _ :: _ =>
        let tokens :=
          if add_BOS
          then GPTBatch.concat_dim1
                 (GPTBatch.concat_dim1 (map (fun row => take 1 row) padding) inputs) padding
          else GPTBatch.concat_dim1 inputs padding in
        Ok {| prompts_tokens_tensor := tokens;
              prompts_length_tensor := prompts_length_tensor;
              sizes_list := (Z.of_nat (length tokens),
                             Z.of_nat (length (hd [] tokens))) |}
    end.

End GeneratePrompt.

(** ** 4.4 Encoder-decoder batch decoder: [T5TrainStep] masks and
    [get_batch_transformer] *)

Module T5Batch.
Import Tensor T5Mask.

(** [torch.ones((a, b, c))] *)
Definition ones3 (a b c : nat) : list (list (list Z)) :=
  replicate a (replicate b (replicate c 1)).

(** [torch.tril]: in every matrix the entries above the diagonal become 0. *)
Definition tril (t : list (list (list Z))) : list (list (list Z)) :=
  map (imap (fun i row => imap (fun j x => if (j <=? i)%nat then x else 0) row)) t.

Definition get_decoder_mask (seq_length : nat) : list (list (list bool)) :=
  let attention_mask := tril (ones3 1 seq_length seq_length) in
  map3 lt_half attention_mask.

Definition get_enc_dec_mask (attention_mask : list (list Z)) (dec_seq_length : nat)
    : list (list (list bool)) :=
  let batch_size := length attention_mask in
  let attention_mask_b1s := unsqueeze1 attention_mask in
  let attention_mask_bs1 := ones3 batch_size dec_seq_length 1 in
  let attention_mask_bss := broadcast3 Z.mul attention_mask_bs1 attention_mask_b1s in
  map3 lt_half attention_mask_bss.

(** A 2-D tensor with its number of columns, which an empty batch still
    has. *)
Record tensor2 : Type := {
  ncols : nat;
  rows : list (list Z)
}.

Definition well_shaped (B : nat) (t : tensor2) : Prop := shape2 B (ncols t) (rows t).

(** [(labels != -100).to(torch.float)] *)
Definition not_ignored (labels : list (list Z)) : list (list Q) :=
  map (map (fun x => if x =? -100 then 0%Q else 1%Q)) labels.

(** The [else] branch that derives the decoder input from the labels:
    zeros of the same shape, columns 1.. filled with the labels without
    their last column, column 0 set to 0, and the ignore index replaced by
    0.  Selecting column 0 of a tensor without columns is an index error. *)
Definition decoder_input_from_labels (labels : tensor2) : result tensor2 :=
  let tokens_dec := map (fun row => replicate (length row) 0) (rows labels) in
  let tokens_dec :=
    zip_with (fun dst src => (take 1 dst ++ GPTBatch.to_minus_1 src)%list)
      tokens_dec (rows labels) in
  if (ncols labels =? 0)%nat then Err IndexError
  else
    let tokens_dec := map (fun row => <[0%nat := 0]> row) tokens_dec in
    let tokens_dec := map (map (fun x => if x =? -100 then 0 else x)) tokens_dec in
    Ok {| ncols := ncols labels; rows := tokens_dec |}.

Record Batch : Type := {
  tokens_enc : tensor2;
  tokens_dec : tensor2;
  loss_mask : list (list Q);
  labels : tensor2;
  enc_mask : list (list (list bool));
  dec_mask : list (list (list bool));
  enc_dec_mask : list (list (list bool))
}.

(** [get_batch_transformer(data_iterator)]; the iterator is given by the
    batches it has left. *)
Definition get_batch_transformer (data_iterator : list (dict tensor2))
    : result (Batch * list (dict tensor2)) :=
  match data_iterator with
  | [] => Err StopIteration
  | data :: data_iterator' =>
      tokens_enc ← dict_getitem data "input_ids";
      labels ← dict_getitem data "labels";
      let loss_mask := not_ignored (rows labels) in
      tokens_dec ←
        match dict_lookup "decoder_input_ids" data with
        | Some ids => Ok ids
        | None => decoder_input_from_labels labels
        end;
      attention_mask ← dict_getitem data "attention_mask";
      let enc_mask := attn_mask_postprocess (rows attention_mask) in
      let dec_mask := get_decoder_mask (ncols tokens_dec) in
      attention_mask' ← dict_getitem data "attention_mask";
      let enc_dec_mask := get_enc_dec_mask (rows attention_mask') (ncols tokens_dec) in
      Ok ({| tokens_enc := tokens_enc; tokens_dec := tokens_dec; loss_mask := loss_mask;
             labels := labels; enc_mask := enc_mask; dec_mask := dec_mask;
             enc_dec_mask := enc_dec_mask |}, data_iterator')
  end.

End T5Batch.

(** Further argument namespaces for the dataless rank. *)
Module DatalessRankMore.
Import DataLoader.

(** Native mode with virtual pipelining over [n] model chunks. *)
Definition virtual_args (n : Z) : Args :=
  {| megatron_dataset_flag := true; micro_batch_size := 8; num_micro_batches := 4;
     consumed_samples := Some (10, 20, 30); consumed_train_samples := 0;
     consumed_valid_samples := 0; consumed_test_samples := 0;
     virtual_pipeline_model_parallel_size := Some 2;
     model_len := Some n; model_type_name := "gpt" |}.

Definition no_microbatches : Args :=
  {| megatron_dataset_flag := true; micro_batch_size := 8; num_micro_batches := 0;
     consumed_samples := None; consumed_train_samples := 0;
     consumed_valid_samples := 0; consumed_test_samples := 0;
     virtual_pipeline_model_parallel_size := None;
     model_len := None; model_type_name := "gpt" |}.

End DatalessRankMore.

(** ** 4.2 [MegatronLMDummyDataLoader]: dataset arguments *)

Module DummyDataLoader.

(** [__init__] with its keyword arguments: [parsed] is what the engine's argument
    parser yields for the data and validation options; the keyword
    arguments override it, and the native-dataset flag is switched on. *)
Definition init (parsed dataset_kwargs : gmap string obj) : gmap string obj :=
  let dataset_args := parsed in
  let dataset_args := dataset_kwargs ∪ dataset_args in
  <["megatron_dataset_flag" := PyBool true]> dataset_args.

(** [set_megatron_data_args]: [setattr(args, key, value)] for every item;
    the argument namespace is given by its attributes. *)
Definition set_megatron_data_args (dataset_args args : gmap string obj) : gmap string obj :=
  map_fold (fun key value args => <[key := value]> args) args dataset_args.

End DummyDataLoader.

(** ** 4.1 Model construction dispatch: [model_provider_func] *)

Module ModelSetup.

Record Args : Type := {
  pretraining_flag : bool;
  model_type_name : string;
  bert_binary_head : bool;
  num_labels : Z;
  padded_vocab_size : option Z;
  orig_vocab_size : Z;
  iteration : Z
}.

Definition set_padded_vocab_size (v : option Z) (a : Args) : Args :=
  {| pretraining_flag := pretraining_flag a; model_type_name := model_type_name a;
     bert_binary_head := bert_binary_head a; num_labels := num_labels a;
     padded_vocab_size := v; orig_vocab_size := orig_vocab_size a;
     iteration := iteration a |}.

Definition set_bert_binary_head (b : bool) (a : Args) : Args :=
  {| pretraining_flag := pretraining_flag a; model_type_name := model_type_name a;
     bert_binary_head := b; num_labels := num_labels a;
     padded_vocab_size := padded_vocab_size a; orig_vocab_size := orig_vocab_size a;
     iteration := iteration a |}.

Definition set_iteration (i : Z) (a : Args) : Args :=
  {| pretraining_flag := pretraining_flag a; model_type_name := model_type_name a;
     bert_binary_head := bert_binary_head a; num_labels := num_labels a;
     padded_vocab_size := padded_vocab_size a; orig_vocab_size := orig_vocab_size a;
     iteration := i |}.

Section Provider.

(** The engine's transformer configuration, built from the full argument
    namespace. *)
Variable Config : Type.
Variable core_transformer_config_from_args : Args -> Config.

(** The engine's [_vocab_size_with_padding]. *)
Variable _vocab_size_with_padding : Z -> Args -> Z.

(** The last statements of [initialize] (lines 914-922), which act on the
    argument namespace once the engine has parsed, validated and installed
    it: the padded vocabulary size is filled in when missing or [None],
    the binary-head flag is recomputed, and the iteration is reset. *)
Definition initialize_flags (args : Args) : Args :=
  let args :=
    match padded_vocab_size args with
    | None =>
        set_padded_vocab_size
          (Some (_vocab_size_with_padding (orig_vocab_size args) args)) args
    | Some _ => args
    end in
  let args :=
    if String.eqb (model_type_name args) "bert" && pretraining_flag args &&
       (num_labels args =? 2)
    then set_bert_binary_head true args
    else set_bert_binary_head false args in
  set_iteration 0 args.

(** A constructed model, by the engine class and the arguments of its
    constructor. *)
Inductive model : Type :=
| BertModel (config : Config) (num_tokentypes : Z)
    (add_binary_head parallel_output pre_process post_process : bool)
| Classification (config : Config) (num_classes num_tokentypes : Z)
    (pre_process post_process : bool)
| GPTModel (config : Config) (num_tokentypes : Z)
    (parallel_output pre_process post_process : bool)
| T5Model (config : Config) (num_tokentypes : Z)
    (parallel_output pre_process post_process add_encoder add_decoder : bool).

Definition model_provider_func (pre_process post_process add_encoder add_decoder : bool)
    (args : Args) : result model :=
  let config := core_transformer_config_from_args args in
  if String.eqb (model_type_name args) "bert" then
    if pretraining_flag args then
      let num_tokentypes := if bert_binary_head args then 2 else 0 in
      Ok (BertModel config num_tokentypes (bert_binary_head args) true
            pre_process post_process)
    else Ok (Classification config (num_labels args) 2 pre_process post_process)
  else if String.eqb (model_type_name args) "gpt" then
    Ok (GPTModel config 0 true pre_process post_process)
  else if String.eqb (model_type_name args) "t5" then
    Ok (T5Model config 0 true pre_process post_process add_encoder add_decoder)
  else Err (ValueError (String.append "Unsupported model type: " (model_type_name args))).

(** The pipeline flags a model was built with. *)
Definition stage_flags (m : model) : bool * bool :=
  match m with
  | BertModel _ _ _ _ pre post => (pre, post)
  | Classification _ _ _ pre post => (pre, post)
  | GPTModel _ _ _ pre post => (pre, post)
  | T5Model _ _ _ pre post _ _ => (pre, post)
  end.

End Provider.

End ModelSetup.

(** ** 4.5 [MegatronEngine]: construction, execution configuration and the
    unified entry point *)

Module EngineRun.
Import Tensor Engine.

(** *** [__init__] *)

Inductive train_step_handler : Type :=
| CustomTrainStep
| BertTrainStep
| GPTTrainStep
| T5TrainStep.

(** [model] is the list of model chunks, by its length; [optimizer] the
    reference to the optimizer object.  The train-step classes are given
    by their tags, and the closing [write_args_to_tensorboard()], which
    only writes to the tensorboard writer, is left out. *)
Definition MegatronEngine_init (custom_train_step_class : bool) (model_type_name : string)
    (model_len : Z) (optimizer : loc) (h : Heap)
    : result (train_step_handler * MegatronEngine * Heap) :=
  if model_len <=? 0 then Err IndexError
  else
    handler ←
      (if custom_train_step_class then Ok CustomTrainStep
       else if String.eqb model_type_name "bert" then Ok BertTrainStep
       else if String.eqb model_type_name "gpt" then Ok GPTTrainStep
       else if String.eqb model_type_name "t5" then Ok T5TrainStep
       else Err (ValueError (String.append "Unsupported model type: " model_type_name)));
    let h := setattr optimizer "skipped_iter" (PyBool false) h in
    Ok (handler,
        {| module_len := model_len; optimizer := optimizer; iteration := 0;
           num_floating_point_operations_so_far := 0; eval_total_loss_dict := [] |},
        h).

(** *** [get_module_config]: the parameter-sync callbacks *)

(** A callback stored in the execution configuration.  The lambdas of the
    list comprehension in [get_module_config] share the comprehension's
    variable [model_index]: each holds a reference to that one variable,
    not a copy of its value. *)
Inductive callback : Type :=
| NoSync (chunk : nat)
| StartGradSync (chunk : nat)
| FinishParamSyncLambda (model_index : loc).

(** [[lambda x: self.optimizer.finish_param_sync(model_index, x)
      for model_index in range(n)]]: the variable lives at [cell] of the
    store; every iteration assigns it and appends a lambda. *)
Fixpoint param_sync_comprehension (cell : loc) (indices : list nat)
    (store : gmap loc nat) (acc : list callback) : list callback * gmap loc nat :=
  match indices with
  | [] => (acc, store)
  | i :: rest =>
      let store := <[cell := i]> store in
      param_sync_comprehension cell rest store (acc ++ [FinishParamSyncLambda cell])%list
  end.

(** Calling a parameter-sync lambda with [x]: the call of
    [finish_param_sync] it makes, by its two arguments. *)
Definition call_param_sync {X : Type} (store : gmap loc nat) (f : callback) (x : X)
    : option (nat * X) :=
  match f with
  | FinishParamSyncLambda cell => (fun i => (i, x)) <$> store !! cell
  | _ => None
  end.

(** [config.param_sync_func] for [n] model chunks when parameter gathering
    is overlapped and delayed: the list of lambdas, or the single lambda
    when there is one chunk. *)
Definition param_sync_func (cell : loc) (n : nat) (store : gmap loc nat)
    : (callback + list callback) * gmap loc nat :=
  let '(fs, store) := param_sync_comprehension cell (seq 0 n) store [] in
  match fs with
  | [f] => (inl f, store)
  | _ => (inr fs, store)
  end.

(** *** [forward] *)

(** What [forward] needs from the engine beyond the steps. *)
Class TrainingEngine (World : Type) : Type := {
  module_training : World -> bool;
  num_floating_point_operations : Args -> Z -> Q;
  get_loss_scale : World -> Q;
  learning_rate : World -> Q;
  calc_params_l2_norm : World -> Q;
  training_log :
    dict tensor -> dict tensor -> Q -> Z -> Q -> bool -> Z -> obj -> option Q -> obj ->
    World -> bool * dict tensor * World
}.

(** The attributes [__init__] assigns on the wrapper. *)
Definition engine_attributes : list string :=
  ["module"; "base_model"; "optimizer"; "scheduler"; "train_step_handler";
   "total_loss_dict"; "eval_total_loss_dict"; "iteration"; "report_memory_flag";
   "num_floating_point_operations_so_far"; "module_config"].

Record Logging : Type := {
  report_memory_flag : bool;
  total_loss_dict : dict tensor;
  model_output_class : option string
}.

Inductive output : Type :=
| Loss (loss : tensor)
| ModelOutput (cls : string) (loss : tensor) (logits : option tensor).

(** [d.get(key, torch.cuda.FloatTensor([0.0]))] *)
Definition get_or_zero (d : dict tensor) (key : string) : tensor :=
  default (Vec [0%Q]) (dict_lookup key d).

Section Accumulation.
Context `{TensorArith}.

(** The loop that accumulates one evaluation loss dictionary into
    [eval_total_loss_dict]. *)
Fixpoint accumulate_eval (items : dict tensor) (total : dict tensor) : result (dict tensor) :=
  match items with
  | [] => Ok total
  | (key, value) :: rest =>
      v ← tadd (get_or_zero total key) value;
      let total := dict_setitem key v total in
      let counter := String.append key "_num_iters" in
      n ← tadd (get_or_zero total counter) (Vec [1%Q]);
      accumulate_eval rest (dict_setitem counter n total)
  end.

(** [loss = torch.tensor(0.0)], then [loss += loss_dict[key]] for every
    zero-dimensional entry. *)
Fixpoint scalar_total (items : dict tensor) (loss : Q) : Q :=
  match items with
  | [] => loss
  | (_, Scalar x) :: rest => scalar_total rest (fadd loss x)
  | (_, Vec _) :: rest => scalar_total rest loss
  end.

End Accumulation.

Definition set_consumed_train (n : Z) (a : Args) : Args :=
  Engine.set_consumed n (consumed_valid_samples a) a.

Section Forward.
Context {World : Type} `{ExternalEngine World} `{TrainingEngine World} `{TensorArith}.

Definition forward (log_params_norm : bool) (batch_data : dict tensor)
    (st : State World) (lg : Logging) : result (output * State World * Logging) :=
  r ←
    (if module_training (world st) then
       r ← train_step batch_data st;
       let '((loss_dict, skipped_iter, grad_norm, num_zeros_in_grad), st1) := r in
       let iteration1 := iteration (self st1) + 1 in
       let batch_size :=
         get_data_parallel_world_size (world st1) * micro_batch_size (args st1) *
         get_num_microbatches (world st1) in
       let args1 :=
         set_consumed_train (consumed_train_samples (args st1) + batch_size) (args st1) in
       let flops1 :=
         (num_floating_point_operations_so_far (self st1) +
          num_floating_point_operations args1 batch_size)%Q in
       let self1 := set_counters iteration1 flops1 (self st1) in
       match tensorboard_dir args1 with
       | None =>
           Ok (loss_dict,
               {| args := args1; heap := heap st1; self := self1; world := world st1 |}, lg)
       | Some _ =>
           let loss_scale := get_loss_scale (world st1) in
           params_norm ←
             (if log_params_norm then
                if bool_decide ("model" ∈ engine_attributes)
                then Ok (Some (calc_params_l2_norm (world st1)))
                else Err (AttributeError "model")
              else Ok None);
           let '(flag, total, world2) :=
             training_log loss_dict (total_loss_dict lg) (learning_rate (world st1))
               iteration1 loss_scale (report_memory_flag lg) skipped_iter grad_norm
               params_norm num_zeros_in_grad (world st1) in
           Ok (loss_dict,
               {| args := args1; heap := heap st1; self := self1; world := world2 |},
               {| report_memory_flag := flag; total_loss_dict := total;
                  model_output_class := model_output_class lg |})
       end
     else
       r ← eval_step batch_data st;
       let '(loss_dict, st1) := r in
       match tensorboard_dir (args st1) with
       | None => Ok (loss_dict, st1, lg)
       | Some _ =>
           total ← accumulate_eval loss_dict (eval_total_loss_dict (self st1));
           Ok (loss_dict,
               {| args := args st1; heap := heap st1;
                  self := set_eval_total_loss_dict total (self st1); world := world st1 |},
               lg)
       end);
  let '(loss_dict, st', lg') := r in
  let loss := Scalar (scalar_total loss_dict 0) in
  let logits := dict_lookup "logits" loss_dict in
  match model_output_class lg' with
  | Some cls => Ok (ModelOutput cls loss logits, st', lg')
  | None => Ok (Loss loss, st', lg')
  end.

End Forward.

(** The values a microbatch chunk holds for a field. *)
Definition field (key : string) (chunk : dict tensor) : list Q :=
  match dict_lookup key chunk with
  | Some (Vec ys) => ys
  | _ => []
  end.

(** The slice of one field that goes into microbatch [i] of size [m]. *)
Definition window (m i : nat) (kv : string * tensor) : string * tensor :=
  (fst kv,
   match snd kv with
   | Vec xs => Vec (take m (drop (i * m) xs))
   | t => t
   end).

(** The zero-dimensional entries of a loss dictionary. *)
Fixpoint scalar_entries (d : dict tensor) : list Q :=
  match d with
  | [] => []
  | (_, Scalar x) :: rest => x :: scalar_entries rest
  | (_, Vec _) :: rest => scalar_entries rest
  end.

(** Every accumulated value is a one-element tensor. *)
Definition unit_shaped (d : dict tensor) : Prop :=
  Forall (fun kv : string * tensor => exists x, snd kv = Vec [x]) d.

(** Every accumulated loss has its call counter. *)
Definition paired (d : dict tensor) : Prop :=
  forall key, In key (keys d) -> endswith key "_num_iters" = false ->
    In (String.append key "_num_iters") (keys d).

End EngineRun.

(** IEEE 754 binary32 arithmetic on finite values, rounding to nearest
    with ties to even: what the CPU kernels compute on [float32] tensors
    as long as no result overflows.  Used for concrete runs. *)
Module Float32.
Import Tensor.

(** The nearest integer, ties to the even one. *)
Definition rne (x : Q) : Z :=
  let n := Qnum x in
  let d := Z.pos (Qden x) in
  let f := n / d in
  let r := 2 * (n mod d) in
  if r <? d then f
  else if d <? r then f + 1
  else if Z.even f then f else f + 1.

(** [2 ^ k] for any integer [k]. *)
Definition pow2 (k : Z) : Q := ((2 # 1) ^ k)%Q.

(** [floor (log2 |x|)] for [x <> 0]. *)
Definition ilog2 (x : Q) : Z :=
  let n := Z.abs (Qnum x) in
  let d := Z.pos (Qden x) in
  let e := Z.log2 n - Z.log2 d in
  if Qle_bool (pow2 e) (Qabs x) then e else e - 1.

(** Rounding to 24 significant bits, or to a multiple of [2 ^ -149] in the
    subnormal range. *)
Definition round32 (x : Q) : Q :=
  if Qeq_bool x 0 then 0%Q
  else
    let k := Z.max (ilog2 x - 23) (-149) in
    Qred (inject_Z (rne (x / pow2 k)) * pow2 k).

#[global] Instance binary32 : TensorArith := {|
  fadd x y := round32 (x + y);
  fdiv x y := round32 (x / y)
|}.

End Float32.

(** Engines for concrete runs of the unified entry point: the in-memory
    engine in training mode, and a rank in the middle of the pipeline
    whose world is just its training-mode flag. *)
Module RunEngines.
Import Tensor Engine EngineRun.

#[global] Instance memory_training : TrainingEngine MemoryEngine.World := {|
  module_training w := true;
  num_floating_point_operations a batch_size := inject_Z (100 * batch_size);
  get_loss_scale w := 1%Q;
  learning_rate w := (1 # 1000)%Q;
  calc_params_l2_norm w := 0%Q;
  training_log loss_dict total lr it scale flag skipped grad_norm params_norm zeros w :=
    (false, total, w)
|}.

Definition MiddleWorld : Type := bool.

#[global] Instance middle_stage : ExternalEngine MiddleWorld := {|
  barrier w := w;
  engine_save_checkpoint a it flops w := w;
  engine_load_checkpoint a w := ((0, 0%Q), w);
  reload_model_params w := w;
  engine_train_step a it o h w := (([], 0, PyNone, PyNone), h, w);
  forward_backward_func a it n w := ([], w);
  get_num_microbatches w := 2;
  get_data_parallel_world_size w := 1;
  is_pipeline_last_stage w := false;
  empty_cache w := w
|}.

#[global] Instance middle_training : TrainingEngine MiddleWorld := {|
  module_training w := w;
  num_floating_point_operations a batch_size := inject_Z batch_size;
  get_loss_scale w := 1%Q;
  learning_rate w := 1%Q;
  calc_params_l2_norm w := 0%Q;
  training_log loss_dict total lr it scale flag skipped grad_norm params_norm zeros w :=
    (flag, total, w)
|}.

(** The middle rank in evaluation mode, logging to tensorboard. *)
Definition middle_state : State MiddleWorld :=
  {| args := set_consumed_train 0
               {| save := None; load := None; consumed_train_samples := 0;
                  consumed_valid_samples := 0; fp16 := false;
                  tensorboard_dir := Some "runs"; micro_batch_size := 1;
                  num_micro_batches := 2; seq_length := 4;
                  empty_unused_memory_level := 0 |};
     heap := ∅;
     self := {| module_len := 1; optimizer := 0%nat; iteration := 3;
                num_floating_point_operations_so_far := 50 # 1;
                eval_total_loss_dict := [] |};
     world := false |}.

(** The in-memory engine with tensorboard logging switched on. *)
Definition logging_state : State MemoryEngine.World :=
  {| args := {| save := None; load := None; consumed_train_samples := 0;
                consumed_valid_samples := 0; fp16 := false;
                tensorboard_dir := Some "runs"; micro_batch_size := 1;
                num_micro_batches := 2; seq_length := 4;
                empty_unused_memory_level := 0 |};
     heap := heap MemoryEngine.start_state;
     self := self MemoryEngine.start_state;
     world := ∅ |}.

(** The in-memory engine after one evaluation step with loss 3. *)
Definition reporting_state : State MemoryEngine.World :=
  {| args := args logging_state; heap := heap logging_state;
     self := set_eval_total_loss_dict
               [("lm loss", Vec [3%Q]); ("lm loss_num_iters", Vec [1%Q])]
               (self logging_state);
     world := ∅ |}.

Definition plain_logging : Logging :=
  {| report_memory_flag := true; total_loss_dict := []; model_output_class := None |}.

End RunEngines.

(** ** 4.4 Masked language-model loss: [T5TrainStep.get_loss_func] *)

Module Losses.
Import Tensor.

(** [t.view(-1)] and [t.reshape(-1)] of a 2-D tensor. *)
Definition flatten (t : list (list Q)) : list Q := List.concat t.

(** [a * b] on one-dimensional tensors, with broadcasting. *)
Definition tmul1 (a b : list Q) : result (list Q) :=
  match a, b with
  | [x], _ => Ok (map (Qmult x) b)
  | _, [y] => Ok (map (fun x => x * y)%Q a)
  | _, _ =>
      if (length a =? length b)%nat then Ok (zip_with Qmult a b)
      else Err RuntimeError
  end.

Section Loss.

(** The engine's average over the data-parallel group, used for logging
    only. *)
Variable average_losses_across_data_parallel_group : list Q -> list Q.

(** [loss_func(loss_mask, output_tensor)]; a mask that sums to zero makes
    the quotient NaN, which is outside the model. *)
Definition loss_func (loss_mask output_tensor : list (list Q))
    : result (Q * dict Q) :=
  let lm_loss_ := output_tensor in
  weighted ← tmul1 (flatten lm_loss_) (flatten loss_mask);
  let lm_loss := (Engine.Qsum weighted / Engine.Qsum (flatten loss_mask))%Q in
  let loss := lm_loss in
  match average_losses_across_data_parallel_group [lm_loss] with
  | [] => Err IndexError
  | averaged :: _ => Ok (loss, [("lm loss", averaged)])
  end.

End Loss.

(** Two per-token loss tensors that differ only where the mask is zero. *)
Definition agree_where_unmasked (mask a b : list Q) : Prop :=
  length a = length mask /\ length b = length mask /\
  forall i m x y,
    mask !! i = Some m -> a !! i = Some x -> b !! i = Some y ->
    ~ (m == 0)%Q -> (x == y)%Q.

End Losses.

(** * Properties *)

Module GenerateFacts.
Import Generate.

(** The five checks on the argument namespace and the [max_length] check
    let an admissible configuration through. *)
Lemma admissible_passes args bs ml mnt nb t tk tp kw :
  admissible args -> is_None ml && is_None mnt = false ->
  megatron_generate args bs ml mnt nb t tk tp kw =
    (temperature' ← check_temperature t;
     top_k' ← check_top_k tk;
     top_p' ← check_top_p tp top_k';
     top_p_decay ← check_unit_interval (dict_get kw "top_p_decay" (PyNum (PyFloat 0)))
       "top_p_decay must be less than or equal to 1.0";
     top_p_bound ← check_unit_interval (dict_get kw "top_p_bound" (PyNum (PyFloat 0)))
       "top_p_bound must be less than or equal to 1.0";
     guard (negb (isinstance_bool (dict_get kw "add_BOS" (PyBool false))))
       (ValueError "add_BOS must be a boolean");;
     check_beam nb bs;;
     Continue {| s_temperature := temperature'; s_top_k := top_k'; s_top_p := top_p';
                 s_top_p_decay := top_p_decay; s_top_p_bound := top_p_bound;
                 s_add_BOS := dict_get kw "add_BOS" (PyBool false);
                 s_beam_width := nb |}).
Proof.
  intros (Hm & Hd & Hs & Hr & Hv) Hlen. unfold megatron_generate.
  rewrite Hm, Hs, Hr, Hlen. simpl.
  destruct (Z.ltb_spec 1 (data_parallel_size args)) as [?|_]; [lia|]. simpl.
  rewrite bool_decide_eq_false_2 by exact Hv. reflexivity.
Qed.

(** [temperature=0] is rejected. *)
Lemma temperature_zero_rejected args bs ml mnt nb tk tp kw :
  admissible args -> is_None ml && is_None mnt = false ->
  megatron_generate args bs ml mnt nb (PyNum (PyInt 0)) tk tp kw =
    Raise (ValueError "temperature must be a positive number less than or equal to 100.0").
Proof. intros Ha Hl. rewrite admissible_passes by assumption. reflexivity. Qed.

(** [temperature=50] passes the temperature check, and with every other
    sampling parameter left at its default the call goes on to generation. *)
Lemma temperature_fifty_accepted args bs ml mnt :
  admissible args -> is_None ml && is_None mnt = false ->
  check_temperature (PyNum (PyInt 50)) = Continue (inject_Z 50) /\
  megatron_generate args bs ml mnt PyNone (PyNum (PyInt 50)) PyNone PyNone ∅ =
    Continue {| s_temperature := inject_Z 50; s_top_k := 0%Q; s_top_p := 0%Q;
                s_top_p_decay := 0%Q; s_top_p_bound := 0%Q;
                s_add_BOS := PyBool false; s_beam_width := PyNone |}.
Proof.
  intros Ha Hl. split; [reflexivity|].
  rewrite admissible_passes by assumption. reflexivity.
Qed.

(** [top_k=1500] is rejected once the temperature is acceptable. *)
Lemma top_k_1500_rejected args bs ml mnt nb t t' tp kw :
  admissible args -> is_None ml && is_None mnt = false ->
  check_temperature t = Continue t' ->
  megatron_generate args bs ml mnt nb t (PyNum (PyInt 1500)) tp kw =
    Raise (ValueError "top_k must be a positive number less than or equal to 1000").
Proof.
  intros Ha Hl Ht. rewrite admissible_passes by assumption. rewrite Ht. reflexivity.
Qed.

(** [top_p=0.9] together with [top_k=10] is rejected. *)
Lemma top_p_with_top_k_rejected args bs ml mnt nb t t' kw :
  admissible args -> is_None ml && is_None mnt = false ->
  check_temperature t = Continue t' ->
  megatron_generate args bs ml mnt nb t (PyNum (PyInt 10)) (PyNum (PyFloat (9 # 10))) kw =
    Raise (ValueError "top_p and top_k sampling cannot be set together").
Proof.
  intros Ha Hl Ht. rewrite admissible_passes by assumption. rewrite Ht. reflexivity.
Qed.

(** With a positive integer beam width and more than one prompt in the
    batch, the beam-search block ends in a [return] of the message. *)
Lemma check_beam_batch_returns (w bs : Z) :
  1 <= w -> 1 < bs ->
  check_beam (PyNum (PyInt w)) bs =
    Return (PyStr "When doing beam_search, batch size must be 1").
Proof.
  intros Hw Hb. unfold check_beam. simpl.
  assert (Qlt_bool (inject_Z w) 1 = false) as ->.
  { unfold Qlt_bool. apply negb_false_iff, Qle_bool_iff.
    change 1%Q with (inject_Z 1). rewrite <- Zle_Qle. exact Hw. }
  simpl. destruct (Z.ltb_spec 1 bs); [reflexivity | lia].
Qed.

(** C1 (beam-search part, where the code departs from the claim):
    [megatron_generate] called with [num_beams=2] on a batch of two prompts,
    every other precondition met, does not raise: validation ends in
    [return "When doing beam_search, batch size must be 1"], an ordinary
    return value. *)
Theorem megatron_generate_beam_batch_returns_message :
  megatron_generate gpt_args 2 PyNone (PyNum (PyInt 16)) (PyNum (PyInt 2))
    PyNone PyNone PyNone ∅ =
    Return (PyStr "When doing beam_search, batch size must be 1") /\
  forall e, megatron_generate gpt_args 2 PyNone (PyNum (PyInt 16)) (PyNum (PyInt 2))
    PyNone PyNone PyNone ∅ <> Raise e.
Proof.
  assert (megatron_generate gpt_args 2 PyNone (PyNum (PyInt 16)) (PyNum (PyInt 2))
            PyNone PyNone PyNone ∅ =
          Return (PyStr "When doing beam_search, batch size must be 1")) as H
    by reflexivity.
  split; [exact H|]. intros e. rewrite H. discriminate.
Qed.

End GenerateFacts.

Module Int64Facts.
Import Tensor.

(** A value that fits in [int64] is not changed by the wrap-around. *)
Lemma wrap64_id (z : Z) : int64 z -> wrap64 z = z.
Proof.
  unfold int64, wrap64. intros Hz.
  rewrite Z.mod_small by lia. lia.
Qed.

Lemma mul64_comm (a b : Z) : mul64 a b = mul64 b a.
Proof. unfold mul64. now rewrite Z.mul_comm. Qed.

Lemma add64_0_l (z : Z) : int64 z -> add64 0 z = z.
Proof. intros Hz. unfold add64. rewrite Z.add_0_l. now apply wrap64_id. Qed.

End Int64Facts.

Module T5MaskFacts.
Import Tensor T5Mask.

Lemma broadcast_one_r {A B C : Type} (f : A -> B -> C) (xs : list A) (y : B) :
  broadcast f xs [y] = map (fun x => f x y) xs.
Proof. destruct xs as [|x [|x' xs]]; reflexivity. Qed.

(** A row [1, s] against a column [s', 1]. *)
Lemma broadcast_row_col {A B C : Type} (f : A -> B -> C) (r : list A) (c : list B) :
  broadcast (broadcast f) [r] (map (fun v => [v]) c) =
  map (fun v => map (fun x => f x v) r) c.
Proof.
  simpl. rewrite map_map. apply map_ext. intros v. apply broadcast_one_r.
Qed.

(** Two tensors derived from the same batch list pair up slice by slice. *)
Lemma broadcast_same {T A B C : Type} (g : A -> B -> C) (F : T -> A) (G : T -> B)
    (m : list T) :
  broadcast g (map F m) (map G m) = map (fun r => g (F r) (G r)) m.
Proof.
  destruct m as [|a [|b m]]; try reflexivity.
  change (zip_with g (map F (a :: b :: m)) (map G (a :: b :: m)) =
          map (fun r => g (F r) (G r)) (a :: b :: m)).
  generalize (a :: b :: m). intros l.
  induction l as [|x l IH]; simpl; [reflexivity | now rewrite IH].
Qed.

(** Closed form of the derivation: entry [b, i, j] is
    [mask[b][j] * mask[b][i] < 0.5]. *)
Lemma attn_mask_postprocess_rows (m : list (list Z)) :
  attn_mask_postprocess m =
  map (fun r => map (fun vi => map (fun vj => lt_half (mul64 vj vi)) r) r) m.
Proof.
  unfold attn_mask_postprocess, broadcast3, unsqueeze1, unsqueeze2, map3.
  rewrite (broadcast_same (broadcast (broadcast mul64)) (fun r => [r])
             (map (fun x => [x])) m).
  rewrite map_map. apply map_ext. intros r.
  rewrite broadcast_row_col, map_map. apply map_ext. intros vi.
  now rewrite map_map.
Qed.

Lemma and_of_broadcasts_rows (m : list (list Z)) :
  and_of_broadcasts m =
  map (fun r => map (fun vi => map (fun vj => exceeds_half vj && exceeds_half vi) r) r) m.
Proof.
  unfold and_of_broadcasts, broadcast3, unsqueeze1, unsqueeze2, map3.
  rewrite !map_map.
  rewrite (broadcast_same (broadcast (broadcast andb))
             (fun r => map (map exceeds_half) [r])
             (fun r => map (map exceeds_half) (map (fun x => [x]) r)) m).
  apply map_ext. intros r. simpl. rewrite !map_map. simpl.
  apply map_ext. intros vi. rewrite broadcast_one_r, map_map. reflexivity.
Qed.

Lemma attn_mask_postprocess_shape (B S : nat) (m : list (list Z)) :
  shape2 B S m -> shape3 B S S (attn_mask_postprocess m).
Proof.
  intros [HB HS]. rewrite attn_mask_postprocess_rows. split.
  - now rewrite length_map.
  - apply Forall_map. eapply Forall_impl; [exact HS|].
    intros r Hr. simpl in *. split.
    + now rewrite length_map.
    + apply Forall_map. apply Forall_forall. intros vi _. simpl.
      now rewrite length_map.
Qed.

Lemma attn_mask_postprocess_entry (m : list (list Z)) (b i j : nat) r vi vj :
  m !! b = Some r -> r !! i = Some vi -> r !! j = Some vj ->
  entry3 (attn_mask_postprocess m) b i j = Some (lt_half (mul64 vj vi)).
Proof.
  intros Hb Hi Hj. rewrite attn_mask_postprocess_rows. unfold entry3.
  rewrite list_lookup_fmap, Hb. simpl.
  rewrite list_lookup_fmap, Hi. simpl.
  rewrite list_lookup_fmap, Hj. reflexivity.
Qed.

Lemma lt_half_mul_binary (x y : Z) :
  (x = 0 \/ x = 1) -> (y = 0 \/ y = 1) ->
  lt_half (mul64 x y) = negb (exceeds_half x && exceeds_half y).
Proof. intros [->| ->] [->| ->]; reflexivity. Qed.

(** The wrap-around matters: the product of [2^32] with itself is 0 in
    [int64], so the position counts as masked out. *)
Example attn_mask_postprocess_wraps :
  attn_mask_postprocess [[4294967296]] = [[[true]]].
Proof. reflexivity. Qed.

(** On a mask entry outside {0, 1} the product test and the two separate
    thresholds part ways: [-1 * -1 = 1] is not below 0.5 although neither
    factor exceeds 0.5. *)
Example attn_mask_postprocess_negative_entry :
  attn_mask_postprocess [[-1]] = [[[false]]] /\ and_of_broadcasts [[-1]] = [[[false]]].
Proof. split; reflexivity. Qed.

(** C2, as stated, fails: on the one-token mask [[1]] the derivation returns
    [False] (position not masked out) where the elementwise AND of the two
    broadcasts is [True]. *)
Lemma attn_mask_postprocess_is_not_the_and :
  attn_mask_postprocess [[1]] = [[[false]]] /\
  and_of_broadcasts [[1]] = [[[true]]] /\
  attn_mask_postprocess [[1]] <> and_of_broadcasts [[1]].
Proof. repeat split; try reflexivity. discriminate. Qed.

(** C2, amended: for every 2-D [int64] mask of shape [B, S] the derivation
    returns a tensor of shape [B, S, S] whose entry [b, i, j] is [True]
    exactly when the [int64] product [mask[b][j] * mask[b][i]] is below
    0.5; the product is the exact one whenever that fits in [int64].  For
    a 0/1 mask this is the elementwise negation of the AND of the row and
    column broadcasts, so a position is left unmasked ([False]) exactly
    when both broadcast entries exceed 0.5. *)
Theorem attn_mask_postprocess_complements_and (B S : nat) (m : list (list Z)) :
  shape2 B S m -> Forall (Forall int64) m ->
  shape3 B S S (attn_mask_postprocess m) /\
  (forall b i j r vi vj,
      m !! b = Some r -> r !! i = Some vi -> r !! j = Some vj ->
      entry3 (attn_mask_postprocess m) b i j = Some (lt_half (wrap64 (vj * vi))) /\
      (int64 (vj * vi) ->
       entry3 (attn_mask_postprocess m) b i j = Some (lt_half (vj * vi)))) /\
  (binary m -> attn_mask_postprocess m = map3 negb (and_of_broadcasts m)).
Proof.
  intros Hshape _. split; [|split].
  - now apply attn_mask_postprocess_shape.
  - intros b i j r vi vj Hb Hi Hj.
    pose proof (attn_mask_postprocess_entry m b i j r vi vj Hb Hi Hj) as He.
    unfold mul64 in He. split; [exact He|].
    intros Hfit. now rewrite He, Int64Facts.wrap64_id.
  - intros Hbin. rewrite attn_mask_postprocess_rows, and_of_broadcasts_rows.
    unfold map3. rewrite map_map.
    apply map_ext_Forall. eapply Forall_impl; [exact Hbin|].
    intros r Hr. simpl in Hr. rewrite map_map.
    apply map_ext_Forall. eapply Forall_impl; [exact Hr|].
    intros vi Hvi. simpl in Hvi. rewrite map_map.
    apply map_ext_Forall. eapply Forall_impl; [exact Hr|].
    intros vj Hvj. simpl in Hvj. now apply lt_half_mul_binary.
Qed.

Lemma attn_mask_postprocess_complements_and_witness :
  shape2 2 2 [[1; 0]; [1; 1]] /\
  attn_mask_postprocess [[1; 0]; [1; 1]] = map3 negb (and_of_broadcasts [[1; 0]; [1; 1]]).
Proof.
  assert (shape2 2 2 [[1; 0]; [1; 1]]) as Hs.
  { split; [reflexivity|]. repeat constructor. }
  assert (Forall (Forall int64) [[1; 0]; [1; 1]]) as Hi.
  { repeat constructor; unfold int64; lia. }
  split; [exact Hs|].
  apply (attn_mask_postprocess_complements_and 2 2 [[1; 0]; [1; 1]] Hs Hi).
  repeat constructor; simpl; lia.
Defined.

End T5MaskFacts.

Module RoundingFacts.
Import Tensor Engine.

Lemma Qsum_cons (x : Q) (xs : list Q) : Qsum (x :: xs) = (x + Qsum xs)%Q.
Proof. reflexivity. Qed.

Lemma Qsum_abs_nonneg (qs : list Q) : (0 <= Qsum (map Qabs qs))%Q.
Proof.
  induction qs as [|q qs IH]; [unfold Qsum; simpl; lra|].
  change (map Qabs (q :: qs)) with (Qabs q :: map Qabs qs). rewrite Qsum_cons.
  pose proof (Qabs_nonneg q). lra.
Qed.

Lemma Qsum_abs_bound (qs : list Q) : (Qabs (Qsum qs) <= Qsum (map Qabs qs))%Q.
Proof.
  induction qs as [|q qs IH].
  { change (Qabs 0 <= 0)%Q. apply Qabs_Qle_condition. lra. }
  change (map Qabs (q :: qs)) with (Qabs q :: map Qabs qs). rewrite !Qsum_cons.
  pose proof (Qabs_triangle q (Qsum qs)). lra.
Qed.

Section StandardModel.
Context `{TensorArith}.
Variable u : Q.
Hypothesis Hacc : accurate u.

Local Open Scope Q_scope.

Lemma pow_succ (k : nat) : (1 + u) ^ Z.of_nat (S k) == (1 + u) * (1 + u) ^ Z.of_nat k.
Proof.
  destruct Hacc as (Hu & _).
  rewrite Nat2Z.inj_succ. unfold Z.succ. rewrite Qpower_plus by lra.
  rewrite Qmult_comm. apply Qmult_comp; [|reflexivity]. reflexivity.
Qed.

Lemma pow_ge_1 (k : nat) : 1 <= (1 + u) ^ Z.of_nat k.
Proof.
  destruct Hacc as (Hu & _).
  induction k as [|k IH]; [simpl; lra|].
  rewrite pow_succ. nra.
Qed.

Lemma fold_error (qs : list Q) : forall (acc a A : Q) (k : nat),
  Qabs (acc - a) <= ((1 + u) ^ Z.of_nat k - 1) * A -> Qabs a <= A ->
  Qabs (fold_left fadd qs acc - (a + Qsum qs)) <=
    ((1 + u) ^ Z.of_nat (k + length qs) - 1) * (A + Qsum (map Qabs qs)).
Proof.
  destruct Hacc as (Hu & Hadd & _).
  induction qs as [|x qs IH]; intros acc a A k He Ha.
  - cbn [fold_left length map]. rewrite Nat.add_0_r.
    change (Qsum []) with 0.
    set (g := (1 + u) ^ Z.of_nat k) in *.
    apply Qabs_Qle_condition in He. apply Qabs_Qle_condition. lra.
  - cbn [fold_left length map]. rewrite !Qsum_cons.
    replace (k + S (length qs))%nat with (S k + length qs)%nat by lia.
    specialize (IH (fadd acc x) (a + x) (A + Qabs x) (S k)).
    assert (Qabs (fold_left fadd qs (fadd acc x) - (a + x + Qsum qs)) <=
            ((1 + u) ^ Z.of_nat (S k + length qs) - 1) *
            (A + Qabs x + Qsum (map Qabs qs))) as Hstep.
    { apply IH.
      - pose proof (Hadd acc x) as H1. pose proof (pow_ge_1 k) as Hg.
        rewrite pow_succ. set (g := (1 + u) ^ Z.of_nat k) in *.
        pose proof (Qabs_nonneg x) as Hx0. pose proof (Qabs_nonneg a) as Ha0.
        assert (Qabs (acc + x) <= g * A + Qabs x) as Hax.
        { apply Qabs_Qle_condition in He. apply Qabs_Qle_condition in Ha.
          pose proof (Qle_Qabs x) as Hx1. pose proof (Qle_Qabs (- x)) as Hx2.
          rewrite Qabs_opp in Hx2.
          apply Qabs_Qle_condition. lra. }
        assert (u * Qabs (acc + x) <= u * (g * A + Qabs x)) as Hm.
        { rewrite !(Qmult_comm u). now apply Qmult_le_compat_r. }
        apply Qabs_Qle_condition in H1, He. apply Qabs_Qle_condition.
        assert (0 <= (1 + u) * (g - 1) * Qabs x) as Hp.
        { apply Qmult_le_0_compat; [|exact Hx0]. apply Qmult_le_0_compat; lra. }
        set (ax := Qabs x) in *. set (t := Qabs (acc + x)) in *.
        lra.
      - pose proof (Qabs_triangle a x). lra. }
    set (g := (1 + u) ^ Z.of_nat (S k + length qs)) in *.
    apply Qabs_Qle_condition in Hstep. apply Qabs_Qle_condition. lra.
Qed.

(** The running sum of [n] numbers differs from their exact sum by at most
    [(1 + u)^n - 1] times the sum of their absolute values. *)
Lemma fsum_error (qs : list Q) :
  Qabs (fsum qs - Qsum qs) <=
    ((1 + u) ^ Z.of_nat (length qs) - 1) * Qsum (map Qabs qs).
Proof.
  unfold fsum. pose proof (fold_error qs 0 0 0 0%nat) as Hf. cbn [Nat.add] in Hf.
  assert (Qabs (0 - 0) <= ((1 + u) ^ Z.of_nat 0 - 1) * 0) as H0
    by (apply Qabs_Qle_condition; simpl; lra).
  assert (Qabs 0 <= 0) as H1 by (apply Qabs_Qle_condition; lra).
  specialize (Hf H0 H1).
  set (g := (1 + u) ^ Z.of_nat (length qs)) in *.
  apply Qabs_Qle_condition in Hf. apply Qabs_Qle_condition. lra.
Qed.

(** The running sum divided by the count differs from the exact mean by at
    most [(1 + u)^(n+1) - 1] times the mean of the absolute values. *)
Lemma mean_error (qs : list Q) :
  qs <> [] ->
  Qabs (fdiv (fsum qs) (inject_Z (Z.of_nat (length qs))) - mean qs) <=
    ((1 + u) ^ Z.of_nat (S (length qs)) - 1) * mean (map Qabs qs).
Proof.
  intros Hne. unfold mean. rewrite length_map.
  assert (0 < inject_Z (Z.of_nat (length qs))) as Hn.
  { change 0 with (inject_Z 0). rewrite <- Zlt_Qlt. destruct qs; [congruence | simpl; lia]. }
  set (n := inject_Z (Z.of_nat (length qs))) in *.
  rewrite pow_succ.
  pose proof (fsum_error qs) as E2. pose proof (Qsum_abs_bound qs) as HS.
  pose proof (pow_ge_1 (length qs)) as Hg.
  pose proof (Qsum_abs_nonneg qs) as HA.
  destruct Hacc as (Hu & _ & Hdiv).
  pose proof (Hdiv (fsum qs) n) as E1.
  set (s := fsum qs) in *. set (S := Qsum qs) in *.
  set (A := Qsum (map Qabs qs)) in *. set (g := (1 + u) ^ Z.of_nat (length qs)) in *.
  unfold Qdiv in *. assert (0 <= / n) as Hc by (apply Qlt_le_weak, Qinv_lt_0_compat, Hn).
  set (c := / n) in *.
  rewrite Qabs_Qmult, (Qabs_pos c Hc) in E1.
  assert (Qabs s <= g * A) as Hs.
  { apply Qabs_Qle_condition in E2, HS. apply Qabs_Qle_condition. lra. }
  assert (Qabs s * c <= g * A * c) as Hsc by now apply Qmult_le_compat_r.
  assert (u * (Qabs s * c) <= u * (g * A * c)) as Hm.
  { rewrite !(Qmult_comm u). now apply Qmult_le_compat_r. }
  apply Qabs_Qle_condition in E2. destruct E2 as [E2l E2u].
  assert ((s - S) * c <= (g - 1) * A * c) as Hu1 by now apply Qmult_le_compat_r.
  assert (- ((g - 1) * A) * c <= (s - S) * c) as Hl1 by now apply Qmult_le_compat_r.
  set (q := fdiv s n) in *. set (t := Qabs s) in *.
  apply Qabs_Qle_condition in E1. apply Qabs_Qle_condition. lra.
Qed.

End StandardModel.

End RoundingFacts.

Module EngineFacts.
Import Tensor Engine.

Section WithEngine.
Context {World : Type} `{ExternalEngine World} `{TensorArith}.

Lemma getattr_setattr l name v (h : Heap) :
  getattr l name (setattr l name v h) = Ok v.
Proof.
  unfold getattr, setattr. rewrite lookup_insert_eq. now rewrite lookup_insert_eq.
Qed.

(** [train_step] returns the engine's tuple unchanged and stores
    [skipped_iter == 1] on the optimizer object. *)
Lemma train_step_run batch (st : State World) it loss sk gn nz h1 w1 :
  get_batch_data_iterator (args st) (self st) batch = Ok it ->
  engine_train_step (args st) it (optimizer (self st)) (heap st) (world st) =
    ((loss, sk, gn, nz), h1, w1) ->
  train_step batch st =
    Ok ((loss, sk, gn, nz),
        {| args := args st;
           heap := setattr (optimizer (self st)) "skipped_iter" (PyBool (sk =? 1)) h1;
           self := self st; world := w1 |}).
Proof.
  intros Hit Hstep. unfold train_step. rewrite Hit. simpl. now rewrite Hstep.
Qed.

(** Log-free configurations never raise in [log_eval_results]. *)
Lemma log_eval_results_quiet (st : State World) :
  tensorboard_dir (args st) = None \/ iteration (self st) = 0 ->
  log_eval_results st = Ok st.
Proof.
  intros Hq. unfold log_eval_results.
  destruct Hq as [Hq|Hq]; rewrite Hq.
  - reflexivity.
  - now rewrite orb_true_r.
Qed.

(** [log_eval_results] leaves the counters, the arguments and the engine's
    world alone. *)
Lemma log_eval_results_frame (st st1 : State World) :
  log_eval_results st = Ok st1 ->
  iteration (self st1) = iteration (self st) /\
  num_floating_point_operations_so_far (self st1) =
    num_floating_point_operations_so_far (self st) /\
  args st1 = args st /\ world st1 = world st.
Proof.
  unfold log_eval_results.
  destruct (bool_decide _ || _).
  - intros [= <-]. auto.
  - destruct (log_eval_keys _ _); simpl; [|discriminate].
    intros [= <-]. simpl. auto.
Qed.

(** C4: after [train_step], the optimizer wrapper's [step_was_skipped] is
    the boolean [skipped_iter == 1] of the skipped-iteration indicator the
    engine's train-step routine returned: [True] exactly when the
    indicator equals 1, [False] otherwise.  The wrapper wraps the
    optimizer object the engine holds. *)
Theorem train_step_step_was_skipped (w : MegatronLMOptimizerWrapper) batch
    (st : State World) it loss sk gn nz h1 w1 :
  wrapped_optimizer w = optimizer (self st) ->
  get_batch_data_iterator (args st) (self st) batch = Ok it ->
  engine_train_step (args st) it (optimizer (self st)) (heap st) (world st) =
    ((loss, sk, gn, nz), h1, w1) ->
  exists st',
    train_step batch st = Ok ((loss, sk, gn, nz), st') /\
    step_was_skipped w (heap st') = Ok (PyBool (sk =? 1)) /\
    (step_was_skipped w (heap st') = Ok (PyBool true) <-> sk = 1).
Proof.
  intros Hw Hit Hstep. eexists. split; [|split].
  - apply train_step_run with (it := it) (h1 := h1); [exact Hit | exact Hstep].
  - unfold step_was_skipped. simpl. rewrite Hw. apply getattr_setattr.
  - unfold step_was_skipped. simpl. rewrite Hw, getattr_setattr. split.
    + intros [= Heq]. now apply Z.eqb_eq.
    + intros ->. reflexivity.
Qed.

Section RoundTrip.

(** What the engine's checkpoint storage holds at a path: the iteration
    and the operation count of the checkpoint written there last. *)
Variable stored : World -> string -> option (Z * Q).

Hypothesis save_stores : forall a it flops w p,
  save a = Some p -> stored (engine_save_checkpoint a it flops w) p = Some (it, flops).
Hypothesis barrier_keeps : forall w p, stored (barrier w) p = stored w p.
Hypothesis load_reads : forall a w p c,
  load a = Some p -> stored w p = Some c -> fst (engine_load_checkpoint a w) = c.

(** C3: saving a checkpoint and loading from the same path restores the
    iteration counter and the accumulated operation count to the values
    they had at save time, provided the engine's storage returns at a path
    what was last written there.  The load may happen in any later state
    of the engine, whatever its counters have become, as long as the
    storage still holds at that path what the save left there. *)
Theorem checkpoint_round_trip (dir : string) (st st0 : State World) :
  log_eval_results st = Ok st0 ->
  exists st1,
    save_checkpoint dir st = Ok st1 /\
    forall st2 : State World,
      stored (world st2) dir = stored (world st1) dir ->
      iteration (self (load_checkpoint dir st2)) = iteration (self st) /\
      num_floating_point_operations_so_far (self (load_checkpoint dir st2)) =
        num_floating_point_operations_so_far (self st).
Proof.
  intros Hlog. destruct (log_eval_results_frame st st0 Hlog) as (Hi & Hf & _ & _).
  unfold save_checkpoint. rewrite Hlog. cbn [mbind result_bind rbind].
  eexists. split; [reflexivity|]. cbn [world].
  intros st2 Hstored. unfold load_checkpoint.
  rewrite !barrier_keeps, save_stores in Hstored by reflexivity.
  match goal with
  | |- context [engine_load_checkpoint ?a ?w] =>
      pose proof (load_reads a w dir (iteration (self st0),
                    num_floating_point_operations_so_far (self st0)) eq_refl) as Hload;
      destruct (engine_load_checkpoint a w) as [[it' fl'] w'] eqn:Heq
  end.
  cbn [fst] in Hload.
  assert ((it', fl') = (iteration (self st0), num_floating_point_operations_so_far (self st0)))
    as Hpair.
  { apply Hload. now rewrite barrier_keeps. }
  injection Hpair as -> ->. cbn [self iteration num_floating_point_operations_so_far
    set_counters]. now rewrite Hi, Hf.
Qed.

End RoundTrip.

(** *** Reduction of the evaluation losses *)

Lemma mapR_getitem_column key (lds : list (dict tensor)) vals :
  column key lds = Some vals ->
  mapR (fun x => dict_getitem x key) lds = Ok vals.
Proof.
  revert vals. induction lds as [|d lds IH]; intros vals Hcol; simpl in Hcol.
  - now injection Hcol as <-.
  - destruct (dict_lookup key d) as [v|] eqn:Hd; [|discriminate].
    destruct (column key lds) as [vs|]; [|discriminate].
    injection Hcol as <-. cbn [mapR]. rewrite (IH vs eq_refl).
    unfold dict_getitem. rewrite Hd. reflexivity.
Qed.

Lemma sum_from_scalars (qs : list Q) (a : Q) :
  sum_from (Scalar a) (map Scalar qs) = Ok (Scalar (fold_left fadd qs a)).
Proof.
  revert a. induction qs as [|q qs IH]; intros a; simpl; [reflexivity|]. apply IH.
Qed.

Lemma column_length key (lds : list (dict tensor)) vals :
  column key lds = Some vals -> length vals = length lds.
Proof.
  revert vals. induction lds as [|d lds IH]; intros vals Hcol; simpl in Hcol.
  - now injection Hcol as <-.
  - destruct (dict_lookup key d); [|discriminate].
    destruct (column key lds) as [vs|]; [|discriminate].
    injection Hcol as <-. simpl. now rewrite (IH vs eq_refl).
Qed.

Lemma concat_vecs (vs : list (list Q)) :
  Tensor.concat (map Vec vs) = Ok (List.concat vs).
Proof.
  induction vs as [|v vs IH]; simpl; [reflexivity|]. now rewrite IH.
Qed.

(** A key whose per-microbatch values are all zero-dimensional is reduced
    to their running sum divided by their number. *)
Lemma reduce_key_scalars key (lds : list (dict tensor)) (qs : list Q) :
  lds <> [] -> column key lds = Some (map Scalar qs) ->
  qs <> [] /\
  reduce_key lds key = Ok (Scalar (fdiv (fsum qs) (inject_Z (Z.of_nat (length qs))))).
Proof.
  intros Hne Hcol. unfold reduce_key. rewrite (mapR_getitem_column _ _ _ Hcol). simpl.
  destruct qs as [|q0 qs].
  - destruct lds as [|d lds]; [congruence|]. simpl in Hcol.
    destruct (dict_lookup key d); [|discriminate].
    destruct (column key lds); discriminate.
  - split; [discriminate|].
    change (map Scalar (q0 :: qs)) with (Scalar q0 :: map Scalar qs). cbn [is_scalar].
    change (Scalar q0 :: map Scalar qs) with (map Scalar (q0 :: qs)).
    unfold py_sum. rewrite sum_from_scalars. simpl rbind.
    now rewrite length_map.
Qed.

(** A key whose per-microbatch values all have at least one dimension is
    reduced to their concatenation. *)
Lemma reduce_key_vecs key (lds : list (dict tensor)) (vs : list (list Q)) :
  lds <> [] -> column key lds = Some (map Vec vs) ->
  reduce_key lds key = Ok (Vec (List.concat vs)).
Proof.
  intros Hne Hcol. unfold reduce_key. rewrite (mapR_getitem_column _ _ _ Hcol). simpl.
  destruct vs as [|v0 vs].
  - destruct lds as [|d lds]; [congruence|]. simpl in Hcol.
    destruct (dict_lookup key d); [|discriminate].
    destruct (column key lds); discriminate.
  - change (map Vec (v0 :: vs)) with (Vec v0 :: map Vec vs). cbn [is_scalar].
    unfold torch_concat. change (Vec v0 :: map Vec vs) with (map Vec (v0 :: vs)).
    rewrite concat_vecs. reflexivity.
Qed.

Lemma reduce_key_homogeneous key (lds : list (dict tensor)) vals :
  lds <> [] -> column key lds = Some vals -> homogeneous vals ->
  exists t, reduce_key lds key = Ok t.
Proof.
  intros Hne Hcol [[qs ->]|[vs ->]].
  - destruct (reduce_key_scalars key lds qs Hne Hcol) as (_ & Hq). eauto.
  - rewrite (reduce_key_vecs key lds vs Hne Hcol). eauto.
Qed.

Lemma dict_setitem_fresh {V : Type} key (v : V) (d : dict V) :
  ~ In key (keys d) -> dict_setitem key v d = (d ++ [(key, v)])%list.
Proof.
  induction d as [|[k w] d IH]; simpl; intros Hnin; [reflexivity|].
  destruct (String.eqb_spec k key) as [->|Hne].
  - exfalso. apply Hnin. now left.
  - rewrite IH; [reflexivity|]. intros Hin. apply Hnin. now right.
Qed.

(** The loop over the keys of the first dictionary appends one entry per
    key, in order. *)
Lemma reduce_keys_ok (lds : list (dict tensor)) (ks : list string) (acc : dict tensor) :
  NoDup ks ->
  (forall k, In k ks -> ~ In k (keys acc)) ->
  (forall k, In k ks -> exists t, reduce_key lds k = Ok t) ->
  exists out,
    reduce_keys lds ks acc = Ok (acc ++ out)%list /\ keys out = ks /\
    forall k t, In k ks -> reduce_key lds k = Ok t -> dict_lookup k out = Some t.
Proof.
  revert acc. induction ks as [|k ks IH]; intros acc Hnd Hfresh Hok.
  - exists []. simpl. rewrite app_nil_r. repeat split; auto. intros k t [].
  - inversion Hnd as [|? ? Hk Hnd']; subst.
    destruct (Hok k (or_introl eq_refl)) as [t Ht].
    simpl. rewrite Ht. simpl.
    rewrite dict_setitem_fresh by (apply Hfresh; now left).
    destruct (IH (acc ++ [(k, t)])%list Hnd') as (out & Hrun & Hkeys & Hlook).
    + intros k' Hk' Hin. unfold keys in Hin. rewrite map_app in Hin.
      apply in_app_or in Hin. destruct Hin as [Hin|Hin].
      * apply (Hfresh k'); [now right | exact Hin].
      * simpl in Hin. destruct Hin as [<-|[]]. now apply Hk, list_elem_of_In.
    + intros k' Hk'. apply Hok. now right.
    + exists ((k, t) :: out). split; [|split].
      * rewrite Hrun. now rewrite <- app_assoc.
      * simpl. now rewrite Hkeys.
      * intros k' t' Hin Hred. simpl.
        destruct (String.eqb_spec k k') as [<-|Hne].
        -- congruence.
        -- destruct Hin as [->|Hin]; [congruence|]. now apply Hlook.
Qed.

(** C8: [eval_step] on the final pipeline stage returns, for each key of
    the loss dictionaries, the mean of the per-microbatch values when they
    are zero-dimensional and their concatenation when they have at least
    one dimension; on any other rank it returns the empty mapping.  The
    mean is computed in the arithmetic of the tensors: the values are
    added one after the other, starting from 0, and the sum is divided by
    their number.  Whenever that arithmetic returns every result with a
    relative error of at most [u], the value differs from the exact mean
    of the [n] values by at most [(1 + u)^(n+1) - 1] times the mean of
    their absolute values; with exact arithmetic it is the exact mean. *)
Theorem eval_step_reduces batch (st : State World) it loss_dicts w1 :
  get_batch_data_iterator (args st) (self st) batch = Ok it ->
  forward_backward_func (args st) it (get_num_microbatches (world st)) (world st) =
    (loss_dicts, w1) ->
  let w2 := if 1 <=? empty_unused_memory_level (args st) then empty_cache w1 else w1 in
  (is_pipeline_last_stage w2 = true -> well_formed_losses loss_dicts) ->
  exists loss_reduced st',
    eval_step batch st = Ok (loss_reduced, st') /\
    (is_pipeline_last_stage w2 = false -> loss_reduced = []) /\
    (is_pipeline_last_stage w2 = true ->
       keys loss_reduced = keys (hd [] loss_dicts) /\
       forall key, In key (keys loss_reduced) ->
         (forall qs, column key loss_dicts = Some (map Scalar qs) ->
            let q := fdiv (fsum qs) (inject_Z (Z.of_nat (length qs))) in
            dict_lookup key loss_reduced = Some (Scalar q) /\
            (forall u, accurate u ->
               Qabs (q - mean qs) <=
                 ((1 + u) ^ Z.of_nat (S (length qs)) - 1) * mean (map Qabs qs))%Q /\
            (accurate 0 -> q == mean qs)%Q) /\
         (forall vs, column key loss_dicts = Some (map Vec vs) ->
            dict_lookup key loss_reduced = Some (Vec (List.concat vs)))).
Proof.
  intros Hit Hfb w2 Hwf. unfold eval_step. rewrite Hit. simpl. rewrite Hfb.
  fold w2. destruct (is_pipeline_last_stage w2) eqn:Hlast.
  - destruct (Hwf eq_refl) as (first & rest & -> & Hnd & Hcols).
    assert (first :: rest <> []) as Hne by discriminate.
    destruct (reduce_keys_ok (first :: rest) (keys first) [] Hnd) as (out & Hrun & Hkeys & Hlook).
    + intros k _ [].
    + intros k Hk. destruct (Hcols k Hk) as (vals & Hcol & Hhom).
      now apply reduce_key_homogeneous with (vals := vals).
    + simpl in Hrun. rewrite Hrun. simpl. do 2 eexists. split; [reflexivity|].
      split; [discriminate|]. intros _. split; [exact Hkeys|].
      intros key Hkey. rewrite Hkeys in Hkey. split.
      * intros qs Hcol.
        destruct (reduce_key_scalars key (first :: rest) qs Hne Hcol) as (Hqs & Hq).
        cbv zeta. split; [now apply Hlook|]. split.
        -- intros u Hu. now apply RoundingFacts.mean_error.
        -- intros Hexact.
           pose proof (RoundingFacts.mean_error 0 Hexact qs Hqs) as Hb.
           assert (((1 + 0) ^ Z.of_nat (S (length qs)) - 1) * mean (map Qabs qs) == 0)%Q
             as Hz.
           { assert ((1 + 0) ^ Z.of_nat (S (length qs)) == 1)%Q as ->.
             { assert (1 + 0 == 1)%Q as -> by lra. apply Qpower_1. }
             lra. }
           rewrite Hz in Hb. apply Qabs_Qle_condition in Hb. lra.
      * intros vs Hcol. apply Hlook; [exact Hkey|].
        now apply reduce_key_vecs.
  - do 2 eexists. split; [reflexivity|]. split; [reflexivity|discriminate].
Qed.

End WithEngine.

Lemma train_step_step_was_skipped_witness :
  exists st',
    train_step MemoryEngine.one_batch MemoryEngine.start_state =
      Ok (([("lm loss", Scalar 2)], 1, PyNone, PyNone), st') /\
    step_was_skipped {| wrapped_optimizer := 0%nat |} (heap st') = Ok (PyBool (1 =? 1)) /\
    (step_was_skipped {| wrapped_optimizer := 0%nat |} (heap st') = Ok (PyBool true) <-> 1 = 1).
Proof.
  apply (train_step_step_was_skipped {| wrapped_optimizer := 0%nat |}
           MemoryEngine.one_batch MemoryEngine.start_state
           (Single (Some [ [("input_ids", Vec [1]%Q)]; [("input_ids", Vec [2]%Q)] ]))
           [("lm loss", Scalar 2)] 1 PyNone PyNone
           (heap MemoryEngine.start_state) (world MemoryEngine.start_state)).
  - reflexivity.
  - reflexivity.
  - reflexivity.
Defined.

Lemma checkpoint_round_trip_witness :
  exists st1,
    save_checkpoint "ckpt" MemoryEngine.start_state = Ok st1 /\
    iteration (self (load_checkpoint "ckpt" (MemoryEngine.later_state st1))) = 7 /\
    num_floating_point_operations_so_far
      (self (load_checkpoint "ckpt" (MemoryEngine.later_state st1))) = 1000 # 1.
Proof.
  destruct (checkpoint_round_trip (World := MemoryEngine.World) (fun w p => w !! p))
    with (dir := "ckpt") (st := MemoryEngine.start_state) (st0 := MemoryEngine.start_state)
    as (st1 & Hsave & Hload).
  - intros a it flops w p Hp. simpl. rewrite Hp. apply lookup_insert_eq.
  - intros w p. reflexivity.
  - intros a w p c Hp Hc. simpl. rewrite Hp, Hc. reflexivity.
  - reflexivity.
  - exists st1. split; [exact Hsave|].
    apply (Hload (MemoryEngine.later_state st1)). reflexivity.
Defined.

Lemma two_microbatches_well_formed : well_formed_losses MemoryEngine.two_microbatches.
Proof.
  exists [("lm loss", Scalar 1); ("logits", Vec [1; 2]%Q)],
         [[("lm loss", Scalar 3); ("logits", Vec [3]%Q)]].
  split; [reflexivity|]. split.
  - apply NoDup_cons. split.
    + intros Hin. apply list_elem_of_In in Hin. simpl in Hin.
      destruct Hin as [Heq|[]]. discriminate.
    + apply NoDup_singleton.
  - intros key [<-|[<-|[]]]; eexists; (split; [reflexivity|]).
    + left. now exists [1; 3]%Q.
    + right. now exists [[1; 2]; [3]]%Q.
Qed.

Lemma eval_step_reduces_witness :
  exists loss_reduced st',
    eval_step MemoryEngine.one_batch MemoryEngine.start_state = Ok (loss_reduced, st') /\
    dict_lookup "lm loss" loss_reduced =
      Some (Scalar (fdiv (fsum [1; 3]%Q) (inject_Z 2))) /\
    dict_lookup "logits" loss_reduced = Some (Vec [1; 2; 3]%Q).
Proof.
  destruct (eval_step_reduces MemoryEngine.one_batch MemoryEngine.start_state
              (Single (Some [ [("input_ids", Vec [1]%Q)]; [("input_ids", Vec [2]%Q)] ]))
              MemoryEngine.two_microbatches ∅)
    as (loss_reduced & st' & Hrun & _ & Hlast).
  - reflexivity.
  - reflexivity.
  - intros _. exact two_microbatches_well_formed.
  - destruct (Hlast eq_refl) as [Hkeys Hall].
    exists loss_reduced, st'. split; [exact Hrun|]. split.
    + apply (Hall "lm loss"); [rewrite Hkeys; simpl; auto|]. reflexivity.
    + apply (Hall "logits" ltac:(rewrite Hkeys; simpl; auto) ) with (vs := [[1; 2]; [3]]%Q).
      reflexivity.
Defined.

(** The same run, computed in binary32: the scalar loss is averaged, the
    logits are concatenated. *)
Example eval_step_memory_engine :
  fst <$> (match eval_step MemoryEngine.one_batch MemoryEngine.start_state with
           | Ok r => Some r
           | Err _ => None
           end) =
  Some [("lm loss", Scalar 2); ("logits", Vec [1; 2; 3]%Q)].
Proof. vm_compute. reflexivity. Qed.

(** Rounding shows: in binary32 the mean of 0, 0 and 1 is the float next
    to one third, not one third. *)
Example reduce_key_rounds :
  reduce_key [[("loss", Scalar 0)]; [("loss", Scalar 0)]; [("loss", Scalar 1)]] "loss" =
    Ok (Scalar (11184811 # 33554432)) /\
  ~ (11184811 # 33554432 == mean [0; 0; 1])%Q.
Proof. split; [vm_compute; reflexivity | vm_compute; discriminate]. Qed.

End EngineFacts.

Module DataLoaderFacts.
Import Tensor DataLoader.

Lemma next_n_dummy (n : nat) :
  next_n n DummyMegatronDataloader = Ok (replicate n [], DummyMegatronDataloader).
Proof.
  induction n as [|n IH]; [reflexivity|].
  cbn [next_n]. simpl next. cbn [mbind result_bind rbind snd fst].
  rewrite IH. reflexivity.
Qed.

Section WithEngine.
Context {World : Type} `{DataEngine World}.

(** The engine's iterator builder leaves the two microbatch settings of
    the argument namespace as it found them. *)
Definition frame_preserving : Prop :=
  forall provider a w,
    micro_batch_size (snd (fst (engine_build_train_valid_test_data_iterators provider a w))) =
      micro_batch_size a /\
    num_micro_batches (snd (fst (engine_build_train_valid_test_data_iterators provider a w))) =
      num_micro_batches a.

(** C5: the stand-in substituted on a rank without an iterator whose
    source rank has one returns the empty mapping at every call of [next]
    and never signals the end of the iteration. *)
Theorem null_iterator_yields_empty_forever (w : World) :
  broadcast_from_src true w = false ->
  exists it,
    _handle_megatron_data_iterator w NoIterator = OneIterator it /\
    next it = Ok ([], it) /\
    forall n, next_n n it = Ok (replicate n [], it).
Proof.
  intros Hsrc. exists DummyMegatronDataloader. split; [|split].
  - unfold _handle_megatron_data_iterator. simpl. now rewrite Hsrc.
  - reflexivity.
  - apply next_n_dummy.
Qed.

(** *** Native mode: micro-batch size accounting *)

Lemma build_per_chunk_frame provider chunks acc a w :
  frame_preserving ->
  micro_batch_size (snd (fst (build_per_chunk provider chunks acc a w))) = micro_batch_size a /\
  num_micro_batches (snd (fst (build_per_chunk provider chunks acc a w))) = num_micro_batches a.
Proof.
  intros Hframe. revert acc a w. induction chunks as [|i chunks IH]; intros acc a w.
  - simpl. auto.
  - cbn [build_per_chunk].
    pose proof (Hframe provider a (set_virtual_pipeline_model_parallel_rank i w)) as [Hm Hn].
    destruct (engine_build_train_valid_test_data_iterators provider a
                (set_virtual_pipeline_model_parallel_rank i w)) as [[[[tr va] te] a1] w2].
    destruct acc as [[trs vas] tes]. simpl in Hm, Hn.
    destruct (IH ((trs ++ [tr])%list, (vas ++ [va])%list, (tes ++ [te])%list) a1 w2) as [Hm' Hn'].
    rewrite Hm', Hn'. auto.
Qed.

Lemma build_iterators_frame pl a w :
  frame_preserving ->
  micro_batch_size (snd (fst (build_train_valid_test_data_iterators pl a w))) =
    micro_batch_size a /\
  num_micro_batches (snd (fst (build_train_valid_test_data_iterators pl a w))) =
    num_micro_batches a.
Proof.
  intros Hframe. unfold build_train_valid_test_data_iterators.
  destruct (virtual_pipeline_model_parallel_size a).
  - match goal with
    | |- context [build_per_chunk ?p ?c ?acc a w] =>
        pose proof (build_per_chunk_frame p c acc a w Hframe) as [Hm Hn];
        destruct (build_per_chunk p c acc a w) as [[[[trs vas] tes] a1] w1]
    end.
    simpl in *. auto.
  - match goal with
    | |- context [engine_build_train_valid_test_data_iterators ?p a w] =>
        pose proof (Hframe p a w) as [Hm Hn];
        destruct (engine_build_train_valid_test_data_iterators p a w)
          as [[[[tr va] te] a1] w1]
    end.
    simpl in *. auto.
Qed.

(** C9: in native mode the configured micro-batch size is multiplied by
    the microbatch count before the iterator builders run and divided back
    afterwards, so [prepare_data_loader] returns with the micro-batch size
    it was called with.  The engine's builder is taken not to assign the
    two settings itself, and the microbatch count is not zero. *)
Theorem prepare_data_loader_restores_micro_batch_size
    (table : gmap string kwval) pl (a : Args) (w : World) (dataloader : gmap string kwval) :
  frame_preserving ->
  megatron_dataset_flag a = true ->
  num_micro_batches a <> 0 ->
  exists its a' w',
    prepare_data_loader table pl a w dataloader = Ok (inr (its, a', w')) /\
    micro_batch_size a' = micro_batch_size a.
Proof.
  intros Hframe Hflag Hn. unfold prepare_data_loader. rewrite Hflag. simpl.
  unfold prepare_data_loader_megatron.
  set (a1 := match consumed_samples a with
             | Some c => set_consumed c a
             | None => set_consumed (0, 0, 0) a
             end).
  assert (micro_batch_size a1 = micro_batch_size a /\
          num_micro_batches a1 = num_micro_batches a) as [Hm1 Hn1].
  { unfold a1. destruct (consumed_samples a); simpl; auto. }
  set (a2 := set_micro_batch_size (micro_batch_size a1 * num_micro_batches a1) a1).
  pose proof (build_iterators_frame pl a2 w Hframe) as [Hm3 Hn3].
  destruct (build_train_valid_test_data_iterators pl a2 w) as [[[[tr va] te] a3] w1].
  simpl in Hm3, Hn3.
  assert (num_micro_batches a3 = num_micro_batches a) as Hn3'.
  { rewrite Hn3. unfold a2. simpl. exact Hn1. }
  destruct (Z.eqb_spec (num_micro_batches a3) 0) as [Hz|_]; [congruence|].
  simpl. do 3 eexists. split; [reflexivity|]. simpl.
  rewrite Hm3, Hn3'. unfold a2. simpl. rewrite Hm1, Hn1.
  now apply Z.div_mul.
Qed.

(** *** Generic mode: the batch size configured downstream *)

Lemma getitem_Some (kwargs : gmap string kwval) k v :
  kwargs !! k = Some v -> getitem kwargs k = Ok v.
Proof. intros Hk. unfold getitem. now rewrite Hk. Qed.

Lemma delitem_Some (kwargs : gmap string kwval) k v :
  kwargs !! k = Some v -> delitem kwargs k = Ok (delete k kwargs).
Proof. intros Hk. unfold delitem. now rewrite Hk. Qed.

Ltac run_result := cbn [mbind result_bind rbind].

Lemma collect_kwargs_lookup (table dataloader : gmap string kwval) (k : string) :
  collect_kwargs table dataloader !! k =
  (fun d => default d (dataloader !! k)) <$> table !! k.
Proof.
  unfold collect_kwargs. rewrite map_lookup_imap.
  destruct (table !! k); reflexivity.
Qed.

Lemma collect_kwargs_is_Some (table dataloader : gmap string kwval) (k : string) :
  is_Some (table !! k) -> is_Some (collect_kwargs table dataloader !! k).
Proof. intros [d Hd]. rewrite collect_kwargs_lookup, Hd. simpl. eauto. Qed.

(** C6: in generic mode [prepare_data_loader] rebuilds the dataloader
    from keyword arguments whose effective batch size is
    [micro_batch_size * num_micro_batches], whether it sets [batch_size]
    itself or the batch size of the batch sampler.  If the [DataLoader]
    constructor refuses these arguments its exception is the outcome;
    otherwise the new dataloader is passed on with [split_batches=False]. *)
Theorem prepare_data_loader_effective_batch_size
    (table : gmap string kwval) pl (a : Args) (w : World) (dataloader : gmap string kwval)
    (ds : kwval) :
  megatron_dataset_flag a = false ->
  (forall k, In k ["batch_size"; "sampler"; "shuffle"; "batch_sampler"] ->
             is_Some (table !! k)) ->
  dataloader !! "dataset" = Some ds ->
  batching (collect_kwargs table dataloader) ->
  exists kwargs',
    effective_batch_size kwargs' = Some (micro_batch_size a * num_micro_batches a) /\
    (forall e, torch_DataLoader ds kwargs' = Err e ->
       prepare_data_loader table pl a w dataloader = Err e) /\
    (torch_DataLoader ds kwargs' = Ok tt ->
       exists call,
         prepare_data_loader table pl a w dataloader = Ok (inl call) /\
         dataset call = ds /\ dataloader_kwargs call = kwargs' /\
         split_batches call = false).
Proof.
  intros Hflag Htable Hds Hbatch.
  unfold prepare_data_loader. rewrite Hflag. simpl.
  unfold prepare_data_loader_generic. rewrite Hds.
  set (kwargs := collect_kwargs table dataloader) in *.
  set (m := micro_batch_size a * num_micro_batches a).
  assert (is_Some (kwargs !! "shuffle")) as [sh Hsh].
  { apply collect_kwargs_is_Some, Htable. simpl. auto. }
  assert (is_Some (kwargs !! "batch_sampler")) as [bsam Hbsam].
  { apply collect_kwargs_is_Some, Htable. simpl. auto 6. }
  destruct Hbatch as [(v & Hv & Hnone)|[(Hbs & o & Hs & Ho & Hb)|(Hbs & (v & Hs & Hv) & o & Hb)]].
  - rewrite (getitem_Some _ _ _ Hv). run_result. rewrite Hnone.
    rewrite (delitem_Some _ _ _ Hbsam). run_result.
    exists (<["batch_size" := VInt m]> (delete "batch_sampler" kwargs)).
    split; [|split].
    + unfold effective_batch_size.
      rewrite lookup_insert_ne by discriminate. rewrite lookup_delete_eq.
      now rewrite lookup_insert_eq.
    + intros e He. now rewrite He.
    + intros Hok. rewrite Hok. run_result. eexists. split; [reflexivity|]. simpl. auto.
  - rewrite (getitem_Some _ _ _ Hbs). run_result. cbn [is_VNone].
    rewrite (getitem_Some _ _ _ Hs). run_result. cbn [isinstance_BatchSampler].
    rewrite Ho. cbn [set_batch_size]. run_result.
    eexists. split; [|split].
    2: { intros e He. rewrite He. reflexivity. }
    2: { intros Hok. rewrite Hok. run_result. eexists. split; [reflexivity|]. simpl. auto. }
    unfold effective_batch_size.
    rewrite lookup_insert_ne by discriminate. rewrite Hb.
    rewrite lookup_insert_ne by discriminate. rewrite Hbs.
    rewrite lookup_insert_eq. simpl. now rewrite Ho.
  - rewrite (getitem_Some _ _ _ Hbs). run_result. cbn [is_VNone].
    rewrite (getitem_Some _ _ _ Hs). run_result. rewrite Hv.
    rewrite (delitem_Some _ _ _ Hs). run_result.
    rewrite (delitem_Some _ "shuffle" sh)
      by (rewrite lookup_delete_ne by discriminate; exact Hsh). run_result.
    rewrite (delitem_Some _ "batch_size" VNone)
      by (rewrite !lookup_delete_ne by discriminate; exact Hbs). run_result.
    rewrite (getitem_Some _ "batch_sampler" (VObj o))
      by (rewrite !lookup_delete_ne by discriminate; exact Hb). run_result.
    cbn [set_batch_size]. run_result.
    eexists. split; [|split].
    2: { intros e He. rewrite He. reflexivity. }
    2: { intros Hok. rewrite Hok. run_result. eexists. split; [reflexivity|]. simpl. auto. }
    unfold effective_batch_size. now rewrite lookup_insert_eq.
Qed.

(** A dataloader built with [batch_size=None] and an ordinary sampler has
    no batch sampler to configure: the shim raises. *)
Lemma prepare_data_loader_unbatched_raises
    (table : gmap string kwval) pl (a : Args) (w : World) (dataloader : gmap string kwval) v :
  megatron_dataset_flag a = false ->
  (forall k, In k ["batch_size"; "sampler"; "shuffle"; "batch_sampler"] ->
             is_Some (table !! k)) ->
  collect_kwargs table dataloader !! "batch_size" = Some VNone ->
  collect_kwargs table dataloader !! "sampler" = Some v ->
  isinstance_BatchSampler v = false ->
  collect_kwargs table dataloader !! "batch_sampler" = Some VNone ->
  prepare_data_loader table pl a w dataloader = Err (AttributeError "batch_size").
Proof.
  intros Hflag Htable Hbs Hs Hv Hb.
  unfold prepare_data_loader. rewrite Hflag. simpl.
  unfold prepare_data_loader_generic.
  set (kwargs := collect_kwargs table dataloader) in *.
  assert (is_Some (kwargs !! "shuffle")) as [sh Hsh].
  { apply collect_kwargs_is_Some, Htable. simpl. auto. }
  rewrite (getitem_Some _ _ _ Hbs). run_result. cbn [is_VNone].
  rewrite (getitem_Some _ _ _ Hs). run_result. rewrite Hv.
  rewrite (delitem_Some _ _ _ Hs). run_result.
  rewrite (delitem_Some _ "shuffle" sh)
    by (rewrite lookup_delete_ne by discriminate; exact Hsh). run_result.
  rewrite (delitem_Some _ "batch_size" VNone)
    by (rewrite !lookup_delete_ne by discriminate; exact Hbs). run_result.
  rewrite (getitem_Some _ "batch_sampler" VNone)
    by (rewrite !lookup_delete_ne by discriminate; exact Hb). reflexivity.
Qed.

End WithEngine.

Lemma null_iterator_yields_empty_forever_witness :
  exists it,
    _handle_megatron_data_iterator (tt : DatalessRank.World) NoIterator = OneIterator it /\
    next it = Ok ([], it) /\
    forall n, next_n n it = Ok (replicate n [], it).
Proof.
  apply (null_iterator_yields_empty_forever (tt : DatalessRank.World)). reflexivity.
Defined.

Lemma prepare_data_loader_restores_micro_batch_size_witness :
  exists its a' w',
    prepare_data_loader DatalessRank.kwargs_table DatalessRank.plugin
      DatalessRank.native_args (tt : DatalessRank.World) ∅ = Ok (inr (its, a', w')) /\
    micro_batch_size a' = 8.
Proof.
  apply (prepare_data_loader_restores_micro_batch_size DatalessRank.kwargs_table
           DatalessRank.plugin DatalessRank.native_args (tt : DatalessRank.World) ∅).
  - intros provider a w. split; reflexivity.
  - reflexivity.
  - discriminate.
Defined.

(** With a microbatch count of zero the division back raises. *)
Example prepare_data_loader_zero_micro_batches :
  prepare_data_loader DatalessRank.kwargs_table DatalessRank.plugin
    (set_micro_batch_size 8
       {| megatron_dataset_flag := true; micro_batch_size := 8; num_micro_batches := 0;
          consumed_samples := None; consumed_train_samples := 0;
          consumed_valid_samples := 0; consumed_test_samples := 0;
          virtual_pipeline_model_parallel_size := None; model_len := None;
          model_type_name := "gpt" |})
    (tt : DatalessRank.World) ∅ = Err ZeroDivisionError.
Proof. reflexivity. Qed.

Lemma prepare_data_loader_effective_batch_size_witness :
  exists call,
    prepare_data_loader DatalessRank.kwargs_table DatalessRank.plugin
      DatalessRank.generic_args (tt : DatalessRank.World) DatalessRank.loader_16 =
      Ok (inl call) /\
    effective_batch_size (dataloader_kwargs call) = Some (8 * 4) /\
    split_batches call = false.
Proof.
  destruct (prepare_data_loader_effective_batch_size DatalessRank.kwargs_table
              DatalessRank.plugin DatalessRank.generic_args (tt : DatalessRank.World)
              DatalessRank.loader_16
              (VObj {| is_BatchSampler := false; batch_size_attr := None; repr := "ds" |}))
    as (kwargs' & Heff & _ & Hok).
  - reflexivity.
  - intros k [<-|[<-|[<-|[<-|[]]]]]; vm_compute; eauto.
  - reflexivity.
  - left. exists (VInt 16). split; reflexivity.
  - destruct Hok as (call & Hrun & _ & Hkw & Hsplit).
    + simpl. rewrite Heff. reflexivity.
    + exists call. rewrite Hkw. auto.
Defined.

(** With a microbatch count of zero the product is no batch size the
    constructor accepts, and its exception is the outcome. *)
Example prepare_data_loader_constructor_raises :
  prepare_data_loader DatalessRank.kwargs_table DatalessRank.plugin
    {| megatron_dataset_flag := false; micro_batch_size := 8; num_micro_batches := 0;
       consumed_samples := None; consumed_train_samples := 0;
       consumed_valid_samples := 0; consumed_test_samples := 0;
       virtual_pipeline_model_parallel_size := None; model_len := Some 1;
       model_type_name := "gpt" |}
    (tt : DatalessRank.World) DatalessRank.loader_16 =
  Err (ValueError "batch_size should be a positive integer value").
Proof. reflexivity. Qed.

(** For [micro_batch_size=8] and [num_micro_batches=4] the rebuilt
    dataloader is given [batch_size=32]. *)
Example prepare_data_loader_8_times_4 :
  match prepare_data_loader DatalessRank.kwargs_table DatalessRank.plugin
          DatalessRank.generic_args (tt : DatalessRank.World) DatalessRank.loader_16 with
  | Ok (inl call) =>
      dataloader_kwargs call !! "batch_size" = Some (VInt 32) /\
      dataloader_kwargs call !! "batch_sampler" = None /\
      effective_batch_size (dataloader_kwargs call) = Some 32
  | _ => False
  end.
Proof. vm_compute. auto. Qed.

Example prepare_data_loader_unbatched :
  prepare_data_loader DatalessRank.kwargs_table DatalessRank.plugin
    DatalessRank.generic_args (tt : DatalessRank.World) DatalessRank.loader_unbatched =
  Err (AttributeError "batch_size").
Proof. vm_compute. reflexivity. Qed.

End DataLoaderFacts.

Module GPTBatchFacts.
Import Tensor T5Mask GPTBatch.

Lemma to_minus_1_app {A : Type} (row : list A) (x : A) :
  to_minus_1 (row ++ [x]) = row.
Proof.
  unfold to_minus_1, py_slice, clamp_index. rewrite length_app. simpl length.
  destruct (Z.ltb_spec 0 0) as [?|_]; [lia|].
  destruct (Z.ltb_spec (-1) 0) as [_|?]; [|lia].
  rewrite Z.min_l by lia. rewrite Z.max_l by lia.
  replace (Z.to_nat (-1 + Z.of_nat (length row + 1) - 0)) with (length row) by lia.
  change (Z.to_nat 0) with 0%nat. rewrite drop_0. apply take_app_length.
Qed.

Lemma from_1_drop {A : Type} (row : list A) : from_1 row = drop 1 row.
Proof.
  unfold from_1, py_slice, clamp_index.
  destruct (Z.ltb_spec 1 0) as [?|_]; [lia|].
  destruct (Z.ltb_spec (Z.of_nat (length row)) 0) as [?|_]; [lia|].
  rewrite (Z.min_l (Z.of_nat (length row))) by lia.
  destruct row as [|x row].
  - reflexivity.
  - rewrite Z.min_l by (simpl length; lia).
    change (Z.to_nat 1) with 1%nat. apply take_ge. rewrite length_drop. lia.
Qed.

Lemma concat_dim1_column {A : Type} (t : list (list A)) (x : A) :
  concat_dim1 t (replicate (length t) [x]) = map (fun row => (row ++ [x])%list) t.
Proof. induction t as [|row t IH]; simpl; [reflexivity|]. now rewrite <- IH. Qed.

Section Decoder.
Variable Masks : Type.
Variable get_ltor_masks_and_position_ids : list (list Z) -> Z -> bool -> bool -> bool -> Masks.

(** C7: on a generic batch whose [input_ids] has shape [B, L] the
    decoder-only batch decoder appends the end-of-document token to every
    sequence and shifts by one: [tokens] is the sequence without its last
    element, that is the original [input_ids]; [labels] is the sequence
    without its first element; both have shape [B, L], and for [L >= 1] the
    last label of each row is the end-of-document token.  The token is an
    [int64] value, as every entry of the padding tensor is. *)
Theorem get_batch_transformer_shift_by_one (self : GPTTrainStep)
    (data : dict (list (list Z))) (rest : list (dict (list (list Z))))
    (input_ids : list (list Z)) (B L : nat) :
  int64 (eod_token self) ->
  dict_lookup "input_ids" data = Some input_ids ->
  shape2 B L input_ids ->
  exists tokens labels masks,
    get_batch_transformer Masks get_ltor_masks_and_position_ids self (data :: rest) =
      Ok ((tokens, labels, masks), rest) /\
    tokens = map (fun seq => to_minus_1 (seq ++ [eod_token self])) input_ids /\
    labels = map (fun seq => from_1 (seq ++ [eod_token self])) input_ids /\
    tokens = input_ids /\
    shape2 B L tokens /\ shape2 B L labels /\
    ((1 <= L)%nat -> Forall (fun row => last row = Some (eod_token self)) labels).
Proof.
  intros Heod Hids [HB HL].
  assert (map (fun seq => to_minus_1 (seq ++ [eod_token self])) input_ids = input_ids) as Htok.
  { rewrite <- (map_id input_ids) at 2. apply map_ext. intros seq. apply to_minus_1_app. }
  exists (map (fun seq => to_minus_1 (seq ++ [eod_token self])) input_ids),
         (map (fun seq => from_1 (seq ++ [eod_token self])) input_ids),
         (get_ltor_masks_and_position_ids
            (map (fun seq => to_minus_1 (seq ++ [eod_token self])) input_ids)
            (eod_token self) (reset_position_ids self) (reset_attention_mask self) true).
  split.
  { unfold get_batch_transformer, dict_getitem. rewrite Hids. simpl.
    rewrite (Int64Facts.add64_0_l _ Heod).
    rewrite concat_dim1_column, !map_map. reflexivity. }
  split; [reflexivity|]. split; [reflexivity|]. split; [exact Htok|].
  split; [|split].
  - rewrite Htok. now split.
  - split; [now rewrite length_map|].
    apply Forall_map. eapply Forall_impl; [exact HL|].
    intros seq Hseq. simpl in *. rewrite from_1_drop, length_drop, length_app. simpl. lia.
  - intros HL1. apply Forall_map. eapply Forall_impl; [exact HL|].
    intros seq Hseq. simpl in *. rewrite from_1_drop.
    destruct seq as [|x seq]; [simpl in Hseq; lia|].
    simpl. rewrite drop_0. apply last_snoc.
Qed.

End Decoder.

Lemma get_batch_transformer_shift_by_one_witness :
  exists tokens labels masks,
    get_batch_transformer unit (fun _ _ _ _ _ => tt)
      {| eod_token := 9; reset_position_ids := false; reset_attention_mask := false;
         eod_mask_loss := false |}
      [[("input_ids", [[1; 2; 3]; [4; 5; 6]])]] = Ok ((tokens, labels, masks), []) /\
    tokens = [[1; 2; 3]; [4; 5; 6]] /\
    labels = [[2; 3; 9]; [5; 6; 9]].
Proof.
  destruct (get_batch_transformer_shift_by_one unit (fun _ _ _ _ _ => tt)
              {| eod_token := 9; reset_position_ids := false;
                 reset_attention_mask := false; eod_mask_loss := false |}
              [("input_ids", [[1; 2; 3]; [4; 5; 6]])] []
              [[1; 2; 3]; [4; 5; 6]] 2 3)
    as (tokens & labels & masks & Hrun & _ & Hlab & Htok & _).
  - unfold int64. simpl. lia.
  - reflexivity.
  - split; [reflexivity|]. repeat constructor.
  - exists tokens, labels, masks. split; [exact Hrun|]. split; [exact Htok|].
    rewrite Hlab. reflexivity.
Defined.

(** Outside [int64] the padding entry is the wrapped value: [2^63] is
    appended as [-2^63]. *)
Example get_batch_transformer_wraps :
  get_batch_transformer unit (fun _ _ _ _ _ => tt)
    {| eod_token := 9223372036854775808; reset_position_ids := false;
       reset_attention_mask := false; eod_mask_loss := false |}
    [[("input_ids", [[1; 2]])]] =
  Ok (([[1; 2]], [[2; -9223372036854775808]], tt), []).
Proof. reflexivity. Qed.

End GPTBatchFacts.

Module BertLossFacts.
Import BertLoss.

(** The constructor assigns [name], [get_batch], [loss_func],
    [forward_step] and [model_output_class], and nothing else. *)
Lemma BertTrainStep_init_dom pl args :
  dom (BertTrainStep_init pl args) =
  ({[ "name"; "get_batch"; "loss_func"; "forward_step"; "model_output_class" ]} : gset string).
Proof.
  unfold BertTrainStep_init. cbv zeta. destruct (negb (model_return_dict args));
    rewrite !dom_insert_L, dom_empty_L; set_solver.
Qed.

Lemma BertTrainStep_init_num_labels pl args :
  BertTrainStep_init pl args !! "num_labels" = None.
Proof.
  apply not_elem_of_dom. rewrite BertTrainStep_init_dom.
  intros Hin. repeat (apply elem_of_union in Hin as [Hin|Hin]);
    apply elem_of_singleton in Hin; discriminate.
Qed.

Lemma getattr_num_labels pl args :
  getattr (BertTrainStep_init pl args) "num_labels" = Err (AttributeError "num_labels").
Proof. unfold getattr. rewrite BertTrainStep_init_num_labels. reflexivity. Qed.

Section Loss.
Variables Logits Labels Loss : Type.
Variable labels_dtype : Labels -> dtype.
Variable MSELoss : Logits -> Labels -> Loss.
Variable CrossEntropyLoss : Z -> Logits -> Labels -> Loss.
Variable BCEWithLogitsLoss : Logits -> Labels -> Loss.
Variable average_losses_across_data_parallel_group : list Loss -> list Loss.

Local Abbreviation finetune :=
  (loss_func_finetune Logits Labels Loss labels_dtype MSELoss CrossEntropyLoss
     BCEWithLogitsLoss average_losses_across_data_parallel_group).

(** C10: called with [num_labels] other than 1, the fine-tuning loss
    function reads [self.num_labels] on the train-step object, which the
    constructor never assigns; the call raises an attribute error and
    returns no loss, so neither the cross-entropy nor the
    binary-cross-entropy branch is ever taken. *)
Theorem loss_func_finetune_attribute_error pl args (num_labels : Z)
    (labels : Labels) (logits : Logits) :
  num_labels <> 1 ->
  finetune (BertTrainStep_init pl args) num_labels labels logits =
    Err (AttributeError "num_labels") /\
  forall r, finetune (BertTrainStep_init pl args) num_labels labels logits <> Ok r.
Proof.
  intros Hn.
  assert (finetune (BertTrainStep_init pl args) num_labels labels logits =
          Err (AttributeError "num_labels")) as Herr.
  { unfold loss_func_finetune.
    destruct (Z.eqb_spec num_labels 1) as [?|_]; [contradiction|].
    rewrite getattr_num_labels. reflexivity. }
  split; [exact Herr|]. intros r. rewrite Herr. discriminate.
Qed.

(** Regression ([num_labels = 1]) is the one branch that computes a loss. *)
Lemma loss_func_finetune_regression self (labels : Labels) (logits : Logits) averaged rest :
  average_losses_across_data_parallel_group [MSELoss logits labels] = averaged :: rest ->
  finetune self 1 labels logits = Ok (MSELoss logits labels, [("loss", averaged)]).
Proof. intros Havg. unfold loss_func_finetune. simpl. now rewrite Havg. Qed.

End Loss.

Lemma loss_func_finetune_attribute_error_witness :
  loss_func_finetune unit unit unit (fun _ => torch_long) (fun _ _ => tt) (fun _ _ _ => tt)
    (fun _ _ => tt) (fun l => l)
    (BertTrainStep_init
       {| custom_get_batch_function := false; custom_loss_function := false;
          pretrain_bert_importable := false |}
       {| megatron_dataset_flag := false; pretraining_flag := false; num_labels := 2;
          bert_binary_head := false; model_return_dict := false |})
    2 tt tt = Err (AttributeError "num_labels").
Proof.
  apply (loss_func_finetune_attribute_error unit unit unit (fun _ => torch_long)
           (fun _ _ => tt) (fun _ _ _ => tt) (fun _ _ => tt) (fun l => l)
           {| custom_get_batch_function := false; custom_loss_function := false;
              pretrain_bert_importable := false |}
           {| megatron_dataset_flag := false; pretraining_flag := false; num_labels := 2;
              bert_binary_head := false; model_return_dict := false |}
           2 tt tt).
  discriminate.
Defined.

End BertLossFacts.

(** ** Further properties of the generation entry point *)

Module GenerateSoundness.
Import Generate.

Lemma bind_Continue {A B : Type} (m : flow A) (k : A -> flow B) (b : B) :
  m ≫= k = Continue b -> exists a, m = Continue a /\ k a = Continue b.
Proof. destruct m as [a| |]; simpl; intros Hk; try discriminate. eauto. Qed.

Lemma guard_Continue (c : bool) (e : exn) (u : unit) :
  guard c e = Continue u -> c = false.
Proof. destruct c; simpl; [discriminate | reflexivity]. Qed.

Lemma lift_Continue {A : Type} (r : result A) (a : A) :
  lift r = Continue a -> r = Ok a.
Proof. destruct r; simpl; intros [= ->]; reflexivity. Qed.

Lemma Qlt_bool_lt (x y : Q) : Qlt_bool x y = true -> (x < y)%Q.
Proof.
  unfold Qlt_bool. intros Hn. apply negb_true_iff in Hn.
  apply Qnot_le_lt. intros Hle. apply Qle_bool_iff in Hle. congruence.
Qed.

Lemma Qlt_bool_false (x y : Q) : Qlt_bool x y = false -> (y <= x)%Q.
Proof.
  unfold Qlt_bool. intros Hn. apply negb_false_iff in Hn. now apply Qle_bool_iff.
Qed.

Lemma in_closed_range (a b : Q) (x : obj) :
  in_closed a x b = Ok true -> exists v, as_num x = Ok v /\ (a <= v <= b)%Q.
Proof.
  unfold in_closed. destruct (as_num x) as [v|]; simpl; [|discriminate].
  intros [= Hin]. apply andb_true_iff in Hin as [Ha Hb].
  exists v. split; [reflexivity|]. split; now apply Qle_bool_iff.
Qed.

Lemma check_temperature_range (t : obj) (v : Q) :
  check_temperature t = Continue v -> (0 < v <= 100)%Q.
Proof.
  unfold check_temperature. destruct (is_None t).
  - intros [= <-]. split; [reflexivity | discriminate].
  - intros Hc. apply bind_Continue in Hc as (inside & Hin & Hc).
    apply bind_Continue in Hc as (u & Hg & Hc).
    apply guard_Continue, negb_false_iff in Hg. subst inside.
    apply lift_Continue in Hin, Hc. unfold in_left_open in Hin. rewrite Hc in Hin.
    simpl in Hin. injection Hin as Hin. apply andb_true_iff in Hin as [Ha Hb].
    split; [now apply Qlt_bool_lt | now apply Qle_bool_iff].
Qed.

Lemma check_closed_range (x : obj) (a b v : Q) (e : exn) :
  (inside ← lift (in_closed a x b); guard (negb inside) e;; lift (as_num x)) = Continue v ->
  (a <= v <= b)%Q.
Proof.
  intros Hc. apply bind_Continue in Hc as (inside & Hin & Hc).
  apply bind_Continue in Hc as (u & Hg & Hc).
  apply guard_Continue, negb_false_iff in Hg. subst inside.
  apply lift_Continue in Hin, Hc.
  apply in_closed_range in Hin as (v' & Hv' & Hr). congruence.
Qed.

Lemma check_top_k_range (k : obj) (v : Q) :
  check_top_k k = Continue v -> (0 <= v <= 1000)%Q.
Proof.
  unfold check_top_k. destruct (is_None k).
  - intros [= <-]. split; discriminate.
  - apply check_closed_range.
Qed.

Lemma check_top_p_range (p : obj) (k v : Q) :
  check_top_p p k = Continue v -> (0 <= v <= 1)%Q /\ ~ (0 < v /\ 0 < k)%Q.
Proof.
  unfold check_top_p. destruct (is_None p).
  - intros [= <-]. split; [split; discriminate|]. intros [H0 _]. now apply Qlt_irrefl in H0.
  - intros Hc. apply bind_Continue in Hc as (q & Hq & Hc).
    destruct (Qlt_bool 0 q && Qlt_bool 0 k) eqn:Hboth; [discriminate|].
    apply bind_Continue in Hc as (u & Hg & Hc). injection Hc as <-.
    apply guard_Continue, negb_false_iff, andb_true_iff in Hg as [Ha Hb].
    split; [split; now apply Qle_bool_iff|].
    intros [Hq0 Hk0]. apply andb_false_iff in Hboth as [Hf|Hf];
      apply Qlt_bool_false in Hf.
    + now apply (Qlt_not_le _ _ Hq0).
    + now apply (Qlt_not_le _ _ Hk0).
Qed.

Lemma check_beam_Continue (w : obj) (bs : Z) (u : unit) :
  check_beam w bs = Continue u ->
  w = PyNone \/ (isinstance_int w = true /\ bs <= 1 /\
                 exists q, as_num w = Ok q /\ (1 <= q)%Q).
Proof.
  unfold check_beam. destruct (is_None w) eqn:Hn.
  - intros _. left. destruct w; simpl in Hn; congruence.
  - destruct (isinstance_int w) eqn:Hi; simpl; [|discriminate].
    intros Hc. right. apply bind_Continue in Hc as (q & Hq & Hc).
    apply bind_Continue in Hc as (u' & Hg & Hc).
    apply guard_Continue, Qlt_bool_false in Hg. apply lift_Continue in Hq.
    destruct (Z.ltb_spec 1 bs); [discriminate|].
    split; [reflexivity|]. split; [assumption|]. eauto.
Qed.

(** X1: Whenever validation lets a call through to generation, the engine
    configuration and every sampling parameter satisfy the documented
    preconditions. *)
Theorem megatron_generate_sound args bs ml mnt nb t tk tp kw s :
  megatron_generate args bs ml mnt nb t tk tp kw = Continue s ->
  admissible args /\
  (ml <> PyNone \/ mnt <> PyNone) /\
  (0 < s_temperature s <= 100)%Q /\
  (0 <= s_top_k s <= 1000)%Q /\
  (0 <= s_top_p s <= 1)%Q /\
  ~ (0 < s_top_p s /\ 0 < s_top_k s)%Q /\
  (0 <= s_top_p_decay s <= 1)%Q /\
  (0 <= s_top_p_bound s <= 1)%Q /\
  isinstance_bool (s_add_BOS s) = true /\
  (s_beam_width s = PyNone \/
   (isinstance_int (s_beam_width s) = true /\ bs <= 1 /\
    exists q, as_num (s_beam_width s) = Ok q /\ (1 <= q)%Q)).
Proof.
  unfold megatron_generate. intros Hc.
  apply bind_Continue in Hc as (u1 & Hg1 & Hc). apply guard_Continue in Hg1.
  apply bind_Continue in Hc as (u2 & Hg2 & Hc). apply guard_Continue in Hg2.
  apply bind_Continue in Hc as (u3 & Hg3 & Hc). apply guard_Continue in Hg3.
  apply bind_Continue in Hc as (u4 & Hg4 & Hc). apply guard_Continue in Hg4.
  apply bind_Continue in Hc as (u5 & Hg5 & Hc). apply guard_Continue in Hg5.
  apply bind_Continue in Hc as (u6 & Hg6 & Hc). apply guard_Continue in Hg6.
  apply bind_Continue in Hc as (t' & Ht & Hc).
  apply bind_Continue in Hc as (k' & Hk & Hc).
  apply bind_Continue in Hc as (p' & Hp & Hc).
  apply bind_Continue in Hc as (d' & Hd & Hc).
  apply bind_Continue in Hc as (b' & Hb & Hc).
  apply bind_Continue in Hc as (u7 & Hg7 & Hc). apply guard_Continue in Hg7.
  apply bind_Continue in Hc as (u8 & Hbeam & Hc).
  injection Hc as <-. simpl.
  apply check_temperature_range in Ht. apply check_top_k_range in Hk.
  apply check_top_p_range in Hp as [Hp Hex].
  apply check_closed_range in Hd, Hb. apply check_beam_Continue in Hbeam.
  apply negb_false_iff in Hg1, Hg7.
  apply bool_decide_eq_false in Hg4, Hg5.
  repeat split; try tauto; try assumption.
  - now apply String.eqb_eq.
  - now apply Z.ltb_ge.
  - destruct (recompute_granularity args); [exfalso; apply Hg4; discriminate | reflexivity].
  - destruct ml; simpl in Hg6; try (left; discriminate).
    destruct mnt; simpl in Hg6; (right; discriminate) || discriminate.
Qed.

Lemma megatron_generate_sound_witness :
  (0 < 1 # 2 <= 100)%Q /\ (0 <= inject_Z 40 <= 1000)%Q.
Proof.
  assert (megatron_generate gpt_args 3 (PyNum (PyInt 64)) PyNone PyNone
            (PyNum (PyFloat (1 # 2))) (PyNum (PyInt 40)) PyNone ∅ =
          Continue
            {| s_temperature := 1 # 2; s_top_k := inject_Z 40; s_top_p := 0;
               s_top_p_decay := 0; s_top_p_bound := 0; s_add_BOS := PyBool false;
               s_beam_width := PyNone |}) as Hrun by (vm_compute; reflexivity).
  destruct (megatron_generate_sound _ _ _ _ _ _ _ _ _ _ Hrun) as (_ & _ & Ht & Hk & _).
  exact (conj Ht Hk).
Defined.

End GenerateSoundness.

Module GeneratePromptFacts.
Import Tensor GPTBatch GeneratePrompt.




Lemma map_replicate {A B : Type} (f : A -> B) (n : nat) (x : A) :
  map f (replicate n x) = replicate n (f x).
Proof. induction n as [|n IH]; simpl; [reflexivity | now rewrite IH]. Qed.

(** X3: A budget of new tokens that is not positive is rejected, whether given
    directly or implied by [max_length]. *)
Lemma prepare_prompts_no_room inputs L mask ml mnt add_BOS eod (r : Z) :
  mnt = Some r \/ (mnt = None /\ ml = Some (r + L)) ->
  r <= 0 ->
  prepare_prompts inputs L mask ml mnt add_BOS eod =
    Err (ValueError "max_new_tokens must be greater than 0").
Proof.
  intros Hreq Hr. unfold prepare_prompts.
  destruct Hreq as [->|[-> ->]]; simpl.
  - destruct (Z.leb_spec r 0); [reflexivity | lia].
  - replace (r + L - L) with r by lia. destruct (Z.leb_spec r 0); [reflexivity | lia].
Qed.



Lemma prepare_prompts_no_room_witness :
  prepare_prompts [[5; 6; 7]] 3 None (Some 3) None false 0 =
    Err (ValueError "max_new_tokens must be greater than 0").
Proof.
  apply (prepare_prompts_no_room [[5; 6; 7]] 3 None (Some 3) None false 0 0).
  - right. split; reflexivity.
  - lia.
Defined.

End GeneratePromptFacts.

Module T5BatchFacts.
Import Tensor T5Mask T5Batch.

(** X4: The self-attention mask is symmetric: position [i] is masked for [j]
    exactly when [j] is masked for [i]. *)
Theorem attn_mask_postprocess_symmetric (m : list (list Z)) (b i j : nat) :
  entry3 (attn_mask_postprocess m) b i j = entry3 (attn_mask_postprocess m) b j i.
Proof.
  rewrite T5MaskFacts.attn_mask_postprocess_rows. unfold entry3.
  rewrite list_lookup_fmap. destruct (m !! b) as [r|]; simpl; [|reflexivity].
  rewrite !list_lookup_fmap.
  destruct (r !! i) as [vi|] eqn:Hi, (r !! j) as [vj|] eqn:Hj; simpl;
    rewrite ?list_lookup_fmap, ?Hi, ?Hj; cbn [fmap option_fmap option_map];
    try reflexivity.
  now rewrite Int64Facts.mul64_comm.
Qed.

Lemma lt_half_one : lt_half 1 = false.
Proof. reflexivity. Qed.

Lemma lt_half_zero : lt_half 0 = true.
Proof. reflexivity. Qed.

Lemma get_decoder_mask_rows (s : nat) :
  get_decoder_mask s =
  [imap (fun i row => imap (fun j (_ : Z) => (i <? j)%nat) row) (replicate s (replicate s 1))].
Proof.
  unfold get_decoder_mask, tril, ones3, map3. simpl. f_equal.
  change (map (map lt_half)) with (fmap (M := list) (map lt_half)).
  rewrite fmap_imap. apply imap_ext. intros i row Hrow. simpl.
  change (map lt_half) with (fmap (M := list) lt_half).
  rewrite fmap_imap. apply imap_ext. intros j x Hx. simpl.
  assert (x = 1) as ->.
  { apply list_elem_of_lookup_2, elem_of_replicate in Hrow as [-> _].
    now apply list_elem_of_lookup_2, elem_of_replicate in Hx as [-> _]. }
  destruct (Nat.leb_spec j i), (Nat.ltb_spec i j); try lia; reflexivity.
Qed.

Lemma get_decoder_mask_shape (s : nat) : shape3 1 s s (get_decoder_mask s).
Proof.
  rewrite get_decoder_mask_rows.
  split; [reflexivity|]. constructor; [|constructor].
  split; [now rewrite length_imap, length_replicate|].
  apply Forall_forall. intros row Hin.
  apply list_elem_of_lookup in Hin as [i Hi].
  rewrite list_lookup_imap in Hi.
  destruct (replicate s (replicate s 1) !! i) as [r|] eqn:Hr; [|discriminate].
  injection Hi as <-. rewrite length_imap.
  apply list_elem_of_lookup_2, elem_of_replicate in Hr as [-> _].
  apply length_replicate.
Qed.

(** X5: The decoder mask is causal: it has shape [[1, s, s]] and masks entry
    [(i, j)] exactly when [j] lies after [i]. *)
Theorem get_decoder_mask_causal (s : nat) :
  shape3 1 s s (get_decoder_mask s) /\
  forall i j, (i < s)%nat -> (j < s)%nat ->
    entry3 (get_decoder_mask s) 0 i j = Some (i <? j)%nat.
Proof.
  split; [apply get_decoder_mask_shape|]. rewrite get_decoder_mask_rows.
  - intros i j Hi Hj. unfold entry3. simpl.
    rewrite list_lookup_imap, lookup_replicate_2 by exact Hi. simpl.
    rewrite list_lookup_imap, lookup_replicate_2 by exact Hj. reflexivity.
Qed.

Lemma get_decoder_mask_causal_witness :
  entry3 (get_decoder_mask 3) 0 0 1 = Some true /\
  entry3 (get_decoder_mask 3) 0 1 0 = Some false.
Proof.
  destruct (get_decoder_mask_causal 3) as [_ Hentry].
  split; [apply (Hentry 0%nat 1%nat) | apply (Hentry 1%nat 0%nat)]; lia.
Defined.

Lemma broadcast_replicate_map {T A B C : Type} (g : A -> B -> C) (c : A) (G : T -> B)
    (m : list T) :
  broadcast g (replicate (length m) c) (map G m) = map (fun r => g c (G r)) m.
Proof.
  destruct m as [|a [|b m]]; try reflexivity.
  change (zip_with g (replicate (length (a :: b :: m)) c) (map G (a :: b :: m)) =
          map (fun r => g c (G r)) (a :: b :: m)).
  generalize (a :: b :: m). intros l.
  induction l as [|x l IH]; simpl; [reflexivity | now rewrite IH].
Qed.

Lemma get_enc_dec_mask_rows (m : list (list Z)) (dec : nat) :
  get_enc_dec_mask m dec = map (fun r => replicate dec (map (fun v => lt_half (1 * v)) r)) m.
Proof.
  unfold get_enc_dec_mask, broadcast3, unsqueeze1, ones3, map3.
  change (replicate 1 1) with [1].
  rewrite (broadcast_replicate_map (broadcast (broadcast Z.mul)) (replicate dec [1])
             (fun r => [r]) m).
  rewrite map_map. apply map_ext. intros r.
  rewrite T5MaskFacts.broadcast_one_r.
  rewrite GeneratePromptFacts.map_replicate. simpl. rewrite GeneratePromptFacts.map_replicate.
  now rewrite map_map.
Qed.

Lemma get_enc_dec_mask_shape (B S dec : nat) (m : list (list Z)) :
  shape2 B S m -> shape3 B dec S (get_enc_dec_mask m dec).
Proof.
  intros [HB HS]. rewrite get_enc_dec_mask_rows.
  split; [now rewrite length_map|].
  apply Forall_map. eapply Forall_impl; [exact HS|].
  intros r Hr. simpl in *. split; [apply length_replicate|].
  apply Forall_replicate. now rewrite length_map.
Qed.

(** X6: The encoder-decoder mask has shape [[B, dec, S]]; whether decoder
    position [i] may look at encoder position [j] depends on [j] alone:
    the entry is [mask[b][j] < 0.5] for every [i]. *)
Theorem get_enc_dec_mask_columns (B S dec : nat) (m : list (list Z)) :
  shape2 B S m ->
  shape3 B dec S (get_enc_dec_mask m dec) /\
  forall b i j r v,
    m !! b = Some r -> (i < dec)%nat -> r !! j = Some v ->
    entry3 (get_enc_dec_mask m dec) b i j = Some (lt_half v).
Proof.
  intros Hm. split; [now apply get_enc_dec_mask_shape|].
  rewrite get_enc_dec_mask_rows.
  - intros b i j r v Hb Hi Hj. unfold entry3.
    rewrite list_lookup_fmap, Hb. simpl.
    rewrite lookup_replicate_2 by exact Hi.
    rewrite list_lookup_fmap, Hj. simpl. f_equal. f_equal. now destruct v.
Qed.

Lemma get_enc_dec_mask_columns_witness :
  entry3 (get_enc_dec_mask [[1; 0; 1]] 2) 0 1 1 = Some (lt_half 0).
Proof.
  assert (shape2 1 3 [[1; 0; 1]]) as Hs by (split; [reflexivity | repeat constructor]).
  destruct (get_enc_dec_mask_columns 1 3 2 [[1; 0; 1]] Hs) as [_ Hentry].
  apply (Hentry 0%nat 1%nat 1%nat [1; 0; 1] 0); [reflexivity | lia | reflexivity].
Defined.

Lemma to_minus_1_take {A : Type} (row : list A) :
  GPTBatch.to_minus_1 row = take (length row - 1) row.
Proof.
  unfold GPTBatch.to_minus_1, py_slice, clamp_index.
  destruct (Z.ltb_spec 0 0) as [?|_]; [lia|].
  destruct (Z.ltb_spec (-1) 0) as [_|?]; [|lia].
  rewrite Z.min_l by lia. change (Z.to_nat 0) with 0%nat. rewrite drop_0.
  f_equal. lia.
Qed.

Lemma zip_with_map_l {A B C : Type} (g : B -> A -> C) (f : A -> B) (l : list A) :
  zip_with g (map f l) l = map (fun x => g (f x) x) l.
Proof. induction l as [|x l IH]; simpl; [reflexivity | now rewrite IH]. Qed.

(** Closed form of the derived decoder input, row by row. *)
Lemma decoder_input_from_labels_rows (labels : tensor2) :
  (1 <= ncols labels)%nat ->
  Forall (fun row => length row = ncols labels) (rows labels) ->
  decoder_input_from_labels labels =
    Ok {| ncols := ncols labels;
          rows := map (fun row =>
                         0 :: map (fun x => if x =? -100 then 0 else x)
                                (take (length row - 1) row)) (rows labels) |}.
Proof.
  intros HT Hrows. unfold decoder_input_from_labels.
  destruct (Nat.eqb_spec (ncols labels) 0) as [?|_]; [lia|].
  rewrite zip_with_map_l, !map_map. do 2 f_equal.
  apply map_ext_Forall. eapply Forall_impl; [exact Hrows|].
  intros row Hrow. simpl in Hrow. rewrite to_minus_1_take.
  destruct (length row) as [|n] eqn:Hn; [lia|]. reflexivity.
Qed.

Lemma decoder_input_from_labels_shape (B : nat) (labels : tensor2) :
  well_shaped B labels -> (1 <= ncols labels)%nat ->
  exists dec,
    decoder_input_from_labels labels = Ok dec /\
    ncols dec = ncols labels /\ well_shaped B dec.
Proof.
  intros [HB HT] HT1. eexists. split; [now apply decoder_input_from_labels_rows|].
  simpl. split; [reflexivity|].
  split; simpl; [now rewrite length_map|].
  apply Forall_map. eapply Forall_impl; [exact HT|].
  intros row Hrow. simpl in *. rewrite length_map, length_take. lia.
Qed.

(** X7: Without [decoder_input_ids], the decoder input is the labels shifted
    one position to the right: it has the shape of the labels, every row
    starts with 0 and continues with the labels but the last, and the
    ignore index -100 is replaced by 0, so that it never occurs. *)
Theorem decoder_input_shift_right (B : nat) (labels : tensor2) :
  well_shaped B labels -> (1 <= ncols labels)%nat ->
  exists dec,
    decoder_input_from_labels labels = Ok dec /\
    ncols dec = ncols labels /\ well_shaped B dec /\
    (forall b row, rows labels !! b = Some row ->
       exists drow,
         rows dec !! b = Some drow /\ drow !! 0%nat = Some 0 /\
         (forall j x, row !! j = Some x -> (S j < ncols labels)%nat ->
            drow !! S j = Some (if x =? -100 then 0 else x))) /\
    Forall (Forall (fun x => x <> -100)) (rows dec).
Proof.
  intros [HB HT] HT1. eexists. split; [now apply decoder_input_from_labels_rows|].
  simpl. split; [reflexivity|]. split; [|split].
  - split; simpl; [now rewrite length_map|].
    apply Forall_map. eapply Forall_impl; [exact HT|].
    intros row Hrow. simpl in *. rewrite length_map, length_take. lia.
  - intros b row Hb. eexists. split; [rewrite list_lookup_fmap, Hb; reflexivity|].
    split; [reflexivity|]. intros j x Hj Hlt. simpl.
    rewrite list_lookup_fmap, lookup_take_lt.
    + now rewrite Hj.
    + assert (length row = ncols labels) as Hlen.
      { eapply (proj1 (Forall_forall _ _) HT). eapply list_elem_of_lookup_2; eauto. }
      lia.
  - apply Forall_map. apply Forall_forall. intros row _. simpl.
    constructor; [discriminate|]. apply Forall_map. apply Forall_forall. intros x _. simpl.
    destruct (Z.eqb_spec x (-100)); [discriminate | assumption].
Qed.

Lemma decoder_input_shift_right_witness :
  exists dec,
    decoder_input_from_labels {| ncols := 3; rows := [[7; 8; -100]; [9; -100; -100]] |} = Ok dec /\
    rows dec = [[0; 7; 8]; [0; 9; 0]].
Proof.
  destruct (decoder_input_shift_right 2 {| ncols := 3; rows := [[7; 8; -100]; [9; -100; -100]] |})
    as (dec & Hrun & _).
  - split; [reflexivity|]. repeat constructor.
  - simpl. lia.
  - exists dec. split; [exact Hrun|].
    assert (Ok dec = Ok {| ncols := 3; rows := [[0; 7; 8]; [0; 9; 0]] |}) as Heq
      by (rewrite <- Hrun; reflexivity).
    injection Heq as ->. reflexivity.
Defined.

(** Labels without columns cannot be turned into a decoder input. *)
Lemma decoder_input_from_labels_no_columns (labels : tensor2) :
  ncols labels = 0%nat -> decoder_input_from_labels labels = Err IndexError.
Proof. intros H0. unfold decoder_input_from_labels. now rewrite H0. Qed.

(** X8: On a generic batch with [input_ids] and [attention_mask] of shape
    [[B, S]] and [labels] of shape [[B, T]], [T >= 1], the decoder returns
    tensors that fit together: decoder input and loss mask [[B, T]],
    encoder mask [[B, S, S]], decoder mask [[1, T, T]] and encoder-decoder
    mask [[B, T, S]]. *)
Theorem get_batch_transformer_shapes (data : dict tensor2) (rest : list (dict tensor2))
    (ids lab am : tensor2) (B : nat) :
  dict_lookup "input_ids" data = Some ids ->
  dict_lookup "labels" data = Some lab ->
  dict_lookup "attention_mask" data = Some am ->
  dict_lookup "decoder_input_ids" data = None ->
  well_shaped B am -> well_shaped B lab -> (1 <= ncols lab)%nat ->
  exists batch,
    get_batch_transformer (data :: rest) = Ok (batch, rest) /\
    tokens_enc batch = ids /\ labels batch = lab /\
    ncols (tokens_dec batch) = ncols lab /\ well_shaped B (tokens_dec batch) /\
    shape2 B (ncols lab) (loss_mask batch) /\
    shape3 B (ncols am) (ncols am) (enc_mask batch) /\
    shape3 1 (ncols lab) (ncols lab) (dec_mask batch) /\
    shape3 B (ncols lab) (ncols am) (enc_dec_mask batch).
Proof.
  intros Hids Hlab Ham Hdec Hsam Hslab HT.
  destruct (decoder_input_from_labels_shape B lab Hslab HT) as (dec & Hrun & Hcols & Hsdec).
  unfold get_batch_transformer, dict_getitem. rewrite Hids, Hlab, Ham, Hdec. simpl.
  rewrite Hrun. simpl. eexists. split; [reflexivity|]. simpl.
  split; [reflexivity|]. split; [reflexivity|]. split; [exact Hcols|].
  split; [exact Hsdec|]. split.
  { destruct Hslab as [HBl HTl]. unfold not_ignored. split; [now rewrite length_map|].
    apply Forall_map. eapply Forall_impl; [exact HTl|].
    intros row Hrow. simpl in *. now rewrite length_map. }
  split; [now apply T5MaskFacts.attn_mask_postprocess_shape|].
  rewrite Hcols. split; [apply get_decoder_mask_shape|].
  now apply get_enc_dec_mask_shape.
Qed.

Lemma get_batch_transformer_shapes_witness :
  exists batch,
    get_batch_transformer
      [[("input_ids", {| ncols := 2; rows := [[3; 4]] |});
        ("labels", {| ncols := 3; rows := [[7; 8; -100]] |});
        ("attention_mask", {| ncols := 2; rows := [[1; 0]] |})]] = Ok (batch, []) /\
    shape3 1 3 2 (enc_dec_mask batch).
Proof.
  destruct (get_batch_transformer_shapes
              [("input_ids", {| ncols := 2; rows := [[3; 4]] |});
               ("labels", {| ncols := 3; rows := [[7; 8; -100]] |});
               ("attention_mask", {| ncols := 2; rows := [[1; 0]] |})] []
              {| ncols := 2; rows := [[3; 4]] |}
              {| ncols := 3; rows := [[7; 8; -100]] |}
              {| ncols := 2; rows := [[1; 0]] |} 1)
    as (batch & Hrun & _ & _ & _ & _ & _ & _ & _ & Hed); try reflexivity.
  - split; [reflexivity|]. repeat constructor.
  - split; [reflexivity|]. repeat constructor.
  - simpl. lia.
  - exists batch. split; [exact Hrun | exact Hed].
Defined.

End T5BatchFacts.

Module GPTBatchMoreFacts.
Import Tensor GPTBatch.

Section Decoder.
Variable Masks : Type.
Variable get_ltor_masks_and_position_ids : list (list Z) -> Z -> bool -> bool -> bool -> Masks.

(** X9: The native decoder implements next-token prediction: on text of shape
    [[B, L + 1]] tokens and labels have shape [[B, L]], position [j] of the
    tokens is position [j] of the text and its label is position [j + 1]
    of the text. *)
Theorem get_batch_megatron_next_token (self : GPTTrainStep) (text : list (list Z))
    (B L : nat) :
  shape2 B (S L) text ->
  exists tokens labels masks,
    get_batch_megatron Masks get_ltor_masks_and_position_ids self text =
      (tokens, labels, masks) /\
    shape2 B L tokens /\ shape2 B L labels /\
    forall b row, text !! b = Some row ->
      exists trow lrow,
        tokens !! b = Some trow /\ labels !! b = Some lrow /\
        forall j, (j < L)%nat -> trow !! j = row !! j /\ lrow !! j = row !! S j.
Proof.
  intros [HB HL]. unfold get_batch_megatron. do 3 eexists. split; [reflexivity|].
  split; [|split].
  - split; [now rewrite length_map|]. apply Forall_map.
    eapply Forall_impl; [exact HL|]. intros row Hrow. simpl in *.
    rewrite T5BatchFacts.to_minus_1_take, length_take. lia.
  - split; [now rewrite length_map|]. apply Forall_map.
    eapply Forall_impl; [exact HL|]. intros row Hrow. simpl in *.
    rewrite GPTBatchFacts.from_1_drop, length_drop. lia.
  - intros b row Hb.
    assert (length row = S L) as Hlen.
    { eapply (proj1 (Forall_forall _ _) HL). eapply list_elem_of_lookup_2; eauto. }
    do 2 eexists. split; [rewrite list_lookup_fmap, Hb; reflexivity|].
    split; [rewrite list_lookup_fmap, Hb; reflexivity|].
    intros j Hj. split.
    + rewrite T5BatchFacts.to_minus_1_take. apply lookup_take_lt. lia.
    + rewrite GPTBatchFacts.from_1_drop. apply lookup_drop.
Qed.

(** X10: The generic decoder reduces to the native convention: for an
    end-of-document token in the [int64] range it returns what the native
    decoder returns on the batch with one end-of-document column appended,
    with the loss on end-of-document tokens masked. *)
Theorem get_batch_transformer_as_megatron (self : GPTTrainStep)
    (data : dict (list (list Z))) (rest : list (dict (list (list Z))))
    (input_ids : list (list Z)) :
  int64 (eod_token self) ->
  dict_lookup "input_ids" data = Some input_ids ->
  get_batch_transformer Masks get_ltor_masks_and_position_ids self (data :: rest) =
    Ok (get_batch_megatron Masks get_ltor_masks_and_position_ids
          {| eod_token := eod_token self; reset_position_ids := reset_position_ids self;
             reset_attention_mask := reset_attention_mask self; eod_mask_loss := true |}
          (map (fun seq => (seq ++ [eod_token self])%list) input_ids),
        rest).
Proof.
  intros Heod Hids. unfold get_batch_transformer, get_batch_megatron, dict_getitem.
  rewrite Hids. simpl. rewrite (Int64Facts.add64_0_l _ Heod).
  now rewrite GPTBatchFacts.concat_dim1_column.
Qed.

End Decoder.

Lemma get_batch_megatron_next_token_witness :
  exists tokens labels masks,
    get_batch_megatron unit (fun _ _ _ _ _ => tt)
      {| eod_token := 9; reset_position_ids := false; reset_attention_mask := false;
         eod_mask_loss := false |} [[1; 2; 3; 4]] = (tokens, labels, masks) /\
    shape2 1 3 tokens /\ shape2 1 3 labels.
Proof.
  destruct (get_batch_megatron_next_token unit (fun _ _ _ _ _ => tt)
              {| eod_token := 9; reset_position_ids := false;
                 reset_attention_mask := false; eod_mask_loss := false |}
              [[1; 2; 3; 4]] 1 3)
    as (tokens & labels & masks & Hrun & Ht & Hl & _).
  - split; [reflexivity|]. repeat constructor.
  - exists tokens, labels, masks. auto.
Defined.

Lemma get_batch_transformer_as_megatron_witness :
  get_batch_transformer unit (fun _ _ _ _ _ => tt)
    {| eod_token := 9; reset_position_ids := false; reset_attention_mask := false;
       eod_mask_loss := false |}
    [[("input_ids", [[1; 2; 3]])]] =
  Ok (([[1; 2; 3]], [[2; 3; 9]], tt), []).
Proof.
  apply (get_batch_transformer_as_megatron unit (fun _ _ _ _ _ => tt)
           {| eod_token := 9; reset_position_ids := false; reset_attention_mask := false;
              eod_mask_loss := false |}
           [("input_ids", [[1; 2; 3]])] [] [[1; 2; 3]]).
  - unfold int64. simpl. lia.
  - reflexivity.
Defined.

End GPTBatchMoreFacts.

Module DataLoaderMoreFacts.
Import Tensor DataLoader.

Lemma rbind_Ok {A B : Type} (m : result A) (k : A -> result B) (b : B) :
  m ≫= k = Ok b -> exists a, m = Ok a /\ k a = Ok b.
Proof. destruct m as [a|]; simpl; intros Hk; [eauto | discriminate]. Qed.

Lemma getitem_Ok (kwargs : gmap string kwval) k v :
  getitem kwargs k = Ok v -> kwargs !! k = Some v.
Proof. unfold getitem. destruct (kwargs !! k); intros [= ->]; reflexivity. Qed.

Lemma delitem_Ok (kwargs kwargs' : gmap string kwval) k :
  delitem kwargs k = Ok kwargs' -> kwargs' = delete k kwargs.
Proof. unfold delitem. destruct (kwargs !! k); intros [= <-]; reflexivity. Qed.

Lemma set_batch_size_Ok v n v' :
  set_batch_size v n = Ok v' -> exists o, v' = VObj o /\ batch_size_attr o = Some n.
Proof. destruct v; simpl; intros [= <-]. eauto. Qed.

Section WithEngine.
Context {World : Type} `{DataEngine World}.

(** The keyword arguments the generic branch hands to [DataLoader], by
    cases on the collected ones. *)
Lemma prepare_data_loader_generic_kwargs (table : gmap string kwval) (a : Args) (w : World)
    (dataloader : gmap string kwval) call :
  prepare_data_loader_generic table a w dataloader = Ok call ->
  let kwargs := collect_kwargs table dataloader in
  let m := micro_batch_size a * num_micro_batches a in
  (exists s', dataloader_kwargs call = <["sampler" := s']> kwargs /\
              kwargs !! "batch_size" = Some VNone) \/
  (exists b', dataloader_kwargs call =
                <["batch_sampler" := b']>
                  (delete "batch_size" (delete "shuffle" (delete "sampler" kwargs)))) \/
  (dataloader_kwargs call = <["batch_size" := VInt m]> (delete "batch_sampler" kwargs)).
Proof.
  intros Hrun. cbv zeta. unfold prepare_data_loader_generic in Hrun.
  set (kwargs := collect_kwargs table dataloader) in *.
  set (m := micro_batch_size a * num_micro_batches a) in *.
  apply rbind_Ok in Hrun as (bs & Hbs & Hrun).
  apply rbind_Ok in Hrun as (kwargs' & Hk & Hrun).
  apply rbind_Ok in Hrun as (ds & _ & Hrun).
  apply rbind_Ok in Hrun as (constructed & _ & Hrun). injection Hrun as <-. simpl.
  apply getitem_Ok in Hbs.
  destruct (is_VNone bs) eqn:Hnone.
  - assert (bs = VNone) as -> by (destruct bs; simpl in Hnone; congruence).
    apply rbind_Ok in Hk as (s & Hs & Hk).
    destruct (isinstance_BatchSampler s).
    + apply rbind_Ok in Hk as (s' & _ & Hk). injection Hk as <-. left. eauto.
    + apply rbind_Ok in Hk as (k1 & H1 & Hk). apply delitem_Ok in H1 as ->.
      apply rbind_Ok in Hk as (k2 & H2 & Hk). apply delitem_Ok in H2 as ->.
      apply rbind_Ok in Hk as (k3 & H3 & Hk). apply delitem_Ok in H3 as ->.
      apply rbind_Ok in Hk as (b & _ & Hk).
      apply rbind_Ok in Hk as (b' & _ & Hk). injection Hk as <-. right. left. eauto.
  - apply rbind_Ok in Hk as (k1 & H1 & Hk). apply delitem_Ok in H1 as ->.
    injection Hk as <-. right. right. reflexivity.
Qed.

(** X11: The rebuilt dataloader is never given both an explicit batch size and
    a batch sampler, a combination [DataLoader] refuses. *)
Theorem prepare_data_loader_exclusive_batching (table : gmap string kwval) pl (a : Args)
    (w : World) (dataloader : gmap string kwval) call :
  prepare_data_loader table pl a w dataloader = Ok (inl call) ->
  dataloader_kwargs call !! "batch_sampler" = None \/
  dataloader_kwargs call !! "batch_size" = None \/
  dataloader_kwargs call !! "batch_size" = Some VNone.
Proof.
  unfold prepare_data_loader. destruct (negb (megatron_dataset_flag a)).
  - intros Hrun. apply rbind_Ok in Hrun as (c & Hc & Hrun). injection Hrun as <-.
    destruct (prepare_data_loader_generic_kwargs table a w dataloader c Hc)
      as [(s' & -> & Hbs)|[(b' & ->)| ->]].
    + right. right. now rewrite lookup_insert_ne by discriminate.
    + right. left. rewrite lookup_insert_ne by discriminate. apply lookup_delete_eq.
    + left. rewrite lookup_insert_ne by discriminate. apply lookup_delete_eq.
  - intros Hrun. apply rbind_Ok in Hrun as (r & _ & Hrun). discriminate.
Qed.

(** X12: Every keyword argument other than the four batching ones reaches
    [DataLoader] with the value the original dataloader had for it (or the
    table's default). *)
Theorem prepare_data_loader_keeps_other_kwargs (table : gmap string kwval) pl (a : Args)
    (w : World) (dataloader : gmap string kwval) call (key : string) :
  prepare_data_loader table pl a w dataloader = Ok (inl call) ->
  ~ In key ["batch_size"; "sampler"; "shuffle"; "batch_sampler"] ->
  dataloader_kwargs call !! key =
    (fun d => default d (dataloader !! key)) <$> table !! key.
Proof.
  unfold prepare_data_loader. destruct (negb (megatron_dataset_flag a)).
  - intros Hrun Hkey. apply rbind_Ok in Hrun as (c & Hc & Hrun). injection Hrun as <-.
    rewrite <- DataLoaderFacts.collect_kwargs_lookup.
    assert (key <> "batch_size" /\ key <> "sampler" /\ key <> "shuffle" /\
            key <> "batch_sampler") as (H1 & H2 & H3 & H4).
    { simpl in Hkey. repeat split; intros ->; apply Hkey; auto 6. }
    destruct (prepare_data_loader_generic_kwargs table a w dataloader c Hc)
      as [(s' & -> & Hbs)|[(b' & ->)| ->]].
    + now rewrite lookup_insert_ne by congruence.
    + rewrite lookup_insert_ne by congruence. now rewrite !lookup_delete_ne by congruence.
    + rewrite lookup_insert_ne by congruence. now rewrite lookup_delete_ne by congruence.
  - intros Hrun. apply rbind_Ok in Hrun as (r & _ & Hrun). discriminate.
Qed.

(** *** Native mode *)

(** The loop appends to each list, chunk by chunk, what the engine's
    builder returns for that chunk. *)
Lemma build_per_chunk_entries provider (n : nat) :
  forall (k : nat) trs vas tes (a a0 : Args) (w w0 : World),
    chunk_state provider k a0 w0 = (a, w) ->
    length trs = k -> length vas = k -> length tes = k ->
    exists trs' vas' tes' a' w',
      build_per_chunk provider (map Z.of_nat (seq k n)) (trs, vas, tes) a w =
        ((trs', vas', tes'), a', w') /\
      length trs' = (k + n)%nat /\ length vas' = (k + n)%nat /\ length tes' = (k + n)%nat /\
      (forall i, (i < k)%nat ->
         trs' !! i = trs !! i /\ vas' !! i = vas !! i /\ tes' !! i = tes !! i) /\
      (forall i, (k <= i < k + n)%nat ->
         (trs' !! i, vas' !! i, tes' !! i) =
         let '(tr, va, te) := chunk_iterators provider i a0 w0 in (Some tr, Some va, Some te)).
Proof.
  induction n as [|n IH]; intros k trs vas tes a a0 w w0 Hst Ht Hv He.
  - simpl. exists trs, vas, tes, a, w. split; [reflexivity|].
    rewrite !Nat.add_0_r. repeat split; auto. intros i Hi. lia.
  - cbn [seq map build_per_chunk].
    assert (chunk_iterators provider k a0 w0 =
            fst (fst (engine_build_train_valid_test_data_iterators provider a
                        (set_virtual_pipeline_model_parallel_rank (Z.of_nat k) w)))) as Hit.
    { unfold chunk_iterators. now rewrite Hst. }
    assert (chunk_state provider (S k) a0 w0 =
            (snd (fst (engine_build_train_valid_test_data_iterators provider a
                         (set_virtual_pipeline_model_parallel_rank (Z.of_nat k) w))),
             snd (engine_build_train_valid_test_data_iterators provider a
                    (set_virtual_pipeline_model_parallel_rank (Z.of_nat k) w)))) as Hst'.
    { cbn [chunk_state]. rewrite Hst.
      now destruct (engine_build_train_valid_test_data_iterators provider a
                      (set_virtual_pipeline_model_parallel_rank (Z.of_nat k) w))
        as [[[[? ?] ?] ?] ?]. }
    destruct (engine_build_train_valid_test_data_iterators provider a
                (set_virtual_pipeline_model_parallel_rank (Z.of_nat k) w))
      as [[[[tr va] te] a1] w2].
    cbn [fst snd] in Hit, Hst'.
    destruct (IH (S k) (trs ++ [tr])%list (vas ++ [va])%list (tes ++ [te])%list
                a1 a0 w2 w0 Hst')
      as (trs' & vas' & tes' & a' & w' & Hrun & Hlt & Hlv & Hle & Hpre & Hnew);
      try (rewrite length_app; simpl; lia).
    exists trs', vas', tes', a', w'. split; [exact Hrun|].
    split; [lia|]. split; [lia|]. split; [lia|]. split.
    + intros i Hi. destruct (Hpre i ltac:(lia)) as (H1 & H2 & H3).
      rewrite H1, H2, H3. rewrite !lookup_app_l by lia. auto.
    + intros i Hi. destruct (Nat.eq_dec i k) as [->|Hne].
      * destruct (Hpre k ltac:(lia)) as (H1 & H2 & H3). rewrite H1, H2, H3, Hit.
        rewrite !lookup_app_r by lia.
        rewrite Ht, Hv, He, Nat.sub_diag. reflexivity.
      * apply Hnew. lia.
Qed.

(** X14: With virtual pipelining, native mode returns for each split a list
    with one entry per model chunk, exactly as the engine built it: entry
    [i] is what the engine's builder returned on its call for chunk [i],
    made with the virtual-pipeline rank set to [i] after the calls for the
    chunks before it.  Such a list is never [None], so no stand-in is
    substituted, whatever the entries are: an entry that is [None] stays
    [None]. *)
Theorem prepare_data_loader_virtual_pipeline (table : gmap string kwval) pl (a : Args)
    (w : World) (dataloader : gmap string kwval) (v : Z) :
  DataLoaderFacts.frame_preserving ->
  megatron_dataset_flag a = true ->
  num_micro_batches a <> 0 ->
  virtual_pipeline_model_parallel_size a = Some v ->
  let a1 :=
    match consumed_samples a with
    | Some c => set_consumed c a
    | None => set_consumed (0, 0, 0) a
    end in
  let a2 := set_micro_batch_size (micro_batch_size a1 * num_micro_batches a1) a1 in
  let provider := get_train_valid_test_datasets_provider pl a2 in
  let n := Z.to_nat (default 0 (model_len a)) in
  exists trs vas tes a' w',
    prepare_data_loader table pl a w dataloader =
      Ok (inr ((IteratorList trs, IteratorList vas, IteratorList tes), a', w')) /\
    length trs = n /\ length vas = n /\ length tes = n /\
    forall i, (i < n)%nat ->
      (trs !! i, vas !! i, tes !! i) =
      let '(tr, va, te) := chunk_iterators provider i a2 w in (Some tr, Some va, Some te).
Proof.
  intros Hframe Hflag Hn Hv a1 a2 provider n.
  unfold prepare_data_loader. rewrite Hflag. simpl.
  unfold prepare_data_loader_megatron. fold a1. fold a2.
  assert (num_micro_batches a1 = num_micro_batches a /\
          virtual_pipeline_model_parallel_size a1 = Some v /\
          model_len a1 = model_len a) as (Hn1 & Hv1 & Hl1).
  { unfold a1. destruct (consumed_samples a); simpl; auto. }
  unfold build_train_valid_test_data_iterators. fold provider.
  assert (virtual_pipeline_model_parallel_size a2 = Some v) as -> by exact Hv1.
  assert (model_len a2 = model_len a) as -> by exact Hl1.
  fold n.
  destruct (build_per_chunk_entries provider n 0 [] [] [] a2 a2 w w eq_refl eq_refl eq_refl
              eq_refl)
    as (trs & vas & tes & a3 & w1 & Hrun & Hlt & Hlv & Hle & _ & Hent).
  pose proof (DataLoaderFacts.build_per_chunk_frame provider (map Z.of_nat (seq 0 n))
                ([], [], []) a2 w Hframe) as [_ Hn3].
  rewrite Hrun in Hn3 |- *. simpl in Hn3.
  assert (num_micro_batches a3 = num_micro_batches a) as Hn3'.
  { rewrite Hn3. unfold a2. simpl. exact Hn1. }
  destruct (Z.eqb_spec (num_micro_batches a3) 0) as [Hz|_]; [congruence|].
  unfold _handle_megatron_data_iterator. simpl. rewrite !andb_false_r.
  do 5 eexists. split; [reflexivity|].
  split; [exact Hlt|]. split; [exact Hlv|]. split; [exact Hle|].
  intros i Hi. apply Hent. lia.
Qed.

(** X15: With a microbatch count of zero native mode cannot divide the
    micro-batch size back and raises. *)
Theorem prepare_data_loader_zero_division (table : gmap string kwval) pl (a : Args)
    (w : World) (dataloader : gmap string kwval) :
  DataLoaderFacts.frame_preserving ->
  megatron_dataset_flag a = true ->
  num_micro_batches a = 0 ->
  prepare_data_loader table pl a w dataloader = Err ZeroDivisionError.
Proof.
  intros Hframe Hflag Hn. unfold prepare_data_loader. rewrite Hflag. simpl.
  unfold prepare_data_loader_megatron.
  set (a1 := match consumed_samples a with
             | Some c => set_consumed c a
             | None => set_consumed (0, 0, 0) a
             end).
  assert (num_micro_batches a1 = 0) as Hn1.
  { unfold a1. destruct (consumed_samples a); simpl; exact Hn. }
  set (a2 := set_micro_batch_size (micro_batch_size a1 * num_micro_batches a1) a1).
  pose proof (DataLoaderFacts.build_iterators_frame pl a2 w Hframe) as [_ Hn3].
  destruct (build_train_valid_test_data_iterators pl a2 w) as [[[[tr va] te] a3] w1].
  simpl in Hn3. cbv zeta.
  assert (num_micro_batches a3 = 0) as -> by (rewrite Hn3; exact Hn1).
  reflexivity.
Qed.

End WithEngine.

Lemma prepare_data_loader_exclusive_batching_witness :
  exists call,
    prepare_data_loader DatalessRank.kwargs_table DatalessRank.plugin
      DatalessRank.generic_args (tt : DatalessRank.World) DatalessRank.loader_16 =
      Ok (inl call) /\
    dataloader_kwargs call !! "batch_sampler" = None.
Proof.
  assert (exists call,
    prepare_data_loader DatalessRank.kwargs_table DatalessRank.plugin
      DatalessRank.generic_args (tt : DatalessRank.World) DatalessRank.loader_16 =
      Ok (inl call)) as [call Hrun] by (vm_compute; eauto).
  exists call. split; [exact Hrun|].
  destruct (prepare_data_loader_exclusive_batching _ _ _ _ _ _ Hrun) as [Hb|[Hb|Hb]];
    [exact Hb | |];
    exfalso; revert Hb; vm_compute in Hrun; injection Hrun as <-; vm_compute; discriminate.
Defined.

Lemma prepare_data_loader_keeps_other_kwargs_witness :
  exists call,
    prepare_data_loader DatalessRank.kwargs_table DatalessRank.plugin
      DatalessRank.generic_args (tt : DatalessRank.World) DatalessRank.loader_16 =
      Ok (inl call) /\
    dataloader_kwargs call !! "drop_last" = Some (VBool false).
Proof.
  assert (exists call,
    prepare_data_loader DatalessRank.kwargs_table DatalessRank.plugin
      DatalessRank.generic_args (tt : DatalessRank.World) DatalessRank.loader_16 =
      Ok (inl call)) as [call Hrun] by (vm_compute; eauto).
  exists call. split; [exact Hrun|].
  rewrite (prepare_data_loader_keeps_other_kwargs _ _ _ _ _ _ "drop_last" Hrun).
  - reflexivity.
  - simpl. intros [Hk|[Hk|[Hk|[Hk|[]]]]]; discriminate.
Defined.

Lemma prepare_data_loader_virtual_pipeline_witness :
  exists trs vas tes a' w',
    prepare_data_loader DatalessRank.kwargs_table DatalessRank.plugin
      (DatalessRankMore.virtual_args 3) (tt : DatalessRank.World) ∅ =
      Ok (inr ((IteratorList trs, IteratorList vas, IteratorList tes), a', w')) /\
    length trs = 3%nat /\ trs !! 1%nat = Some None.
Proof.
  destruct (prepare_data_loader_virtual_pipeline DatalessRank.kwargs_table
              DatalessRank.plugin (DatalessRankMore.virtual_args 3)
              (tt : DatalessRank.World) ∅ 2)
    as (trs & vas & tes & a' & w' & Hrun & Hlt & _ & _ & Hent).
  - intros provider a w. split; reflexivity.
  - reflexivity.
  - discriminate.
  - reflexivity.
  - exists trs, vas, tes, a', w'. split; [exact Hrun|]. split; [exact Hlt|].
    pose proof (Hent 1%nat ltac:(simpl; lia)) as He. simpl in He.
    now injection He as -> _ _.
Defined.

Lemma prepare_data_loader_zero_division_witness :
  prepare_data_loader DatalessRank.kwargs_table DatalessRank.plugin
    DatalessRankMore.no_microbatches (tt : DatalessRank.World) ∅ = Err ZeroDivisionError.
Proof.
  apply (prepare_data_loader_zero_division DatalessRank.kwargs_table DatalessRank.plugin
           DatalessRankMore.no_microbatches (tt : DatalessRank.World) ∅).
  - intros provider a w. split; reflexivity.
  - reflexivity.
  - reflexivity.
Defined.

Lemma prepare_data_loader_unbatched_raises_witness :
  prepare_data_loader DatalessRank.kwargs_table DatalessRank.plugin
    DatalessRank.generic_args (tt : DatalessRank.World) DatalessRank.loader_unbatched =
  Err (AttributeError "batch_size").
Proof.
  apply (DataLoaderFacts.prepare_data_loader_unbatched_raises DatalessRank.kwargs_table
           DatalessRank.plugin DatalessRank.generic_args (tt : DatalessRank.World)
           DatalessRank.loader_unbatched (VObj DatalessRank.sequential_sampler)).
  - reflexivity.
  - intros k [<-|[<-|[<-|[<-|[]]]]]; vm_compute; eauto.
  - reflexivity.
  - reflexivity.
  - reflexivity.
  - reflexivity.
Defined.

End DataLoaderMoreFacts.

Module DummyDataLoaderFacts.
Import DummyDataLoader.

Lemma set_megatron_data_args_union (dataset_args args : gmap string obj) :
  set_megatron_data_args dataset_args args = dataset_args ∪ args.
Proof.
  unfold set_megatron_data_args.
  apply (map_fold_weak_ind (fun r m => r = m ∪ args)).
  - now rewrite (left_id_L ∅ (∪)).
  - intros i x m r _ ->. now rewrite insert_union_l.
Qed.

(** X16: After the dummy dataloader has written its dataset arguments into the
    argument namespace, the native-dataset flag is on whatever the caller
    passed for it, a keyword argument wins over the parser's value, the
    parser's value over the previous one, and every attribute that is not
    a dataset argument is as before. *)
Theorem dataset_args_precedence (parsed dataset_kwargs args : gmap string obj) :
  let args' := set_megatron_data_args (init parsed dataset_kwargs) args in
  args' !! "megatron_dataset_flag" = Some (PyBool true) /\
  forall key, key <> "megatron_dataset_flag" ->
    args' !! key =
      match dataset_kwargs !! key with
      | Some v => Some v
      | None =>
          match parsed !! key with
          | Some v => Some v
          | None => args !! key
          end
      end.
Proof.
  cbv zeta. rewrite set_megatron_data_args_union. unfold init. split.
  - apply lookup_union_Some_l. apply lookup_insert_eq.
  - intros key Hkey. rewrite lookup_union, lookup_insert_ne by congruence.
    rewrite lookup_union.
    destruct (dataset_kwargs !! key), (parsed !! key), (args !! key); reflexivity.
Qed.

Lemma dataset_args_precedence_witness :
  set_megatron_data_args
    (init {[ "seq_length" := PyNum (PyInt 512) ]}
          {[ "seq_length" := PyNum (PyInt 1024) ]})
    {[ "rank" := PyNum (PyInt 0) ]} !! "seq_length" = Some (PyNum (PyInt 1024)).
Proof.
  destruct (dataset_args_precedence {[ "seq_length" := PyNum (PyInt 512) ]}
              {[ "seq_length" := PyNum (PyInt 1024) ]}
              {[ "rank" := PyNum (PyInt 0) ]}) as [_ Hother].
  rewrite (Hother "seq_length") by discriminate. reflexivity.
Defined.

(** The flag cannot be switched off through the keyword arguments. *)
Example dataset_flag_forced :
  let args' :=
    set_megatron_data_args
      (init {[ "seq_length" := PyNum (PyInt 512) ]}
            {[ "megatron_dataset_flag" := PyBool false;
               "seq_length" := PyNum (PyInt 1024) ]})
      {[ "rank" := PyNum (PyInt 0) ]} in
  args' !! "megatron_dataset_flag" = Some (PyBool true) /\
  args' !! "seq_length" = Some (PyNum (PyInt 1024)) /\
  args' !! "rank" = Some (PyNum (PyInt 0)).
Proof. vm_compute. auto. Qed.

End DummyDataLoaderFacts.

Module ModelSetupFacts.
Import ModelSetup.

Section Provider.
Variable Config : Type.
Variable core_transformer_config_from_args : Args -> Config.

(** X17: A model is built exactly for the architectures bert, gpt and t5, with
    the pipeline flags that were asked for; any other architecture tag is
    a configuration error that names it. *)
Theorem model_provider_func_dispatch (pre post enc dec : bool) (args : Args) :
  (In (model_type_name args) ["bert"; "gpt"; "t5"] ->
   exists m,
     model_provider_func Config core_transformer_config_from_args pre post enc dec args =
       Ok m /\
     stage_flags Config m = (pre, post)) /\
  (~ In (model_type_name args) ["bert"; "gpt"; "t5"] ->
   model_provider_func Config core_transformer_config_from_args pre post enc dec args =
     Err (ValueError (String.append "Unsupported model type: " (model_type_name args)))).
Proof.
  unfold model_provider_func. split.
  - intros [Hn|[Hn|[Hn|[]]]]; rewrite <- Hn; simpl.
    + destruct (pretraining_flag args); eexists; split; reflexivity.
    + eexists; split; reflexivity.
    + eexists; split; reflexivity.
  - intros Hnot. simpl in Hnot.
    destruct (String.eqb_spec (model_type_name args) "bert") as [He|_]; [exfalso; auto|].
    destruct (String.eqb_spec (model_type_name args) "gpt") as [He|_]; [exfalso; auto|].
    destruct (String.eqb_spec (model_type_name args) "t5") as [He|_]; [exfalso; auto|].
    reflexivity.
Qed.

Variable _vocab_size_with_padding : Z -> Args -> Z.

(** X28: After [initialize], a BERT pre-training model is built with the binary
    head and two token types exactly when [num_labels] is 2, whatever
    [bert_binary_head] the arguments held before; a BERT fine-tuning model
    is a classifier with [num_labels] classes and two token types. *)
Theorem initialize_then_model_provider_bert (pre post enc dec : bool) (args : Args) :
  model_type_name args = "bert" ->
  let args' := initialize_flags _vocab_size_with_padding args in
  let config := core_transformer_config_from_args args' in
  model_provider_func Config core_transformer_config_from_args pre post enc dec args' =
    Ok (if pretraining_flag args
        then BertModel Config config (if num_labels args =? 2 then 2 else 0)
               (num_labels args =? 2) true pre post
        else Classification Config config (num_labels args) 2 pre post).
Proof.
  intros Hbert. cbv zeta. unfold initialize_flags. cbv zeta.
  match goal with
  | |- context [set_bert_binary_head true ?a] => set (a1 := a)
  end.
  assert (model_type_name a1 = "bert" /\ pretraining_flag a1 = pretraining_flag args /\
          num_labels a1 = num_labels args) as (H1 & H2 & H3).
  { unfold a1. destruct (padded_vocab_size args); simpl; auto. }
  rewrite H1, H2, H3. unfold model_provider_func.
  destruct (pretraining_flag args) eqn:Hpre, (num_labels args =? 2) eqn:Hn; simpl;
    rewrite H1, H2, ?H3; reflexivity.
Qed.

End Provider.

Lemma initialize_then_model_provider_bert_witness :
  model_provider_func unit (fun _ => tt) true true true true
    (initialize_flags (fun n _ => n)
       {| pretraining_flag := true; model_type_name := "bert";
          bert_binary_head := true; num_labels := 3;
          padded_vocab_size := None; orig_vocab_size := 30522; iteration := 7 |}) =
  Ok (BertModel unit tt 0 false true true true).
Proof.
  apply (initialize_then_model_provider_bert unit (fun _ => tt) (fun n _ => n)
           true true true true
           {| pretraining_flag := true; model_type_name := "bert";
              bert_binary_head := true; num_labels := 3;
              padded_vocab_size := None; orig_vocab_size := 30522; iteration := 7 |}).
  reflexivity.
Defined.

Lemma model_provider_func_dispatch_witness :
  model_provider_func unit (fun _ => tt) true false true true
    {| pretraining_flag := true; model_type_name := "llama";
       bert_binary_head := false; num_labels := 2;
       padded_vocab_size := None; orig_vocab_size := 50257; iteration := 0 |} =
  Err (ValueError "Unsupported model type: llama").
Proof.
  apply (model_provider_func_dispatch unit (fun _ => tt) true false true true
           {| pretraining_flag := true; model_type_name := "llama";
              bert_binary_head := false; num_labels := 2;
              padded_vocab_size := None; orig_vocab_size := 50257; iteration := 0 |}).
  simpl. intros [Hn|[Hn|[Hn|[]]]]; discriminate.
Defined.

End ModelSetupFacts.

Module EngineRunFacts.
Import Tensor Engine EngineRun.

(** X18: A freshly constructed engine has its counters at zero, no accumulated
    evaluation loss, and an optimizer that reports no skipped step; an
    architecture without a train-step handler is a configuration error
    unless a custom handler class is supplied. *)
Theorem MegatronEngine_init_fresh (custom : bool) (name : string) (n : Z) (o : loc)
    (h : Heap) :
  0 < n ->
  (custom = true \/ In name ["bert"; "gpt"; "t5"] ->
   exists handler e h',
     MegatronEngine_init custom name n o h = Ok (handler, e, h') /\
     iteration e = 0 /\ num_floating_point_operations_so_far e = 0%Q /\
     eval_total_loss_dict e = [] /\ optimizer e = o /\
     step_was_skipped {| wrapped_optimizer := o |} h' = Ok (PyBool false)) /\
  (custom = false -> ~ In name ["bert"; "gpt"; "t5"] ->
   MegatronEngine_init custom name n o h =
     Err (ValueError (String.append "Unsupported model type: " name))).
Proof.
  intros Hn. unfold MegatronEngine_init.
  destruct (Z.leb_spec n 0) as [?|_]; [lia|]. split.
  - intros Hsup.
    assert (exists handler,
      (if custom then Ok CustomTrainStep
       else if String.eqb name "bert" then Ok BertTrainStep
       else if String.eqb name "gpt" then Ok GPTTrainStep
       else if String.eqb name "t5" then Ok T5TrainStep
       else Err (ValueError (String.append "Unsupported model type: " name))) =
      Ok handler) as [handler ->].
    { destruct custom; [eauto|]. destruct Hsup as [?|[<-|[<-|[<-|[]]]]];
        [discriminate| | |]; simpl; eauto. }
    simpl. do 3 eexists. split; [reflexivity|]. simpl. repeat split.
    unfold step_was_skipped. simpl. apply EngineFacts.getattr_setattr.
  - intros -> Hnot. simpl in Hnot.
    destruct (String.eqb_spec name "bert") as [He|_]; [exfalso; auto|].
    destruct (String.eqb_spec name "gpt") as [He|_]; [exfalso; auto|].
    destruct (String.eqb_spec name "t5") as [He|_]; [exfalso; auto|].
    reflexivity.
Qed.

Lemma MegatronEngine_init_fresh_witness :
  exists handler e h',
    MegatronEngine_init false "gpt" 2 5%nat ∅ = Ok (handler, e, h') /\
    iteration e = 0 /\
    step_was_skipped {| wrapped_optimizer := 5%nat |} h' = Ok (PyBool false).
Proof.
  destruct (MegatronEngine_init_fresh false "gpt" 2 5%nat ∅) as [Hok _]; [lia|].
  destruct Hok as (handler & e & h' & Hrun & Hit & _ & _ & _ & Hskip).
  - right. simpl. auto.
  - exists handler, e, h'. auto.
Defined.

(** *** Parameter-sync callbacks *)

Lemma param_sync_comprehension_spec (cell : loc) (indices : list nat)
    (store : gmap loc nat) (acc : list callback) :
  fst (param_sync_comprehension cell indices store acc) =
    (acc ++ replicate (length indices) (FinishParamSyncLambda cell))%list /\
  (forall l, last indices = Some l ->
     snd (param_sync_comprehension cell indices store acc) !! cell = Some l).
Proof.
  revert store acc. induction indices as [|i rest IH]; intros store acc.
  - simpl. rewrite app_nil_r. split; [reflexivity | discriminate].
  - cbn [param_sync_comprehension].
    destruct (IH (<[cell := i]> store) (acc ++ [FinishParamSyncLambda cell])%list)
      as [Hfs Hstore].
    split.
    + rewrite Hfs. rewrite <- app_assoc. reflexivity.
    + intros l Hl. destruct rest as [|j rest'].
      * simpl in Hl. injection Hl as <-. simpl. apply lookup_insert_eq.
      * apply Hstore. exact Hl.
Qed.

(** X19: With several model chunks every parameter-sync callback, whatever its
    position in the list, finishes the parameter sync of the last chunk:
    the lambdas share one loop variable, which holds the last index once
    the list is built. *)
Theorem param_sync_func_late_binding {X : Type} (cell : loc) (n : nat)
    (store : gmap loc nat) :
  (2 <= n)%nat ->
  exists fs store',
    param_sync_func cell n store = (inr fs, store') /\ length fs = n /\
    forall i f (x : X), fs !! i = Some f -> call_param_sync store' f x = Some ((n - 1)%nat, x).
Proof.
  intros Hn. unfold param_sync_func.
  destruct (param_sync_comprehension_spec cell (seq 0 n) store []) as [Hfs Hstore].
  destruct (param_sync_comprehension cell (seq 0 n) store []) as [fs store'].
  simpl in Hfs, Hstore. rewrite length_seq in Hfs. subst fs.
  assert (store' !! cell = Some (n - 1)%nat) as Hcell.
  { apply Hstore. destruct n as [|n]; [lia|].
    rewrite seq_S, last_snoc. f_equal. simpl. lia. }
  destruct n as [|[|n]]; [lia | lia |].
  do 2 eexists. split; [reflexivity|]. split; [apply length_replicate|].
  intros i f x Hf. apply lookup_replicate_1 in Hf as [-> _].
  unfold call_param_sync. now rewrite Hcell.
Qed.

Lemma param_sync_func_late_binding_witness :
  exists fs store',
    param_sync_func 0%nat 3 ∅ = (inr fs, store') /\ length fs = 3%nat /\
    forall i f (x : string), fs !! i = Some f ->
      call_param_sync store' f x = Some (2%nat, x).
Proof.
  apply (param_sync_func_late_binding (X := string) 0%nat 3 ∅). lia.
Defined.

(** With a single chunk the one callback finishes the sync of chunk 0. *)
Example param_sync_func_single :
  let '(f, store) := param_sync_func 0%nat 1 ∅ in
  match f with
  | inl f => call_param_sync store f "x" = Some (0%nat, "x")
  | inr _ => False
  end.
Proof. reflexivity. Qed.

(** *** Splitting a batch into microbatches *)

Lemma py_slice_window {A : Type} (xs : list A) (i m : nat) :
  ((i + 1) * m <= length xs)%nat ->
  py_slice (Z.of_nat i * Z.of_nat m) ((Z.of_nat i + 1) * Z.of_nat m) xs =
    take m (drop (i * m) xs).
Proof.
  intros Hlen. unfold py_slice, clamp_index.
  destruct (Z.ltb_spec (Z.of_nat i * Z.of_nat m) 0) as [?|_]; [lia|].
  destruct (Z.ltb_spec ((Z.of_nat i + 1) * Z.of_nat m) 0) as [?|_]; [lia|].
  rewrite !Z.min_l by lia. f_equal; [lia|]. f_equal. lia.
Qed.

Lemma concat_windows {A : Type} (xs : list A) (m n k : nat) :
  List.concat (map (fun i => take m (drop (i * m) xs)) (seq k n)) =
    take (n * m) (drop (k * m) xs).
Proof.
  revert k. induction n as [|n IH]; intros k; simpl; [reflexivity|].
  rewrite IH. replace (S k * m)%nat with (k * m + m)%nat by lia.
  rewrite <- drop_drop. apply take_take_drop.
Qed.

Lemma chunk_windows (a : Args) (batch : dict tensor) (n m i : nat) :
  micro_batch_size a = Z.of_nat m -> (i < n)%nat ->
  Forall (fun kv => exists xs, snd kv = Vec xs /\ length xs = (n * m)%nat) batch ->
  chunk a batch (Z.of_nat i) = Ok (map (window m i) batch).
Proof.
  intros Hm Hi Hall. unfold chunk. rewrite Hm.
  induction Hall as [|[k t] batch (xs & Ht & Hlen) _ IH]; [reflexivity|].
  cbn [mapR]. rewrite IH. simpl in Ht. subst t. simpl.
  rewrite py_slice_window by nia. reflexivity.
Qed.

Lemma mapR_range {B : Type} (f : Z -> result B) (g : nat -> B) (n : nat) :
  (forall i, (i < n)%nat -> f (Z.of_nat i) = Ok (g i)) ->
  mapR f (range (Z.of_nat n)) = Ok (map g (seq 0 n)).
Proof.
  intros Hf. unfold range. rewrite Nat2Z.id.
  assert (Forall (fun i => (i < n)%nat) (seq 0 n)) as Hall.
  { apply Forall_forall. intros i Hi. apply list_elem_of_In, in_seq in Hi. lia. }
  induction Hall as [|i l Hi _ IH]; [reflexivity|].
  simpl. rewrite (Hf i Hi). simpl. now rewrite IH.
Qed.

Lemma dict_lookup_window (key : string) (m i : nat) (d : dict tensor) :
  dict_lookup key (map (window m i) d) = (fun t => snd (window m i (key, t))) <$> dict_lookup key d.
Proof.
  induction d as [|[k t] d IH]; [reflexivity|]. simpl.
  destruct (String.eqb k key); [reflexivity | exact IH].
Qed.

(** X20: A batch whose fields all hold [n * m] samples is cut, for [n >= 2]
    microbatches of size [m], into [n] chunks with the keys of the batch;
    every chunk holds [m] samples of each field, and the chunks put end to
    end give the field back: no sample is dropped, repeated or moved. *)
Theorem get_batch_data_iterator_partitions (a : Args) (e : MegatronEngine)
    (batch : dict tensor) (n m : nat) :
  num_micro_batches a = Z.of_nat n -> micro_batch_size a = Z.of_nat m ->
  (2 <= n)%nat -> module_len e <= 1 -> batch <> [] ->
  Forall (fun kv => exists xs, snd kv = Vec xs /\ length xs = (n * m)%nat) batch ->
  exists chunks,
    get_batch_data_iterator a e batch = Ok (Single (Some chunks)) /\
    length chunks = n /\
    Forall (fun c => keys c = keys batch) chunks /\
    forall key xs, dict_lookup key batch = Some (Vec xs) ->
      List.concat (map (field key) chunks) = xs /\
      Forall (fun c => length (field key c) = m) chunks.
Proof.
  intros Hn Hm Hn2 Hmod Hne Hall.
  exists (map (fun i => map (window m i) batch) (seq 0 n)).
  split; [|split; [|split]].
  - unfold get_batch_data_iterator.
    assert ((0 <? length batch)%nat = true) as ->.
    { destruct batch; [congruence|]. reflexivity. }
    rewrite Hn. destruct (Z.ltb_spec 1 (Z.of_nat n)) as [_|?]; [|lia].
    rewrite (mapR_range (chunk a batch) (fun i => map (window m i) batch) n).
    + simpl. destruct (Z.ltb_spec 1 (module_len e)) as [?|_]; [lia|]. reflexivity.
    + intros i Hi. now apply chunk_windows with (n := n).
  - now rewrite length_map, length_seq.
  - apply Forall_map. apply Forall_forall. intros i _. simpl.
    unfold keys. rewrite map_map. reflexivity.
  - intros key xs Hkey.
    assert (length xs = (n * m)%nat) as Hlen.
    { clear -Hall Hkey. induction Hall as [|[k t] d (ys & Ht & Hl) _ IH]; [discriminate|].
      simpl in Hkey, Ht. destruct (String.eqb k key); [|auto].
      injection Hkey as ->. injection Ht as <-. exact Hl. }
    assert (forall i, field key (map (window m i) batch) = take m (drop (i * m) xs)) as Hfield.
    { intros i. unfold field. rewrite dict_lookup_window, Hkey. reflexivity. }
    split.
    + rewrite map_map. rewrite (map_ext _ (fun i => take m (drop (i * m) xs)) Hfield).
      rewrite concat_windows. simpl. rewrite drop_0. apply take_ge. lia.
    + apply Forall_map. apply Forall_forall. intros i Hi. simpl.
      apply list_elem_of_In, in_seq in Hi.
      rewrite Hfield, length_take, length_drop. nia.
Qed.

Lemma get_batch_data_iterator_partitions_witness :
  exists chunks,
    get_batch_data_iterator MemoryEngine.start_args (self MemoryEngine.start_state)
      [("input_ids", Vec [1; 2]%Q); ("labels", Vec [3; 4]%Q)] = Ok (Single (Some chunks)) /\
    length chunks = 2%nat /\
    List.concat (map (field "labels") chunks) = [3; 4]%Q.
Proof.
  destruct (get_batch_data_iterator_partitions MemoryEngine.start_args
              (self MemoryEngine.start_state)
              [("input_ids", Vec [1; 2]%Q); ("labels", Vec [3; 4]%Q)] 2 1)
    as (chunks & Hrun & Hlen & _ & Hfields).
  - reflexivity.
  - reflexivity.
  - lia.
  - simpl. lia.
  - discriminate.
  - repeat constructor; simpl; eauto.
  - exists chunks. split; [exact Hrun|]. split; [exact Hlen|].
    apply (Hfields "labels" [3; 4]%Q). reflexivity.
Defined.

(** Without data there is nothing to iterate over: the engine is handed
    [None], once per model chunk with virtual pipelining. *)
Lemma get_batch_data_iterator_empty (a : Args) (e : MegatronEngine) :
  get_batch_data_iterator a e [] =
    Ok (if 1 <? module_len e
        then PerModelChunk (replicate (Z.to_nat (module_len e)) None)
        else Single None).
Proof. unfold get_batch_data_iterator. simpl. now destruct (1 <? module_len e). Qed.

(** *** Accumulating and logging evaluation losses *)

Lemma string_length_append (a b : string) :
  String.length (String.append a b) = (String.length a + String.length b)%nat.
Proof. induction a as [|c a IH]; simpl; [reflexivity | now rewrite IH]. Qed.

Lemma substring_whole (b : string) : String.substring 0 (String.length b) b = b.
Proof. induction b as [|c b IH]; simpl; [reflexivity | now rewrite IH]. Qed.

Lemma substring_append (a b : string) :
  String.substring (String.length a) (String.length b) (String.append a b) = b.
Proof. induction a as [|c a IH]; simpl; [apply substring_whole | exact IH]. Qed.

Lemma endswith_append (a b : string) : endswith (String.append a b) b = true.
Proof.
  unfold endswith. rewrite string_length_append.
  replace (String.length a + String.length b - String.length b)%nat
    with (String.length a) by lia.
  rewrite substring_append, String.eqb_refl.
  destruct (Nat.leb_spec (String.length b) (String.length a + String.length b)); [reflexivity | lia].
Qed.

Lemma keys_setitem {V : Type} (key : string) (v : V) (d : dict V) (k : string) :
  In k (keys (dict_setitem key v d)) <-> k = key \/ In k (keys d).
Proof.
  induction d as [|[k0 w] d IH]; simpl.
  - intuition.
  - destruct (String.eqb_spec k0 key) as [->|Hne]; simpl; [intuition|].
    rewrite IH. intuition.
Qed.

Lemma Forall_setitem {V : Type} (P : string * V -> Prop) (key : string) (v : V) (d : dict V) :
  (forall k, P (k, v)) -> Forall P d -> Forall P (dict_setitem key v d).
Proof.
  intros Hv Hd. induction Hd as [|[k0 w] d Hw Hd IH]; simpl.
  - constructor; [apply Hv | constructor].
  - destruct (String.eqb k0 key); constructor; auto.
Qed.

Lemma dict_lookup_unit (d : dict tensor) (key : string) :
  unit_shaped d -> In key (keys d) -> exists x, dict_lookup key d = Some (Vec [x]).
Proof.
  intros Hu Hin. induction Hu as [|[k t] d (x & Hx) _ IH]; [destruct Hin|].
  simpl in *. subst t. destruct (String.eqb_spec k key) as [_|Hne]; [eauto|].
  destruct Hin as [?|Hin]; [congruence | auto].
Qed.

Lemma get_or_zero_unit (d : dict tensor) (key : string) :
  unit_shaped d -> exists x, get_or_zero d key = Vec [x].
Proof.
  intros Hu. unfold get_or_zero. induction Hu as [|[k t] d (x & Hx) _ IH]; simpl; [eauto|].
  simpl in Hx. subst t. destruct (String.eqb k key); [eauto | exact IH].
Qed.

Section Accumulation.
Context `{TensorArith}.

Lemma accumulate_step (key : string) (y : Q) (total : dict tensor) :
  paired total -> unit_shaped total ->
  exists v n,
    tadd (get_or_zero total key) (Scalar y) = Ok v /\
    tadd (get_or_zero (dict_setitem key v total) (String.append key "_num_iters"))
         (Vec [1%Q]) = Ok n /\
    paired (dict_setitem (String.append key "_num_iters") n (dict_setitem key v total)) /\
    unit_shaped (dict_setitem (String.append key "_num_iters") n (dict_setitem key v total)).
Proof.
  intros Hp Hu.
  destruct (get_or_zero_unit total key Hu) as [x Hx].
  assert (unit_shaped (dict_setitem key (Vec [fadd x y]) total)) as Hu1.
  { apply Forall_setitem; [intros k; simpl; eauto | exact Hu]. }
  destruct (get_or_zero_unit _ (String.append key "_num_iters") Hu1) as [c Hc].
  exists (Vec [fadd x y]), (Vec [fadd c 1]).
  split; [rewrite Hx; reflexivity|]. split; [rewrite Hc; reflexivity|]. split.
  - intros k Hk Hsuf. apply keys_setitem. apply keys_setitem in Hk as [->|Hk].
    { now rewrite endswith_append in Hsuf. }
    apply keys_setitem in Hk as [->|Hk]; [now left|].
    right. apply keys_setitem. right. now apply Hp.
  - apply Forall_setitem; [intros k; simpl; eauto | exact Hu1].
Qed.

Lemma accumulate_eval_scalars (items total : dict tensor) :
  paired total -> unit_shaped total ->
  Forall (fun kv : string * tensor => is_scalar (snd kv) = true) items ->
  exists total', accumulate_eval items total = Ok total' /\ paired total' /\ unit_shaped total'.
Proof.
  intros Hp Hu Hitems. revert total Hp Hu.
  induction Hitems as [|[key t] items Ht _ IH]; intros total Hp Hu; [simpl; eauto|].
  destruct t as [y|]; [|discriminate].
  destruct (accumulate_step key y total Hp Hu) as (v & n & Hv & Hn & Hp' & Hu').
  cbn [accumulate_eval]. rewrite Hv. cbn [mbind result_bind rbind]. rewrite Hn.
  cbn [mbind result_bind rbind]. now apply IH.
Qed.

Lemma log_eval_keys_ok (d : dict tensor) (ks : list string) :
  paired d -> unit_shaped d -> (forall k, In k ks -> In k (keys d)) ->
  log_eval_keys d ks = Ok tt.
Proof.
  intros Hp Hu. induction ks as [|key ks IH]; intros Hks; [reflexivity|].
  cbn [log_eval_keys].
  assert (log_eval_keys d ks = Ok tt) as Hrest by (apply IH; intros k Hk; apply Hks; now right).
  destruct (endswith key "_num_iters") eqn:Hsuf; [exact Hrest|].
  assert (In key (keys d)) as Hkey by (apply Hks; now left).
  destruct (dict_lookup_unit d key Hu Hkey) as [x Hx].
  destruct (dict_lookup_unit d _ Hu (Hp key Hkey Hsuf)) as [c Hc].
  unfold dict_getitem. rewrite Hx, Hc. simpl. exact Hrest.
Qed.

(** X21: Accumulating zero-dimensional evaluation losses keeps the running
    totals well formed (each total a one-element tensor with its call
    counter), so that reporting them never raises: neither a key nor a
    scalar conversion can fail. *)
Theorem eval_logging_of_scalar_losses (items total : dict tensor) :
  paired total -> unit_shaped total ->
  Forall (fun kv : string * tensor => is_scalar (snd kv) = true) items ->
  exists total',
    accumulate_eval items total = Ok total' /\
    paired total' /\ unit_shaped total' /\
    log_eval_keys total' (keys total') = Ok tt.
Proof.
  intros Hp Hu Hitems.
  destruct (accumulate_eval_scalars items total Hp Hu Hitems) as (total' & Hacc & Hp' & Hu').
  exists total'. repeat split; try assumption.
  apply log_eval_keys_ok; auto.
Qed.

End Accumulation.

Lemma eval_logging_of_scalar_losses_witness :
  exists total',
    accumulate_eval [("lm loss", Scalar 2); ("sop loss", Scalar 1)] [] = Ok total' /\
    log_eval_keys total' (keys total') = Ok tt.
Proof.
  destruct (eval_logging_of_scalar_losses [("lm loss", Scalar 2); ("sop loss", Scalar 1)] [])
    as (total' & Hacc & _ & _ & Hlog).
  - intros k [].
  - constructor.
  - repeat constructor.
  - exists total'. auto.
Defined.

(** *** Tensor-valued evaluation losses *)

Lemma dict_lookup_setitem_eq {V : Type} (key : string) (v : V) (d : dict V) :
  dict_lookup key (dict_setitem key v d) = Some v.
Proof.
  induction d as [|[k w] d IH]; simpl.
  - now rewrite String.eqb_refl.
  - destruct (String.eqb k key) eqn:E; simpl; rewrite E; [reflexivity | exact IH].
Qed.

Lemma dict_lookup_setitem_ne {V : Type} (key k' : string) (v : V) (d : dict V) :
  k' <> key -> dict_lookup k' (dict_setitem key v d) = dict_lookup k' d.
Proof.
  intros Hne. induction d as [|[k w] d IH]; simpl.
  - destruct (String.eqb_spec key k'); [congruence | reflexivity].
  - destruct (String.eqb_spec k key) as [->|Hk]; simpl.
    + destruct (String.eqb_spec key k'); [congruence | reflexivity].
    + destruct (String.eqb k k'); [reflexivity | exact IH].
Qed.

Lemma dict_lookup_keys {V : Type} (key : string) (d : dict V) :
  In key (keys d) <-> exists v, dict_lookup key d = Some v.
Proof.
  induction d as [|[k w] d IH]; simpl.
  - split; [intros [] | intros [v Hv]; discriminate].
  - destruct (String.eqb_spec k key) as [->|Hne].
    + split; eauto.
    + rewrite IH. split; [intros [?|Hv]; [congruence | exact Hv] | auto].
Qed.

Lemma dict_lookup_In {V : Type} (key : string) (v : V) (d : dict V) :
  dict_lookup key d = Some v -> In (key, v) d.
Proof.
  induction d as [|[k w] d IH]; simpl; [discriminate|].
  destruct (String.eqb_spec k key) as [->|Hne]; [intros [= ->]; now left | auto].
Qed.

Lemma append_ne (key sfx : string) : sfx <> "" -> String.append key sfx <> key.
Proof.
  intros Hs Heq. apply (f_equal String.length) in Heq.
  rewrite string_length_append in Heq. destruct sfx; [congruence|]. simpl in Heq. lia.
Qed.

Lemma get_or_zero_unit_at (d : dict tensor) (key : string) :
  (forall t, dict_lookup key d = Some t -> exists x, t = Vec [x]) ->
  exists x, get_or_zero d key = Vec [x].
Proof.
  intros Hk. unfold get_or_zero. destruct (dict_lookup key d) as [t|]; simpl; eauto.
Qed.

Section TensorLosses.
Context `{TensorArith}.

Lemma tadd_unit_l (x : Q) (value : tensor) :
  exists zs, tadd (Vec [x]) value = Ok (Vec zs) /\
             forall xs, value = Vec xs -> length zs = length xs.
Proof.
  destruct value as [y|ys]; simpl.
  - eexists. split; [reflexivity | discriminate].
  - eexists. split; [reflexivity|]. intros xs [= <-]. apply length_map.
Qed.

(** Accumulating one loss dictionary into totals whose counters, and whose
    entries under the keys still to come, are one-element tensors: it
    succeeds, keeps the counters one-element tensors, and leaves a tensor
    entry with its number of elements. *)
Lemma accumulate_eval_tensors (items total : dict tensor) :
  paired total ->
  (forall k t, dict_lookup k total = Some t -> exists xs, t = Vec xs) ->
  (forall k t, dict_lookup k total = Some t -> endswith k "_num_iters" = true ->
     exists x, t = Vec [x]) ->
  (forall k t, In k (keys items) -> dict_lookup k total = Some t -> exists x, t = Vec [x]) ->
  NoDup (keys items) ->
  Forall (fun kv : string * tensor => endswith (fst kv) "_num_iters" = false) items ->
  exists total',
    accumulate_eval items total = Ok total' /\
    paired total' /\
    (forall k t, dict_lookup k total' = Some t -> exists xs, t = Vec xs) /\
    (forall k t, dict_lookup k total' = Some t -> endswith k "_num_iters" = true ->
       exists x, t = Vec [x]) /\
    (forall k t, ~ In k (keys items) -> endswith k "_num_iters" = false ->
       dict_lookup k total = Some t -> dict_lookup k total' = Some t) /\
    (forall k xs, In (k, Vec xs) items -> length xs <> 1%nat ->
       exists ys, dict_lookup k total' = Some (Vec ys) /\ length ys <> 1%nat).
Proof.
  revert total. induction items as [|[key value] rest IH];
    intros total Hp Hvec Hcnt Hpend Hnd Hsfx.
  - exists total. simpl. repeat split; auto. intros k xs [].
  - inversion Hnd as [|? ? Hfresh Hnd']; subst.
    inversion Hsfx as [|? ? Hkey Hsfx']; subst. simpl in Hkey.
    assert (~ In key (keys rest)) as Hfresh'.
    { intros Hin. now apply Hfresh, list_elem_of_In. }
    assert (forall k, In k (keys rest) -> endswith k "_num_iters" = false) as Hrest.
    { intros k Hk. apply in_map_iff in Hk as ([k' t] & <- & Hin).
      exact (proj1 (Forall_forall _ _) Hsfx' _ (proj2 (list_elem_of_In _ _) Hin)). }
    destruct (get_or_zero_unit_at total key) as [x Hx].
    { intros t. apply Hpend. now left. }
    destruct (tadd_unit_l x value) as (zs & Hadd & Hlen).
    set (counter := String.append key "_num_iters").
    assert (counter <> key) as Hck by (apply append_ne; discriminate).
    assert (endswith counter "_num_iters" = true) as Hcs by apply endswith_append.
    set (total1 := dict_setitem key (Vec zs) total).
    destruct (get_or_zero_unit_at total1 counter) as [c Hc].
    { intros t Ht. unfold total1 in Ht. rewrite dict_lookup_setitem_ne in Ht by exact Hck.
      now apply (Hcnt counter). }
    set (total2 := dict_setitem counter (Vec [fadd c 1]) total1).
    assert (forall k, k <> key -> k <> counter -> dict_lookup k total2 = dict_lookup k total)
      as Hother.
    { intros k H1 H2. unfold total2, total1. now rewrite !dict_lookup_setitem_ne. }
    assert (dict_lookup key total2 = Some (Vec zs)) as Hkey2.
    { unfold total2, total1. rewrite dict_lookup_setitem_ne by congruence.
      apply dict_lookup_setitem_eq. }
    assert (dict_lookup counter total2 = Some (Vec [fadd c 1])) as Hcnt2
      by apply dict_lookup_setitem_eq.
    destruct (IH total2) as (total' & Hacc & Hp' & Hvec' & Hcnt' & Hkeep & Hbad).
    + intros k Hk Hs. apply keys_setitem. apply keys_setitem in Hk as [->|Hk].
      { fold counter in Hcs. congruence. }
      apply keys_setitem in Hk as [->|Hk]; [now left|].
      right. apply keys_setitem. right. now apply Hp.
    + intros k t Ht. destruct (String.eqb_spec k counter) as [->|H2].
      { rewrite Hcnt2 in Ht. injection Ht as <-. eauto. }
      destruct (String.eqb_spec k key) as [->|H1].
      { rewrite Hkey2 in Ht. injection Ht as <-. eauto. }
      rewrite Hother in Ht by assumption. eauto.
    + intros k t Ht Hs. destruct (String.eqb_spec k counter) as [->|H2].
      { rewrite Hcnt2 in Ht. injection Ht as <-. eauto. }
      assert (k <> key) as H1 by congruence.
      rewrite Hother in Ht by assumption. eauto.
    + intros k t Hk Ht.
      assert (k <> key) as H1 by (intros ->; exact (Hfresh' Hk)).
      assert (k <> counter) as H2 by (intros ->; specialize (Hrest _ Hk); congruence).
      rewrite Hother in Ht by assumption. apply (Hpend k); [now right | exact Ht].
    + exact Hnd'.
    + exact Hsfx'.
    + exists total'. split.
      { cbn [accumulate_eval]. rewrite Hx, Hadd. cbn [mbind result_bind rbind].
        fold total1. fold counter. rewrite Hc. exact Hacc. }
      split; [exact Hp'|]. split; [exact Hvec'|]. split; [exact Hcnt'|]. split.
      * intros k t Hk Hs Ht. apply Hkeep; [simpl in Hk; tauto | exact Hs |].
        rewrite Hother; [exact Ht | simpl in Hk; intros ->; tauto | congruence].
      * intros k xs [Heq|Hin] Hxs.
        -- injection Heq as <- ->. exists zs. split.
           ++ apply Hkeep; [exact Hfresh' | exact Hkey | exact Hkey2].
           ++ now rewrite (Hlen xs eq_refl).
        -- now apply (Hbad k xs).
Qed.

Lemma log_eval_keys_tensor (d : dict tensor) (ks : list string) :
  paired d ->
  (forall k t, dict_lookup k d = Some t -> exists xs, t = Vec xs) ->
  (forall k t, dict_lookup k d = Some t -> endswith k "_num_iters" = true ->
     exists x, t = Vec [x]) ->
  (forall k, In k ks -> In k (keys d)) ->
  (exists k ys, In k ks /\ endswith k "_num_iters" = false /\
                dict_lookup k d = Some (Vec ys) /\ length ys <> 1%nat) ->
  log_eval_keys d ks = Err RuntimeError.
Proof.
  intros Hp Hvec Hcnt. induction ks as [|key ks IH]; intros Hks (k & ys & Hin & Hs & Hk & Hys).
  - destruct Hin.
  - cbn [log_eval_keys]. destruct (endswith key "_num_iters") eqn:Hsuf.
    + apply IH; [intros k' Hk'; apply Hks; now right|].
      exists k, ys. destruct Hin as [->|Hin]; [congruence | auto].
    + assert (In key (keys d)) as Hkey by (apply Hks; now left).
      destruct (proj1 (dict_lookup_keys key d) Hkey) as [t Ht].
      destruct (Hvec _ _ Ht) as [xs ->].
      destruct (proj1 (dict_lookup_keys _ d) (Hp key Hkey Hsuf)) as [n Hn].
      destruct (Hcnt _ _ Hn (endswith_append _ _)) as [c ->].
      unfold dict_getitem. rewrite Ht, Hn. cbn [mbind result_bind rbind].
      destruct xs as [|x [|x' xs]]; try reflexivity.
      simpl. apply IH; [intros k' Hk'; apply Hks; now right|].
      exists k, ys. destruct Hin as [->|Hin]; [|auto].
      rewrite Ht in Hk. injection Hk as <-. simpl in Hys. congruence.
Qed.

End TensorLosses.

(** *** The unified entry point *)

Section Forward.
Context {World : Type} `{ExternalEngine World} `{TrainingEngine World} `{TensorArith}.

(** The loss is the running sum of the zero-dimensional entries. *)
Lemma scalar_total_sum (d : dict tensor) (q : Q) :
  scalar_total d q = fold_left fadd (scalar_entries d) q.
Proof.
  revert q. induction d as [|[k [x|xs]] d IH]; intros q; simpl; [reflexivity| |]; apply IH.
Qed.

(** X23: A call of the engine in training mode (no tensorboard logging) is one
    training step: the iteration counter advances by exactly one, the
    consumed training samples by the global batch size, the optimizer
    wrapper reports whether the engine skipped the update, and the value
    returned is the sum of the zero-dimensional entries of the loss
    dictionary (tensor entries such as logits are left out of the loss),
    added one after the other to a zero tensor in the arithmetic of the
    tensors.  Whenever that arithmetic returns every result with a
    relative error of at most [u], the value differs from the exact sum of
    the [n] entries by at most [(1 + u)^n - 1] times the sum of their
    absolute values. *)
Theorem forward_training_step (log_params_norm : bool) (w : MegatronLMOptimizerWrapper)
    batch (st : State World) (lg : Logging) it loss sk gn nz h1 w1 :
  module_training (world st) = true ->
  tensorboard_dir (args st) = None ->
  wrapped_optimizer w = optimizer (self st) ->
  get_batch_data_iterator (args st) (self st) batch = Ok it ->
  engine_train_step (args st) it (optimizer (self st)) (heap st) (world st) =
    ((loss, sk, gn, nz), h1, w1) ->
  exists out st',
    forward log_params_norm batch st lg = Ok (out, st', lg) /\
    iteration (self st') = iteration (self st) + 1 /\
    consumed_train_samples (args st') =
      consumed_train_samples (args st) +
      get_data_parallel_world_size w1 * micro_batch_size (args st) * get_num_microbatches w1 /\
    consumed_valid_samples (args st') = consumed_valid_samples (args st) /\
    step_was_skipped w (heap st') = Ok (PyBool (sk =? 1)) /\
    let q := fsum (scalar_entries loss) in
    out = match model_output_class lg with
          | Some cls => ModelOutput cls (Scalar q) (dict_lookup "logits" loss)
          | None => Loss (Scalar q)
          end /\
    forall u, accurate u ->
      (Qabs (q - Qsum (scalar_entries loss)) <=
         ((1 + u) ^ Z.of_nat (length (scalar_entries loss)) - 1) *
         Qsum (map Qabs (scalar_entries loss)))%Q.
Proof.
  intros Htrain Htb Hw Hit Hstep. unfold forward. rewrite Htrain.
  rewrite (EngineFacts.train_step_run batch st it loss sk gn nz h1 w1 Hit Hstep).
  cbn [mbind result_bind rbind]. cbn [args self world heap].
  assert (tensorboard_dir
            (set_consumed_train
               (consumed_train_samples (args st) +
                get_data_parallel_world_size w1 * micro_batch_size (args st) *
                get_num_microbatches w1) (args st)) = None) as -> by exact Htb.
  cbn [mbind result_bind rbind]. rewrite scalar_total_sum. fold (fsum (scalar_entries loss)).
  destruct (model_output_class lg) as [cls|] eqn:Hcls;
    (do 2 eexists; split; [reflexivity|]; cbn [args self world heap];
     split; [reflexivity|]; split; [reflexivity|]; split; [reflexivity|];
     split; [unfold step_was_skipped; rewrite Hw; apply EngineFacts.getattr_setattr|];
     cbv zeta; split; [reflexivity|];
     intros u Hu; now apply RoundingFacts.fsum_error).
Qed.

(** X24: With tensorboard logging and [log_params_norm] both on, a training
    call fails after the step has run: the wrapper reads [self.model], an
    attribute its constructor never assigns. *)
Theorem forward_log_params_norm_raises batch (st : State World) (lg : Logging)
    it loss sk gn nz h1 w1 (dir : string) :
  module_training (world st) = true ->
  tensorboard_dir (args st) = Some dir ->
  get_batch_data_iterator (args st) (self st) batch = Ok it ->
  engine_train_step (args st) it (optimizer (self st)) (heap st) (world st) =
    ((loss, sk, gn, nz), h1, w1) ->
  forward true batch st lg = Err (AttributeError "model").
Proof.
  intros Htrain Htb Hit Hstep. unfold forward. rewrite Htrain.
  rewrite (EngineFacts.train_step_run batch st it loss sk gn nz h1 w1 Hit Hstep).
  cbn [mbind result_bind rbind]. cbn [args self world heap].
  assert (tensorboard_dir
            (set_consumed_train
               (consumed_train_samples (args st) +
                get_data_parallel_world_size w1 * micro_batch_size (args st) *
                get_num_microbatches w1) (args st)) = Some dir) as -> by exact Htb.
  reflexivity.
Qed.

(** X25: In evaluation mode a rank that is not the final pipeline stage returns
    a zero loss and no logits, and leaves the iteration counter, the
    operation count and the accumulated evaluation losses as they were. *)
Theorem forward_eval_off_last_stage (log_params_norm : bool) batch (st : State World)
    (lg : Logging) it loss_dicts w1 :
  module_training (world st) = false ->
  get_batch_data_iterator (args st) (self st) batch = Ok it ->
  forward_backward_func (args st) it (get_num_microbatches (world st)) (world st) =
    (loss_dicts, w1) ->
  is_pipeline_last_stage
    (if 1 <=? empty_unused_memory_level (args st) then empty_cache w1 else w1) = false ->
  exists out st',
    forward log_params_norm batch st lg = Ok (out, st', lg) /\
    out = match model_output_class lg with
          | Some cls => ModelOutput cls (Scalar 0) None
          | None => Loss (Scalar 0)
          end /\
    iteration (self st') = iteration (self st) /\
    num_floating_point_operations_so_far (self st') =
      num_floating_point_operations_so_far (self st) /\
    eval_total_loss_dict (self st') = eval_total_loss_dict (self st) /\
    heap st' = heap st.
Proof.
  intros Heval Hit Hfb Hlast. unfold forward. rewrite Heval.
  unfold eval_step. rewrite Hit. cbn [mbind result_bind rbind]. rewrite Hfb, Hlast.
  cbn [mbind result_bind rbind]. cbn [args self world heap]. simpl tensorboard_dir.
  destruct (tensorboard_dir (args st)) as [dir|];
    simpl; destruct (model_output_class lg);
    do 2 eexists; (split; [reflexivity|]); simpl; auto 10.
Qed.

End Forward.

Lemma forward_training_step_witness :
  exists out st',
    forward false MemoryEngine.one_batch MemoryEngine.start_state RunEngines.plain_logging =
      Ok (out, st', RunEngines.plain_logging) /\
    iteration (self st') = 8 /\
    step_was_skipped {| wrapped_optimizer := 0%nat |} (heap st') = Ok (PyBool true).
Proof.
  destruct (forward_training_step false {| wrapped_optimizer := 0%nat |}
              MemoryEngine.one_batch MemoryEngine.start_state RunEngines.plain_logging
              (Single (Some [ [("input_ids", Vec [1]%Q)]; [("input_ids", Vec [2]%Q)] ]))
              [("lm loss", Scalar 2)] 1 PyNone PyNone
              (heap MemoryEngine.start_state) (world MemoryEngine.start_state))
    as (out & st' & Hrun & Hit & _ & _ & Hskip & _); try reflexivity.
  exists out, st'. auto.
Defined.

Lemma forward_log_params_norm_raises_witness :
  forward true MemoryEngine.one_batch RunEngines.logging_state RunEngines.plain_logging =
    Err (AttributeError "model").
Proof.
  apply (forward_log_params_norm_raises MemoryEngine.one_batch RunEngines.logging_state
           RunEngines.plain_logging
           (Single (Some [ [("input_ids", Vec [1]%Q)]; [("input_ids", Vec [2]%Q)] ]))
           [("lm loss", Scalar 2)] 1 PyNone PyNone
           (heap RunEngines.logging_state) (world RunEngines.logging_state) "runs");
    reflexivity.
Defined.

Lemma forward_eval_off_last_stage_witness :
  exists out st',
    forward false MemoryEngine.one_batch RunEngines.middle_state RunEngines.plain_logging =
      Ok (out, st', RunEngines.plain_logging) /\
    out = Loss (Scalar 0) /\ iteration (self st') = 3.
Proof.
  destruct (forward_eval_off_last_stage false MemoryEngine.one_batch RunEngines.middle_state
              RunEngines.plain_logging
              (Single (Some [ [("input_ids", Vec [1]%Q)]; [("input_ids", Vec [2]%Q)] ]))
              [] false)
    as (out & st' & Hrun & Hout & Hit & _); try reflexivity.
  exists out, st'. auto.
Defined.

Section Report.
Context {World : Type} `{ExternalEngine World} `{TensorArith}.

(** X22: When it reports (tensorboard logging on, at least one iteration done),
    [log_eval_results] consumes the accumulated evaluation losses: with
    well-formed totals it returns, the totals start again from empty, and
    the counters, the arguments and the optimizer attributes are as
    before. *)
Theorem log_eval_results_resets (st : State World) (dir : string) :
  tensorboard_dir (args st) = Some dir -> iteration (self st) <> 0 ->
  paired (eval_total_loss_dict (self st)) ->
  unit_shaped (eval_total_loss_dict (self st)) ->
  exists st',
    log_eval_results st = Ok st' /\
    eval_total_loss_dict (self st') = [] /\
    iteration (self st') = iteration (self st) /\
    num_floating_point_operations_so_far (self st') =
      num_floating_point_operations_so_far (self st) /\
    args st' = args st /\ heap st' = heap st.
Proof.
  intros Htb Hit Hp Hu. unfold log_eval_results. rewrite Htb.
  destruct (Z.eqb_spec (iteration (self st)) 0) as [?|_]; [contradiction|].
  rewrite bool_decide_eq_false_2 by discriminate. simpl.
  rewrite log_eval_keys_ok by auto. simpl.
  eexists. split; [reflexivity|]. simpl. auto 10.
Qed.

(** X27: A loss dictionary that holds a tensor with other than one element along
    its first dimension, as the logits are, is accumulated without error,
    but the totals can no longer be reported: the next [log_eval_results]
    that reports raises on the conversion of that entry to a number. *)
Theorem eval_logging_of_tensor_loss_raises (items total : dict tensor) (key : string)
    (xs : list Q) :
  paired total -> unit_shaped total ->
  NoDup (keys items) ->
  Forall (fun kv : string * tensor => endswith (fst kv) "_num_iters" = false) items ->
  In (key, Vec xs) items -> length xs <> 1%nat ->
  exists total',
    accumulate_eval items total = Ok total' /\
    forall (st : State World) (dir : string),
      tensorboard_dir (args st) = Some dir -> iteration (self st) <> 0 ->
      eval_total_loss_dict (self st) = total' ->
      log_eval_results st = Err RuntimeError.
Proof.
  intros Hp Hu Hnd Hsfx Hin Hxs.
  assert (forall k t, dict_lookup k total = Some t -> exists x, t = Vec [x]) as Hunit.
  { intros k t Ht. apply dict_lookup_In in Ht.
    exact (proj1 (Forall_forall _ _) Hu _ (proj2 (list_elem_of_In _ _) Ht)). }
  destruct (accumulate_eval_tensors items total) as (total' & Hacc & Hp' & Hvec & Hcnt & _ & Hbad);
    try assumption.
  - intros k t Ht. destruct (Hunit k t Ht) as [x ->]. eauto.
  - intros k t Ht _. eauto.
  - intros k t _ Ht. eauto.
  - exists total'. split; [exact Hacc|]. intros st dir Htb Hit Hd.
    destruct (Hbad key xs Hin Hxs) as (ys & Hk & Hys).
    unfold log_eval_results. rewrite Htb, Hd.
    destruct (Z.eqb_spec (iteration (self st)) 0) as [?|_]; [contradiction|].
    rewrite bool_decide_eq_false_2 by discriminate. simpl.
    rewrite (log_eval_keys_tensor total' (keys total')); auto.
    exists key, ys. split; [apply dict_lookup_keys; eauto|]. split; [|auto].
    exact (proj1 (Forall_forall _ _) Hsfx _ (proj2 (list_elem_of_In _ _) Hin)).
Qed.

End Report.

Lemma log_eval_results_resets_witness :
  exists st',
    log_eval_results RunEngines.reporting_state = Ok st' /\
    eval_total_loss_dict (self st') = [].
Proof.
  destruct (log_eval_results_resets RunEngines.reporting_state "runs")
    as (st' & Hrun & Hd & _).
  - reflexivity.
  - discriminate.
  - intros k [<-|[<-|[]]] Hsuf; simpl; [auto | discriminate].
  - repeat constructor; simpl; eauto.
  - exists st'. auto.
Defined.

Lemma eval_logging_of_tensor_loss_raises_witness :
  exists total',
    accumulate_eval [("lm loss", Scalar 2); ("logits", Vec [1; 2]%Q)] [] = Ok total' /\
    forall (st : State MemoryEngine.World) (dir : string),
      tensorboard_dir (args st) = Some dir -> iteration (self st) <> 0 ->
      eval_total_loss_dict (self st) = total' ->
      log_eval_results st = Err RuntimeError.
Proof.
  apply (eval_logging_of_tensor_loss_raises (World := MemoryEngine.World)
           [("lm loss", Scalar 2); ("logits", Vec [1; 2]%Q)] [] "logits" [1; 2]%Q).
  - intros k [].
  - constructor.
  - simpl. constructor; [|constructor; [|constructor]].
    + intros Hin. apply list_elem_of_In in Hin. destruct Hin as [Hd|[]]. discriminate.
    + intros Hin. apply list_elem_of_In in Hin. destruct Hin.
  - repeat constructor.
  - simpl. auto.
  - simpl. lia.
Defined.

End EngineRunFacts.

Module LossesFacts.
Import Tensor Losses.

Lemma tmul1_same_length (a b : list Q) :
  length a = length b -> tmul1 a b = Ok (zip_with Qmult a b).
Proof.
  intros Hlen. unfold tmul1.
  destruct a as [|x [|x' a]], b as [|y [|y' b]]; try discriminate; try reflexivity.
  simpl in Hlen. injection Hlen as Hlen. simpl length.
  now rewrite Hlen, Nat.eqb_refl.
Qed.

Lemma weighted_sum_agree (mask a b : list Q) :
  agree_where_unmasked mask a b ->
  (Engine.Qsum (zip_with Qmult a mask) == Engine.Qsum (zip_with Qmult b mask))%Q.
Proof.
  intros (Ha & Hb & Hagree). revert a b Ha Hb Hagree.
  induction mask as [|m mask IH]; intros a b Ha Hb Hagree.
  - destruct a, b; try discriminate. reflexivity.
  - destruct a as [|x a], b as [|y b]; try discriminate.
    simpl. unfold Engine.Qsum in *. simpl.
    rewrite (IH a b).
    + destruct (Qeq_dec m 0) as [Hm|Hm].
      * rewrite Hm. now rewrite !Qmult_0_r.
      * rewrite (Hagree 0%nat m x y eq_refl eq_refl eq_refl Hm). reflexivity.
    + simpl in Ha. lia.
    + simpl in Hb. lia.
    + intros i m' x' y' Hm' Hx' Hy'. apply (Hagree (S i)); assumption.
Qed.

Section Loss.
Variable average_losses_across_data_parallel_group : list Q -> list Q.

(** X26: The loss ignores what the model predicts at masked-out positions:
    under a loss mask that does not sum to zero, two outputs that agree
    wherever the mask is non-zero give the same loss. *)
Theorem loss_func_ignores_masked (loss_mask out out' : list (list Q)) :
  ~ (Engine.Qsum (flatten loss_mask) == 0)%Q ->
  agree_where_unmasked (flatten loss_mask) (flatten out) (flatten out') ->
  (forall l, average_losses_across_data_parallel_group [l] <> []) ->
  exists q q' d d',
    loss_func average_losses_across_data_parallel_group loss_mask out = Ok (q, d) /\
    loss_func average_losses_across_data_parallel_group loss_mask out' = Ok (q', d') /\
    (q == q')%Q.
Proof.
  intros _ Hagree Havg. pose proof Hagree as (Ha & Hb & _).
  unfold loss_func. rewrite !tmul1_same_length by assumption.
  cbn [mbind result_bind rbind].
  pose proof (weighted_sum_agree _ _ _ Hagree) as Hsum.
  match goal with
  | |- context [average_losses_across_data_parallel_group [?l]] =>
      pose proof (Havg l) as H1;
      destruct (average_losses_across_data_parallel_group [l]) as [|v1 r1]; [congruence|]
  end.
  match goal with
  | |- context [average_losses_across_data_parallel_group [?l]] =>
      pose proof (Havg l) as H2;
      destruct (average_losses_across_data_parallel_group [l]) as [|v2 r2]; [congruence|]
  end.
  do 4 eexists. split; [reflexivity|]. split; [reflexivity|].
  now rewrite Hsum.
Qed.

End Loss.

Lemma loss_func_ignores_masked_witness :
  exists q q' d d',
    loss_func (fun l => l) [[1; 0]; [1; 1]]%Q [[2; 7]; [4; 6]]%Q = Ok (q, d) /\
    loss_func (fun l => l) [[1; 0]; [1; 1]]%Q [[2; 9]; [4; 6]]%Q = Ok (q', d') /\
    (q == q')%Q.
Proof.
  apply (loss_func_ignores_masked (fun l => l) [[1; 0]; [1; 1]]%Q
           [[2; 7]; [4; 6]]%Q [[2; 9]; [4; 6]]%Q).
  - intros Hz. vm_compute in Hz. discriminate.
  - split; [reflexivity|]. split; [reflexivity|].
    intros i m x y Hm Hx Hy Hnz.
    destruct i as [|[|[|[|i]]]]; simpl in Hm, Hx, Hy;
      try discriminate; injection Hm as <-; injection Hx as <-; injection Hy as <-;
      try reflexivity.
    exfalso. apply Hnz. reflexivity.
  - intros l. discriminate.
Defined.

End LossesFacts.
